(** * Settlement engine of the clicker back office

    A shallow embedding of the settlement computation and of the account
    status rule of the player's account-entry screen, in its three
    generations found in the repository:

    - [EntryV0]: [src/pages/player/AccountEntry.tsx] (profit/loss only);
    - [EntryV1]: the first document of [unnamed/part_002] (clicker, account
      holder, tax and referral split; derived account status);
    - [EntryV2]: the second document of [unnamed/part_002] (adds the broker
      commission and the account-level promo amount).

    JavaScript numbers are IEEE 754 binary64 values.  The embedding is
    written once over an interface of the arithmetic the source uses
    ([JsNumber]) and is instantiated twice: at the kernel's binary64 floats
    ([F64], the arithmetic the program runs on) and at the rationals
    ([Exact], the arithmetic the formulas are meant in). *)

From Stdlib Require Import Bool List String ZArith QArith Qfield Lqa Floats.
From Stdlib Require Import NArith Lia.
From Stdlib Require Ascii Uint63.
Import ListNotations.

Close Scope Q_scope.
#[local] Set Warnings "-inexact-float".

(** ** Numbers *)

(** The operations the source applies to numbers: the four arithmetic
    operators, the literals [0], [10] and [100], strict equality [===] and
    the conversion to a boolean that [x || 0] and [x ? a : b] perform
    ([false] on [0], [-0] and [NaN]). *)
Class JsNumber (N : Type) : Type := {
  num_add : N -> N -> N;
  num_sub : N -> N -> N;
  num_mul : N -> N -> N;
  num_div : N -> N -> N;
  num_zero : N;
  num_ten : N;
  num_hundred : N;
  num_eqb : N -> N -> bool;
  truthy : N -> bool;
  (** [0] is falsy. *)
  truthy_zero : truthy num_zero = false
}.

Declare Scope js_scope.
Delimit Scope js_scope with js.
Infix "+" := num_add : js_scope.
Infix "-" := num_sub : js_scope.
Infix "*" := num_mul : js_scope.
Infix "/" := num_div : js_scope.

Section Defaults.
Context {N : Type} {JN : JsNumber N}.

(** [x || 0] for a field that holds a number, or is [undefined], or is
    the empty string the form handlers store for an emptied input
    ([None] stands for both). *)
Definition orZero (x : option N) : N :=
  match x with
  | Some v => if truthy v then v else num_zero
  | None => num_zero
  end.

(** [x ? a : b] on such a field. *)
Definition present (x : option N) : bool :=
  match x with
  | Some v => truthy v
  | None => false
  end.

(** Truthiness of an optional string ([account.brokerId], [id]): [undefined]
    and the empty string are falsy. *)
Definition nonEmpty (s : option string) : bool :=
  match s with
  | Some s => negb (String.eqb s EmptyString)
  | None => false
  end.
End Defaults.

(** Binary64: the numbers of the running program. *)
Module F64.
#[global] Instance number : JsNumber float := {
  num_add := PrimFloat.add;
  num_sub := PrimFloat.sub;
  num_mul := PrimFloat.mul;
  num_div := PrimFloat.div;
  num_zero := 0%float;
  num_ten := 10%float;
  num_hundred := 100%float;
  num_eqb := PrimFloat.eqb;
  truthy := fun x => negb (PrimFloat.is_zero x || PrimFloat.is_nan x);
  truthy_zero := eq_refl
}.
End F64.

(** Rationals: the same formulas without rounding. *)
Module Exact.
#[global] Instance number : JsNumber Q := {
  num_add := Qplus;
  num_sub := Qminus;
  num_mul := Qmult;
  num_div := Qdiv;
  num_zero := 0%Q;
  num_ten := 10%Q;
  num_hundred := 100%Q;
  num_eqb := Qeq_bool;
  truthy := fun x => negb (Qeq_bool x 0%Q);
  truthy_zero := eq_refl
}.
End Exact.

(** ** Data shared by the three generations *)

Inductive AccountType := pph | legal.

(** [Account.status]. *)
Inductive AccountStatus := active | inactive | unused.

(** [Broker.commissionType]; [otherType] is any other stored string. *)
Inductive CommissionType := percentage | flat | both | otherType.

(** The outcome of awaiting a Firestore call inside a [try] block. *)
Inductive Fetch (A : Type) :=
| Fetched (a : A)
| Rejected.
Arguments Fetched {A} a.
Arguments Rejected {A}.

Definition AccountStatus_eqb (a b : AccountStatus) : bool :=
  match a, b with
  | active, active | inactive, inactive | unused, unused => true
  | _, _ => false
  end.



(** [UserData] of the authentication context. *)
Module User.
Record t {N : Type} := {
  uid : string;
  percentage : option N
}.
Arguments t : clear implicits.
End User.

(** A document of the [agents] collection, as the settlement reads it. *)
Module Agent.
Record t {N : Type} := {
  commissionPercentage : option N;
  flatCommission : option N
}.
Arguments t : clear implicits.
End Agent.

(** A document of the [brokers] collection, as the settlement reads it. *)
Module Broker.
Record t {N : Type} := {
  commissionType : CommissionType;
  commissionPercentage : option N;
  flatCommission : option N
}.
Arguments t : clear implicits.
End Broker.

(** ** Second document of [unnamed/part_002]: broker and promo amount *)

Module EntryV2.

Record Account {N : Type} := {
  type : AccountType;
  agentId : string;
  brokerId : option string;
  status : AccountStatus;
  depositAmount : option N;
  referralPercentage : option N;
  promoAmount : option N
}.
Arguments Account : clear implicits.

(** The numeric and identifying fields of [Entry]; the settled flags, the
    notes and the bookkeeping fields the computation never reads are left
    out.  The four raw inputs are optional because the form handlers
    store the empty string for an emptied input. *)
Record Entry {N : Type} := {
  id : option string;
  accountId : string;
  playerUid : string;
  date : string;
  startingBalance : option N;
  endingBalance : option N;
  refillAmount : option N;
  withdrawal : option N;
  profitLoss : N;
  clickerAmount : N;
  accHolderAmount : N;
  brokerAmount : N;
  companyAmount : N;
  taxableAmount : N;
  referralAmount : N;
  accountStatus : AccountStatus
}.
Arguments Entry : clear implicits.

Section WithNumber.
Context {N : Type} {JN : JsNumber N}.
Local Open Scope js_scope.

(** [{ ...prev, profitLoss }] *)
Definition setProfitLoss (prev : Entry N) (pl : N) : Entry N :=
  {| id := id prev; accountId := accountId prev;
     playerUid := playerUid prev; date := date prev;
     startingBalance := startingBalance prev;
     endingBalance := endingBalance prev;
     refillAmount := refillAmount prev;
     withdrawal := withdrawal prev;
     profitLoss := pl;
     clickerAmount := clickerAmount prev;
     accHolderAmount := accHolderAmount prev;
     brokerAmount := brokerAmount prev;
     companyAmount := companyAmount prev;
     taxableAmount := taxableAmount prev;
     referralAmount := referralAmount prev;
     accountStatus := accountStatus prev |}.

(** [{ ...prev, profitLoss, clickerAmount, accHolderAmount, brokerAmount,
    companyAmount, taxableAmount: taxAmount, referralAmount }] *)
Definition setAmounts (prev : Entry N)
    (pl clicker accHolder broker company tax referral : N) : Entry N :=
  {| id := id prev; accountId := accountId prev;
     playerUid := playerUid prev; date := date prev;
     startingBalance := startingBalance prev;
     endingBalance := endingBalance prev;
     refillAmount := refillAmount prev;
     withdrawal := withdrawal prev;
     profitLoss := pl;
     clickerAmount := clicker;
     accHolderAmount := accHolder;
     brokerAmount := broker;
     companyAmount := company;
     taxableAmount := tax;
     referralAmount := referral;
     accountStatus := accountStatus prev |}.

(** [(entry.startingBalance || 0) + (account?.promoAmount || 0)] *)
Definition effectiveStarting (entry : Entry N) (account : option (Account N)) : N :=
  orZero (startingBalance entry)
  + orZero (match account with Some a => promoAmount a | None => None end).

Definition computeProfitLoss (entry : Entry N) (account : option (Account N)) : N :=
  orZero (endingBalance entry) - effectiveStarting entry account
  + orZero (withdrawal entry) - orZero (refillAmount entry).

Definition computeClicker (pl : N) (userData : User.t N) : N :=
  pl * orZero (User.percentage userData) / num_hundred.

Definition computeAccHolder (pl : N) (agentData : option (Agent.t N)) : N :=
  match agentData with
  | Some a =>
      pl * orZero (Agent.commissionPercentage a) / num_hundred
      + orZero (Agent.flatCommission a)
  | None => num_zero
  end.

(** [let brokerAmount = 0; if (broker && account.brokerId) { ... }] *)
Definition computeBroker (pl : N) (broker : option (Broker.t N))
    (account : Account N) : N :=
  match broker with
  | Some b =>
      if nonEmpty (brokerId account) then
        match Broker.commissionType b with
        | percentage =>
            pl * orZero (Broker.commissionPercentage b) / num_hundred
        | flat => orZero (Broker.flatCommission b)
        | both =>
            pl * orZero (Broker.commissionPercentage b) / num_hundred
            + orZero (Broker.flatCommission b)
        | otherType => num_zero
        end
      else num_zero
  | None => num_zero
  end.

Definition computeTax (pl taxRate : N) : N := pl * taxRate / num_hundred.

(** [account.referralPercentage ? (profitLoss * account.referralPercentage) / 100 : 0] *)
Definition computeReferral (pl : N) (account : Account N) : N :=
  match referralPercentage account with
  | Some r => if truthy r then pl * r / num_hundred else num_zero
  | None => num_zero
  end.

(** The state update of [calculateAmounts] (lines 1064-1130): the new
    value of [currentEntry].  [agent] is the outcome of
    [getDoc(doc(db, 'agents', account.agentId))] followed by [.data()];
    a rejected read is caught and logged, and updates nothing. *)
Definition calculateAmounts (currentEntry : Entry N)
    (account : option (Account N)) (userData : option (User.t N))
    (broker : option (Broker.t N)) (taxRate : N)
    (agent : Fetch (option (Agent.t N))) : Entry N :=
  let profitLoss := computeProfitLoss currentEntry account in
  match account, userData with
  | Some account, Some userData =>
      match agent with
      | Fetched agentData =>
          let clickerAmount := computeClicker profitLoss userData in
          let accHolderAmount := computeAccHolder profitLoss agentData in
          let brokerAmount := computeBroker profitLoss broker account in
          let taxAmount := computeTax profitLoss taxRate in
          let referralAmount := computeReferral profitLoss account in
          let companyAmount :=
            profitLoss - clickerAmount - accHolderAmount - brokerAmount
            - taxAmount - referralAmount in
          setAmounts currentEntry profitLoss clickerAmount accHolderAmount
            brokerAmount companyAmount taxAmount referralAmount
      | Rejected => currentEntry
      end
  | _, _ => setProfitLoss currentEntry profitLoss
  end.

(** The state update of the editing effect (lines 1146-1220): the new
    value of [editingEntry].  The effect returns at once when there is
    no entry under edit, no account or no user. *)
Definition calculateEditingAmounts (editingEntry : option (Entry N))
    (account : option (Account N)) (userData : option (User.t N))
    (broker : option (Broker.t N)) (taxRate : N)
    (agent : Fetch (option (Agent.t N))) : option (Entry N) :=
  match editingEntry, account, userData with
  | Some entry, Some account, Some userData =>
      let profitLoss := computeProfitLoss entry (Some account) in
      match agent with
      | Fetched agentData =>
          let clickerAmount := computeClicker profitLoss userData in
          let accHolderAmount := computeAccHolder profitLoss agentData in
          let brokerAmount := computeBroker profitLoss broker account in
          let taxAmount := computeTax profitLoss taxRate in
          let referralAmount := computeReferral profitLoss account in
          let companyAmount :=
            profitLoss - clickerAmount - accHolderAmount - brokerAmount
            - taxAmount - referralAmount in
          Some (setAmounts entry profitLoss clickerAmount accHolderAmount
                  brokerAmount companyAmount taxAmount referralAmount)
      | Rejected => editingEntry
      end
  | _, _, _ => editingEntry
  end.

(** [useState(10)] (line 1026) and [fetchTaxRate] (lines 1035-1044) on
    the [taxRate] cell; [read] is the outcome of reading
    [settings/taxRate]: rejected, or its value when the document
    exists. *)
Definition initialTaxRate : N := num_ten.

Definition fetchTaxRate (read : Fetch (option N)) (taxRate : N) : N :=
  match read with
  | Fetched (Some value) => value
  | Fetched None => taxRate
  | Rejected => taxRate
  end.

(** [sorted[0]] of [[...entriesData].sort((a, b) => (b.date > a.date ? 1 : -1))]:
    an entry of the greatest date.  Between entries of one date the
    comparator is inconsistent and the choice is the engine's (the sort of
    Node puts the last listed first); the first listed is taken here, and
    the properties below that use it are about entries of distinct
    dates. *)
Fixpoint latestEntry (entriesData : list (Entry N)) : option (Entry N) :=
  match entriesData with
  | [] => None
  | e :: rest =>
      match latestEntry rest with
      | Some m => if String.ltb (date e) (date m) then Some m else Some e
      | None => Some e
      end
  end.

(** Lines 1305-1316: [startingBalance] of the entry form when there is
    no entry for today. *)
Definition prefillStartingBalance (accountType : option AccountType)
    (deposit : option N) (entriesData : list (Entry N)) : N :=
  let prefillStarting :=
    match accountType with
    | Some legal => num_zero
    | _ =>
        match latestEntry entriesData with
        | Some e => orZero (endingBalance e)
        | None => num_zero
        end
    end in
  match accountType with
  | Some legal => orZero deposit
  | _ => prefillStarting
  end.
End WithNumber.
End EntryV2.

(** ** First document of [unnamed/part_002]: split, tax rate, derived status *)

Module EntryV1.

(** The component's [Account]: it has no promo amount and no broker. *)
Record Account {N : Type} := {
  type : AccountType;
  agentId : string;
  status : AccountStatus;
  depositAmount : option N;
  referralPercentage : option N
}.
Arguments Account : clear implicits.

Record Entry {N : Type} := {
  id : option string;
  accountId : string;
  playerUid : string;
  date : string;
  startingBalance : option N;
  endingBalance : option N;
  refillAmount : option N;
  withdrawal : option N;
  profitLoss : N;
  clickerAmount : N;
  accHolderAmount : N;
  companyAmount : N;
  taxableAmount : N;
  referralAmount : N;
  accountStatus : AccountStatus
}.
Arguments Entry : clear implicits.

(** The document [accounts/<id>] as [fetchAccountData] reads it: [type]
    and [status] may be missing from the stored data. *)
Record AccountDoc {N : Type} := {
  doc_type : option AccountType;
  doc_agentId : string;
  doc_status : option AccountStatus;
  doc_depositAmount : option N;
  doc_referralPercentage : option N
}.
Arguments AccountDoc : clear implicits.

(** The part of Firestore the screen touches: the account document of the
    route's [id], the [entries] collection and the value of
    [settings/taxRate] when that document exists. *)
Record Db {N : Type} := {
  db_account : option (AccountDoc N);
  db_entries : list (Entry N);
  db_taxRate : option N
}.
Arguments Db : clear implicits.

(** The component state ([useState] cells). *)
Record State {N : Type} := {
  account : option (Account N);
  entries : list (Entry N);
  editingEntry : option (Entry N);
  currentEntry : Entry N;
  loading : bool;
  taxRate : N
}.
Arguments State : clear implicits.

Section WithNumber.
Context {N : Type} {JN : JsNumber N}.
Local Open Scope js_scope.

Definition setProfitLoss (prev : Entry N) (pl : N) : Entry N :=
  {| id := id prev; accountId := accountId prev;
     playerUid := playerUid prev; date := date prev;
     startingBalance := startingBalance prev;
     endingBalance := endingBalance prev;
     refillAmount := refillAmount prev;
     withdrawal := withdrawal prev;
     profitLoss := pl;
     clickerAmount := clickerAmount prev;
     accHolderAmount := accHolderAmount prev;
     companyAmount := companyAmount prev;
     taxableAmount := taxableAmount prev;
     referralAmount := referralAmount prev;
     accountStatus := accountStatus prev |}.

Definition setAmounts (prev : Entry N)
    (pl clicker accHolder company tax referral : N) : Entry N :=
  {| id := id prev; accountId := accountId prev;
     playerUid := playerUid prev; date := date prev;
     startingBalance := startingBalance prev;
     endingBalance := endingBalance prev;
     refillAmount := refillAmount prev;
     withdrawal := withdrawal prev;
     profitLoss := pl;
     clickerAmount := clicker;
     accHolderAmount := accHolder;
     companyAmount := company;
     taxableAmount := tax;
     referralAmount := referral;
     accountStatus := accountStatus prev |}.

Definition computeProfitLoss (entry : Entry N) : N :=
  orZero (endingBalance entry) - orZero (startingBalance entry)
  + orZero (withdrawal entry) - orZero (refillAmount entry).

Definition computeClicker (pl : N) (userData : User.t N) : N :=
  pl * orZero (User.percentage userData) / num_hundred.

Definition computeAccHolder (pl : N) (agentData : option (Agent.t N)) : N :=
  match agentData with
  | Some a =>
      pl * orZero (Agent.commissionPercentage a) / num_hundred
      + orZero (Agent.flatCommission a)
  | None => num_zero
  end.

Definition computeTax (pl taxRate : N) : N := pl * taxRate / num_hundred.

Definition computeReferral (pl : N) (account : Account N) : N :=
  match referralPercentage account with
  | Some r => if truthy r then pl * r / num_hundred else num_zero
  | None => num_zero
  end.

(** The split written by the three effects, for a given tax percentage. *)
Definition split (entry : Entry N) (account : Account N)
    (userData : User.t N) (taxPercentage : N)
    (agentData : option (Agent.t N)) : Entry N :=
  let profitLoss := computeProfitLoss entry in
  let clickerAmount := computeClicker profitLoss userData in
  let accHolderAmount := computeAccHolder profitLoss agentData in
  let taxAmount := computeTax profitLoss taxPercentage in
  let referralAmount := computeReferral profitLoss account in
  let companyAmount :=
    profitLoss - clickerAmount - accHolderAmount - taxAmount
    - referralAmount in
  setAmounts entry profitLoss clickerAmount accHolderAmount companyAmount
    taxAmount referralAmount.

(** [calculateAmounts] (lines 97-148). *)
Definition calculateAmounts (currentEntry : Entry N)
    (account : option (Account N)) (userData : option (User.t N))
    (taxRate : N) (agent : Fetch (option (Agent.t N))) : Entry N :=
  match account, userData with
  | Some account, Some userData =>
      match agent with
      | Fetched agentData =>
          split currentEntry account userData taxRate agentData
      | Rejected => currentEntry
      end
  | _, _ => setProfitLoss currentEntry (computeProfitLoss currentEntry)
  end.

(** The first editing effect, [calculateEditingAmounts] of lines
    165-208: it uses the [taxRate] state. *)
Definition calculateEditingAmounts (editingEntry : option (Entry N))
    (account : option (Account N)) (userData : option (User.t N))
    (taxRate : N) (agent : Fetch (option (Agent.t N)))
    : option (Entry N) :=
  match editingEntry, account, userData with
  | Some entry, Some account, Some userData =>
      match agent with
      | Fetched agentData =>
          Some (split entry account userData taxRate agentData)
      | Rejected => editingEntry
      end
  | _, _, _ => editingEntry
  end.

(** The second editing effect, also named [calculateEditingAmounts]
    (lines 225-269): [const taxPercentage = 10]. *)
Definition calculateEditingAmountsFixed (editingEntry : option (Entry N))
    (account : option (Account N)) (userData : option (User.t N))
    (agent : Fetch (option (Agent.t N))) : option (Entry N) :=
  match editingEntry, account, userData with
  | Some entry, Some account, Some userData =>
      match agent with
      | Fetched agentData =>
          Some (split entry account userData num_ten agentData)
      | Rejected => editingEntry
      end
  | _, _, _ => editingEntry
  end.

(** A change of a balance field of the entry under edit runs both
    editing effects, in the order of their declaration, each with its
    own read of the agent document; each reads the entry of the render
    that scheduled it and overwrites the seven computed fields through
    [setEditingEntry(prev => ...)].  The first leaves the raw inputs
    untouched, so the second computes from the same inputs.  The two
    reads race: this is the run in which the updates land in the order in
    which the effects were started; were the read of the second effect to
    land first, the update of the first would be the last one. *)
Definition editingEffects (editingEntry : option (Entry N))
    (account : option (Account N)) (userData : option (User.t N))
    (taxRate : N) (agent1 agent2 : Fetch (option (Agent.t N)))
    : option (Entry N) :=
  calculateEditingAmountsFixed
    (calculateEditingAmounts editingEntry account userData taxRate agent1)
    account userData agent2.

(** *** The screen's state and handlers *)

(** The initial [currentEntry] of [useState]. *)
Definition emptyEntry (routeId uid today : string) : Entry N :=
  {| id := None; accountId := routeId; playerUid := uid; date := today;
     startingBalance := Some num_zero; endingBalance := Some num_zero;
     refillAmount := Some num_zero; withdrawal := Some num_zero;
     profitLoss := num_zero; clickerAmount := num_zero;
     accHolderAmount := num_zero; companyAmount := num_zero;
     taxableAmount := num_zero; referralAmount := num_zero;
     accountStatus := active |}.

(** The state at mount; [useState(10)] is the default tax rate. *)
Definition initialState (routeId uid today : string) : State N :=
  {| account := None; entries := []; editingEntry := None;
     currentEntry := emptyEntry routeId uid today;
     loading := true; taxRate := num_ten |}.

Definition setTaxRate (st : State N) (v : N) : State N :=
  {| account := account st; entries := entries st;
     editingEntry := editingEntry st; currentEntry := currentEntry st;
     loading := loading st; taxRate := v |}.

(** [fetchTaxRate] (lines 85-94).  [read] is the outcome of
    [getDoc(doc(db, 'settings', 'taxRate'))]: rejected, or the value of
    the document when it exists. *)
Definition fetchTaxRate (read : Fetch (option N)) (st : State N) : State N :=
  match read with
  | Fetched (Some value) => setTaxRate st value
  | Fetched None => st
  | Rejected => st
  end.

(** The query [where('accountId','==',id), where('playerUid','==',uid)]. *)
Definition entriesQuery (routeId uid : string) (db : Db N) : list (Entry N) :=
  filter (fun e => String.eqb (accountId e) routeId
                   && String.eqb (playerUid e) uid) (db_entries db).

(** Lines 292-305: the status shown for the account. *)
Definition deriveStatus (stored : option AccountStatus) (size : nat)
    : AccountStatus :=
  let status := match stored with Some s => s | None => unused end in
  if Nat.ltb 0 size then active
  else if negb (AccountStatus_eqb status inactive) then unused
  else status.

(** Lines 331-335: the entry form when there is no entry for today. *)
Definition prefillEntry (prev : Entry N) (accountData : AccountDoc N)
    (status : AccountStatus) : Entry N :=
  {| id := id prev; accountId := accountId prev;
     playerUid := playerUid prev; date := date prev;
     startingBalance :=
       Some (match doc_type accountData with
             | Some legal => orZero (doc_depositAmount accountData)
             | _ => num_zero
             end);
     endingBalance := endingBalance prev;
     refillAmount := refillAmount prev;
     withdrawal := withdrawal prev;
     profitLoss := profitLoss prev;
     clickerAmount := clickerAmount prev;
     accHolderAmount := accHolderAmount prev;
     companyAmount := companyAmount prev;
     taxableAmount := taxableAmount prev;
     referralAmount := referralAmount prev;
     accountStatus :=
       if AccountStatus_eqb status unused then active else status |}.

(** [fetchAccountData] (lines 281-343), all reads succeeding. *)
Definition fetchAccountData (routeId uid today : string) (db : Db N)
    (st : State N) : State N :=
  if String.eqb routeId EmptyString then
    {| account := account st; entries := entries st;
       editingEntry := editingEntry st; currentEntry := currentEntry st;
       loading := false; taxRate := taxRate st |}
  else
    match db_account db with
    | Some accountData =>
        let entriesData := entriesQuery routeId uid db in
        let status := deriveStatus (doc_status accountData)
                        (List.length entriesData) in
        {| account :=
             Some {| type := match doc_type accountData with
                             | Some t => t | None => pph end;
                     agentId := doc_agentId accountData;
                     status := status;
                     depositAmount := doc_depositAmount accountData;
                     referralPercentage :=
                       doc_referralPercentage accountData |};
           entries := entriesData;
           editingEntry := editingEntry st;
           currentEntry :=
             match find (fun e => String.eqb (date e) today) entriesData with
             | Some todayEntry => todayEntry
             | None => prefillEntry (currentEntry st) accountData status
             end;
           loading := false; taxRate := taxRate st |}
    | None =>
        {| account := account st; entries := entries st;
           editingEntry := editingEntry st; currentEntry := currentEntry st;
           loading := false; taxRate := taxRate st |}
    end.

(** [updateDoc(doc(db, 'accounts', id), { status })]; it rejects when the
    document does not exist. *)
Definition updateAccountStatus (db : Db N) (s : AccountStatus)
    : Fetch (Db N) :=
  match db_account db with
  | Some a =>
      Fetched {| db_account :=
                   Some {| doc_type := doc_type a;
                           doc_agentId := doc_agentId a;
                           doc_status := Some s;
                           doc_depositAmount := doc_depositAmount a;
                           doc_referralPercentage :=
                             doc_referralPercentage a |};
                 db_entries := db_entries db;
                 db_taxRate := db_taxRate db |}
  | None => Rejected
  end.

(** [deleteDoc(doc(db, 'entries', entryId))]. *)
Definition deleteEntry (db : Db N) (entryId : string) : Db N :=
  {| db_account := db_account db;
     db_entries :=
       filter (fun e => match id e with
                        | Some i => negb (String.eqb i entryId)
                        | None => true
                        end) (db_entries db);
     db_taxRate := db_taxRate db |}.

(** [handleDeleteEntry] (lines 450-478).  [confirmed] is the answer to
    [window.confirm]. *)
Definition handleDeleteEntry (routeId uid today : string)
    (confirmed : bool) (entryId : string) (db : Db N) (st : State N)
    : Db N * State N :=
  if confirmed then
    let db1 := deleteEntry db entryId in
    let remaining := entriesQuery routeId uid db1 in
    let guard :=
      Nat.eqb (List.length remaining) 0
      && negb (match account st with
               | Some a => AccountStatus_eqb (status a) inactive
               | None => false
               end) in
    if guard then
      match updateAccountStatus db1 unused with
      | Fetched db2 => (db2, fetchAccountData routeId uid today db2 st)
      | Rejected => (db1, st)
      end
    else (db1, fetchAccountData routeId uid today db1 st)
  else (db, st).

(** [entryToSave] of [handleSubmit]: the raw inputs and the computed
    amounts pass through [|| 0]; [profitLoss] is spread as it is. *)
Definition entryToSave (e : Entry N) : Entry N :=
  {| id := id e; accountId := accountId e;
     playerUid := playerUid e; date := date e;
     startingBalance := Some (orZero (startingBalance e));
     endingBalance := Some (orZero (endingBalance e));
     refillAmount := Some (orZero (refillAmount e));
     withdrawal := Some (orZero (withdrawal e));
     profitLoss := profitLoss e;
     clickerAmount := orZero (Some (clickerAmount e));
     accHolderAmount := orZero (Some (accHolderAmount e));
     companyAmount := orZero (Some (companyAmount e));
     taxableAmount := orZero (Some (taxableAmount e));
     referralAmount := orZero (Some (referralAmount e));
     accountStatus := accountStatus e |}.

Definition hasId (i : string) (e : Entry N) : bool :=
  match id e with
  | Some j => String.eqb j i
  | None => false
  end.

(** [updateDoc(doc(db, 'entries', i), e)]; it rejects when there is no
    such document. *)
Definition updateEntry (db : Db N) (i : string) (e : Entry N)
    : Fetch (Db N) :=
  if existsb (hasId i) (db_entries db) then
    Fetched {| db_account := db_account db;
               db_entries :=
                 map (fun old => if hasId i old then e else old)
                     (db_entries db);
               db_taxRate := db_taxRate db |}
  else Rejected.

(** [addDoc(collection(db, 'entries'), e)]; [newId] is the identifier
    Firestore generates, under which the entry is read back. *)
Definition addEntry (db : Db N) (newId : string) (e : Entry N) : Db N :=
  {| db_account := db_account db;
     db_entries :=
       db_entries db ++
       [ {| id := Some newId; accountId := accountId e;
            playerUid := playerUid e; date := date e;
            startingBalance := startingBalance e;
            endingBalance := endingBalance e;
            refillAmount := refillAmount e;
            withdrawal := withdrawal e;
            profitLoss := profitLoss e;
            clickerAmount := clickerAmount e;
            accHolderAmount := accHolderAmount e;
            companyAmount := companyAmount e;
            taxableAmount := taxableAmount e;
            referralAmount := referralAmount e;
            accountStatus := accountStatus e |} ];
     db_taxRate := db_taxRate db |}.

(** [handleSubmit] (lines 363-415).  A rejected write is caught: the
    writes made so far stay and the screen is not refreshed.  The reload
    of line 409 is started without being awaited: the state given here is
    the one of the screen once that reload has landed, and until then the
    screen keeps the state it had, with the save button enabled again
    (line 413). *)
Definition handleSubmit (routeId uid today newId : string) (db : Db N)
    (st : State N) : Db N * State N :=
  let e := entryToSave (currentEntry st) in
  let saved :=
    match id (currentEntry st) with
    | Some i => if String.eqb i EmptyString then None else Some i
    | None => None
    end in
  let written :=
    match saved with
    | Some i =>
        match updateEntry db i e with
        | Fetched db1 => (db1, true)
        | Rejected => (db, false)
        end
    | None =>
        let db1 := addEntry db newId e in
        match account st with
        | Some a =>
            if AccountStatus_eqb (status a) unused then
              match updateAccountStatus db1 active with
              | Fetched db2 => (db2, true)
              | Rejected => (db1, false)
              end
            else (db1, true)
        | None => (db1, true)
        end
    end in
  let '(db1, ok) := written in
  if ok then
    match account st with
    | Some a =>
        if negb (AccountStatus_eqb (accountStatus (currentEntry st))
                   (status a)) then
          match updateAccountStatus db1
                  (accountStatus (currentEntry st)) with
          | Fetched db2 =>
              (db2, fetchAccountData routeId uid today db2 st)
          | Rejected => (db1, st)
          end
        else (db1, fetchAccountData routeId uid today db1 st)
    | None => (db1, fetchAccountData routeId uid today db1 st)
    end
  else (db1, st).

(** [handleInputChange('accountStatus', ...)] of the status toggle. *)
Definition toggleAccountStatus (st : State N) : State N :=
  let e := currentEntry st in
  {| account := account st; entries := entries st;
     editingEntry := editingEntry st;
     currentEntry :=
       {| id := id e; accountId := accountId e;
          playerUid := playerUid e; date := date e;
          startingBalance := startingBalance e;
          endingBalance := endingBalance e;
          refillAmount := refillAmount e;
          withdrawal := withdrawal e;
          profitLoss := profitLoss e;
          clickerAmount := clickerAmount e;
          accHolderAmount := accHolderAmount e;
          companyAmount := companyAmount e;
          taxableAmount := taxableAmount e;
          referralAmount := referralAmount e;
          accountStatus :=
            if AccountStatus_eqb (accountStatus e) active
            then inactive else active |};
     loading := loading st; taxRate := taxRate st |}.
End WithNumber.
End EntryV1.

(** ** [src/pages/player/AccountEntry.tsx]: profit/loss only *)

Module EntryV0.

Record Entry {N : Type} := {
  id : option string;
  accountId : string;
  playerUid : string;
  date : string;
  startingBalance : option N;
  endingBalance : option N;
  refillAmount : option N;
  withdrawal : option N;
  profitLoss : N;
  accountStatus : AccountStatus
}.
Arguments Entry : clear implicits.

(** The fields of the account document that [fetchAccountData] uses for
    the entry form. *)
Record AccountDoc {N : Type} := {
  doc_type : option AccountType;
  doc_status : option AccountStatus;
  doc_depositAmount : option N
}.
Arguments AccountDoc : clear implicits.

Section WithNumber.
Context {N : Type} {JN : JsNumber N}.
Local Open Scope js_scope.

Definition computeProfitLoss (entry : Entry N) : N :=
  orZero (endingBalance entry) - orZero (startingBalance entry)
  + orZero (withdrawal entry) - orZero (refillAmount entry).

(** The effect of lines 80-89 (and of lines 91-102 for the entry under
    edit): the state is set only when the value differs under [!==]. *)
Definition profitLossEffect (entry : Entry N) : Entry N :=
  let profitLoss' := computeProfitLoss entry in
  if negb (num_eqb profitLoss' (profitLoss entry)) then
    {| id := id entry; accountId := accountId entry;
       playerUid := playerUid entry; date := date entry;
       startingBalance := startingBalance entry;
       endingBalance := endingBalance entry;
       refillAmount := refillAmount entry;
       withdrawal := withdrawal entry;
       profitLoss := profitLoss';
       accountStatus := accountStatus entry |}
  else entry.

(** Lines 139-149: [currentEntry] after [fetchAccountData], given the
    entries read for the account and the player. *)
Definition fetchCurrentEntry (today : string) (accountData : AccountDoc N)
    (entriesData : list (Entry N)) (prev : Entry N) : Entry N :=
  match find (fun e => String.eqb (date e) today) entriesData with
  | Some todayEntry => todayEntry
  | None =>
      {| id := id prev; accountId := accountId prev;
         playerUid := playerUid prev; date := date prev;
         startingBalance :=
           Some (match doc_type accountData with
                 | Some legal => orZero (doc_depositAmount accountData)
                 | _ => num_zero
                 end);
         endingBalance := endingBalance prev;
         refillAmount := refillAmount prev;
         withdrawal := withdrawal prev;
         profitLoss := profitLoss prev;
         accountStatus :=
           match doc_status accountData with
           | Some s => s
           | None => active
           end |}
  end.
End WithNumber.
End EntryV0.

(** ** [src/pages/admin/Dashboard.tsx]: the tax rate shown to the admin *)

Module Dashboard.
Section WithNumber.
Context {N : Type} {JN : JsNumber N}.

(** [stats.taxRate] at mount (line 90). *)
Definition initialTaxRate : N := num_ten.

(** What [fetchTaxRate] (lines 115-126) sets [stats.taxRate] to.  It is
    not the only writer of that cell: [fetchStats], started by the same
    effect, ends with [setStats({..., taxRate: stats.taxRate})] (line 607)
    and so puts back the rate of the render it was started from. *)
Definition fetchTaxRate (read : Fetch (option N)) (taxRate : N) : N :=
  match read with
  | Fetched (Some rate) => rate
  | Fetched None => taxRate
  | Rejected => taxRate
  end.
End WithNumber.
End Dashboard.

(** ** More of the first document of [unnamed/part_002] *)

Module ScreenV1.
Section WithNumber.
Context {N : Type} {JN : JsNumber N}.

(** [setEditingEntry(e)]: the edit button of a listed entry passes the
    entry, saving or cancelling passes [null]. *)
Definition setEditingEntry (st : EntryV1.State N)
    (e : option (EntryV1.Entry N)) : EntryV1.State N :=
  {| EntryV1.account := EntryV1.account st;
     EntryV1.entries := EntryV1.entries st;
     EntryV1.editingEntry := e;
     EntryV1.currentEntry := EntryV1.currentEntry st;
     EntryV1.loading := EntryV1.loading st;
     EntryV1.taxRate := EntryV1.taxRate st |}.

(** [handleEditEntry] (lines 417-448).  Without an entry under edit it
    returns at once; an entry without identifier makes [doc(...)] throw and
    a missing document makes [updateDoc] reject, both caught with nothing
    changed. *)
Definition handleEditEntry (routeId uid today : string) (db : EntryV1.Db N)
    (st : EntryV1.State N) : EntryV1.Db N * EntryV1.State N :=
  match EntryV1.editingEntry st with
  | None => (db, st)
  | Some e =>
      match EntryV1.id e with
      | Some i =>
          match EntryV1.updateEntry db i (EntryV1.entryToSave e) with
          | Fetched db1 =>
              (db1, EntryV1.fetchAccountData routeId uid today db1
                      (setEditingEntry st None))
          | Rejected => (db, st)
          end
      | None => (db, st)
      end
  end.
End WithNumber.
End ScreenV1.

(** ** More of the second document of [unnamed/part_002] *)

Module ScreenV2.

(** The document [accounts/<id>] as [fetchAccountData] reads it. *)
Record AccountDoc {N : Type} := {
  doc_type : option AccountType;
  doc_agentId : string;
  doc_brokerId : option string;
  doc_status : option AccountStatus;
  doc_depositAmount : option N;
  doc_referralPercentage : option N;
  doc_promoAmount : option N
}.
Arguments AccountDoc : clear implicits.

(** The part of Firestore that [fetchAccountData] reads for the amounts:
    the account document of the route's [id], the [brokers] collection by
    document identifier, and the [entries] collection. *)
Record Db {N : Type} := {
  db_account : option (AccountDoc N);
  db_brokers : list (string * Broker.t N);
  db_entries : list (EntryV2.Entry N)
}.
Arguments Db : clear implicits.

(** The state cells that [fetchAccountData] and [fetchBrokerData] set. *)
Record State {N : Type} := {
  account : option (EntryV2.Account N);
  broker : option (Broker.t N);
  entries : list (EntryV2.Entry N);
  currentEntry : EntryV2.Entry N;
  loading : bool
}.
Arguments State : clear implicits.

Section WithNumber.
Context {N : Type} {JN : JsNumber N}.

(** [getDoc(doc(db, 'brokers', brokerId))] *)
Definition getBroker (db : Db N) (brokerId : string) : option (Broker.t N) :=
  match find (fun d => String.eqb (fst d) brokerId) (db_brokers db) with
  | Some d => Some (snd d)
  | None => None
  end.

(** [fetchBrokerData] (lines 1046-1058): the broker is set only when its
    document exists. *)
Definition fetchBrokerData (brokerId : string) (db : Db N) (st : State N)
    : State N :=
  match getBroker db brokerId with
  | Some b =>
      {| account := account st; broker := Some b; entries := entries st;
         currentEntry := currentEntry st; loading := loading st |}
  | None => st
  end.

Definition entriesQuery (routeId uid : string) (db : Db N)
    : list (EntryV2.Entry N) :=
  filter (fun e => String.eqb (EntryV2.accountId e) routeId
                   && String.eqb (EntryV2.playerUid e) uid) (db_entries db).

(** Lines 1313-1317: the entry form when there is no entry for today. *)
Definition prefillEntry (prev : EntryV2.Entry N) (accountData : AccountDoc N)
    (status : AccountStatus) (entriesData : list (EntryV2.Entry N))
    : EntryV2.Entry N :=
  {| EntryV2.id := EntryV2.id prev;
     EntryV2.accountId := EntryV2.accountId prev;
     EntryV2.playerUid := EntryV2.playerUid prev;
     EntryV2.date := EntryV2.date prev;
     EntryV2.startingBalance :=
       Some (EntryV2.prefillStartingBalance (doc_type accountData)
               (doc_depositAmount accountData) entriesData);
     EntryV2.endingBalance := EntryV2.endingBalance prev;
     EntryV2.refillAmount := EntryV2.refillAmount prev;
     EntryV2.withdrawal := EntryV2.withdrawal prev;
     EntryV2.profitLoss := EntryV2.profitLoss prev;
     EntryV2.clickerAmount := EntryV2.clickerAmount prev;
     EntryV2.accHolderAmount := EntryV2.accHolderAmount prev;
     EntryV2.brokerAmount := EntryV2.brokerAmount prev;
     EntryV2.companyAmount := EntryV2.companyAmount prev;
     EntryV2.taxableAmount := EntryV2.taxableAmount prev;
     EntryV2.referralAmount := EntryV2.referralAmount prev;
     EntryV2.accountStatus :=
       if AccountStatus_eqb status unused then active else status |}.

(** [fetchAccountData] (lines 1222-1325), all reads succeeding.  The names
    it looks up for display are left out.  The status rule of lines
    1257-1270 is the one of the first document. *)
Definition fetchAccountData (routeId uid today : string) (db : Db N)
    (st : State N) : State N :=
  if String.eqb routeId EmptyString then
    {| account := account st; broker := broker st; entries := entries st;
       currentEntry := currentEntry st; loading := false |}
  else
    match db_account db with
    | Some accountData =>
        let st1 :=
          match doc_brokerId accountData with
          | Some b =>
              if nonEmpty (Some b) then fetchBrokerData b db st else st
          | None => st
          end in
        let entriesData := entriesQuery routeId uid db in
        let status := EntryV1.deriveStatus (doc_status accountData)
                        (List.length entriesData) in
        {| account :=
             Some {| EntryV2.type := match doc_type accountData with
                                     | Some t => t | None => pph end;
                     EntryV2.agentId := doc_agentId accountData;
                     EntryV2.brokerId := doc_brokerId accountData;
                     EntryV2.status := status;
                     EntryV2.depositAmount := doc_depositAmount accountData;
                     EntryV2.referralPercentage :=
                       doc_referralPercentage accountData;
                     EntryV2.promoAmount := doc_promoAmount accountData |};
           broker := broker st1;
           entries := entriesData;
           currentEntry :=
             match find (fun e => String.eqb (EntryV2.date e) today)
                     entriesData with
             | Some todayEntry => todayEntry
             | None => prefillEntry (currentEntry st1) accountData status
                         entriesData
             end;
           loading := false |}
    | None =>
        {| account := account st; broker := broker st; entries := entries st;
           currentEntry := currentEntry st; loading := false |}
    end.

(** The numeric and identifying fields of the initial [currentEntry] of
    [useState] (lines 989-1023). *)
Definition emptyEntry (routeId uid today : string) : EntryV2.Entry N :=
  {| EntryV2.id := None; EntryV2.accountId := routeId;
     EntryV2.playerUid := uid; EntryV2.date := today;
     EntryV2.startingBalance := Some num_zero;
     EntryV2.endingBalance := Some num_zero;
     EntryV2.refillAmount := Some num_zero;
     EntryV2.withdrawal := Some num_zero;
     EntryV2.profitLoss := num_zero; EntryV2.clickerAmount := num_zero;
     EntryV2.accHolderAmount := num_zero; EntryV2.brokerAmount := num_zero;
     EntryV2.companyAmount := num_zero; EntryV2.taxableAmount := num_zero;
     EntryV2.referralAmount := num_zero; EntryV2.accountStatus := active |}.

(** The state at mount: no account, no broker, the empty form. *)
Definition initialState (routeId uid today : string) : State N :=
  {| account := None; broker := None; entries := [];
     currentEntry := emptyEntry routeId uid today; loading := true |}.
End WithNumber.
End ScreenV2.

(** ** More of [src/pages/admin/Dashboard.tsx] *)

(** The tax-rate modal of the admin dashboard, on the binary64 numbers it
    compares. *)
Module TaxModal.

(** [stats.taxRate], [newTaxRate] and [showTaxModal]. *)
Record State := {
  taxRate : float;
  newTaxRate : float;
  showTaxModal : bool
}.

(** The test of lines 376-383 that lets [updateTaxRate] go on to write:
    [newTaxRate] is truthy, and neither below 0 nor above 100. *)
Definition accepted (rate : float) : bool :=
  negb (negb (truthy rate) || PrimFloat.is_nan rate)
  && negb (PrimFloat.ltb rate 0 || PrimFloat.ltb 100 rate).

(** [updateTaxRate] (lines 375-399).  [doc] is the value of
    [settings/taxRate] when that document exists, [written] tells whether
    [setDoc] resolved; a rejected write is caught and changes nothing. *)
Definition updateTaxRate (written : bool) (doc : option float) (st : State)
    : option float * State :=
  if accepted (newTaxRate st) then
    if written then
      (Some (newTaxRate st),
       {| taxRate := newTaxRate st; newTaxRate := newTaxRate st;
          showTaxModal := false |})
    else (doc, st)
  else (doc, st).

(** [Number(value)] for a string of decimal digits, as a natural number;
    [None] when the string does not match [/^\d*$/]. *)
Fixpoint digitsValue (acc : N) (value : string) : option N :=
  match value with
  | EmptyString => Some acc
  | String c rest =>
      let n := Ascii.N_of_ascii c in
      if (48 <=? n)%N && (n <=? 57)%N
      then digitsValue (acc * 10 + (n - 48))%N rest
      else None
  end.

(** [handleTaxRateChange] (lines 401-406): the field takes the empty
    string, read as 0, and the digit strings of value 0 to 100; any other
    input is ignored.  An integer up to 100 is its own binary64 value. *)
Definition handleTaxRateChange (value : string) (st : State) : State :=
  match digitsValue 0 value with
  | Some n =>
      if (n <=? 100)%N then
        {| taxRate := taxRate st;
           newTaxRate := PrimFloat.of_uint63 (Uint63.of_Z (Z.of_N n));
           showTaxModal := showTaxModal st |}
      else st
  | None => st
  end.
End TaxModal.

(** The figures of [fetchStats] (lines 408-617), computed from the
    documents it has read. *)
Module Stats.

(** The fields of an account document that the figures use; a status or a
    type that is missing, or is none of the known strings, is [None]. *)
Record AccountRow := {
  id : string;
  status : option AccountStatus;
  type : option AccountType;
  agentId : string;
  assignedToPlayerUid : option string
}.

Definition hasStatus (s : AccountStatus) (a : AccountRow) : bool :=
  match status a with
  | Some t => AccountStatus_eqb t s
  | None => false
  end.

Definition hasType (t : AccountType) (a : AccountRow) : bool :=
  match type a, t with
  | Some pph, pph | Some legal, legal => true
  | _, _ => false
  end.

Definition totalAccounts (accounts : list AccountRow) : nat :=
  List.length accounts.
Definition activeAccounts (accounts : list AccountRow) : nat :=
  List.length (filter (hasStatus active) accounts).
Definition inactiveAccounts (accounts : list AccountRow) : nat :=
  List.length (filter (hasStatus inactive) accounts).
Definition pphAccounts (accounts : list AccountRow) : nat :=
  List.length (filter (hasType pph) accounts).
Definition legalAccounts (accounts : list AccountRow) : nat :=
  List.length (filter (hasType legal) accounts).

Section WithNumber.
Context {N : Type} {JN : JsNumber N}.
Local Open Scope js_scope.

(** [entries.reduce((sum, entry) => sum + (entry.profitLoss || 0), 0)],
    which is also the [forEach] loop of [totalProfit]. *)
Definition sumProfit (entries : list (EntryV2.Entry N)) : N :=
  fold_left (fun sum entry => sum + orZero (Some (EntryV2.profitLoss entry)))
    entries num_zero.

Definition totalTransactions (entries : list (EntryV2.Entry N)) : nat :=
  List.length entries.

Definition totalProfit (entries : list (EntryV2.Entry N)) : N :=
  sumProfit entries.

(** [entries.filter(entry => entry.accountId === account.id)] *)
Definition accountEntries (account : AccountRow)
    (entries : list (EntryV2.Entry N)) : list (EntryV2.Entry N) :=
  filter (fun entry => String.eqb (EntryV2.accountId entry) (id account))
    entries.

(** [totalProfit] and [totalEntries] of an account's row. *)
Definition accountProfit (account : AccountRow)
    (entries : list (EntryV2.Entry N)) : N :=
  sumProfit (accountEntries account entries).

Definition accountTotalEntries (account : AccountRow)
    (entries : list (EntryV2.Entry N)) : nat :=
  List.length (accountEntries account entries).

(** [entries.filter(entry => entry.playerUid === player.uid)] *)
Definition playerEntries (player : User.t N)
    (entries : list (EntryV2.Entry N)) : list (EntryV2.Entry N) :=
  filter (fun entry => String.eqb (EntryV2.playerUid entry) (User.uid player))
    entries.

Definition playerProfit (player : User.t N)
    (entries : list (EntryV2.Entry N)) : N :=
  sumProfit (playerEntries player entries).

Definition playerTotalEntries (player : User.t N)
    (entries : list (EntryV2.Entry N)) : nat :=
  List.length (playerEntries player entries).
End WithNumber.
End Stats.

(** The document identifiers of [handleImportFile] (line 225), on strings
    of code units below 256. *)
Module ImportFile.

(** The character [-]. *)
Definition dash : Ascii.ascii :=
  Ascii.Ascii true false true true false true false false.

Definition isLowerAlnum (c : Ascii.ascii) : bool :=
  let n := Ascii.N_of_ascii c in
  ((97 <=? n)%N && (n <=? 122)%N) || ((48 <=? n)%N && (n <=? 57)%N).

(** [toLowerCase] on one code unit: the letters [A] to [Z] move to [a] to
    [z]; any other code unit below 256 stays outside [a-z0-9] whatever its
    lower case is, which is all that [safeId] looks at. *)
Definition toLowerCase1 (c : Ascii.ascii) : Ascii.ascii :=
  let n := Ascii.N_of_ascii c in
  if (65 <=? n)%N && (n <=? 90)%N then Ascii.ascii_of_N (n + 32) else c.

Fixpoint toLowerCase (s : string) : string :=
  match s with
  | EmptyString => EmptyString
  | String c rest => String (toLowerCase1 c) (toLowerCase rest)
  end.

(** [replace(/[^a-z0-9]+/g, '-')]: every maximal run of other characters
    becomes one dash.  [inRun] tells that the previous character was part
    of such a run. *)
Fixpoint dashRuns (inRun : bool) (s : string) : string :=
  match s with
  | EmptyString => EmptyString
  | String c rest =>
      if isLowerAlnum c then String c (dashRuns false rest)
      else if inRun then dashRuns true rest
      else String dash (dashRuns true rest)
  end.

(** The [-$] half of [replace(/^-|-$/g, '')]: a dash that ends the string
    is dropped. *)
Fixpoint dropLastDash (s : string) : string :=
  match s with
  | EmptyString => EmptyString
  | String c EmptyString =>
      if Ascii.eqb c dash then EmptyString else s
  | String c rest => String c (dropLastDash rest)
  end.

(** [replace(/^-|-$/g, '')]: a dash that starts the string is dropped,
    and so is a dash that ends what is left. *)
Definition trimDashes (s : string) : string :=
  match s with
  | String c rest =>
      if Ascii.eqb c dash then dropLastDash rest else dropLastDash s
  | EmptyString => EmptyString
  end.

(** [safeId] *)
Definition safeId (s : string) : string :=
  trimDashes (dashRuns false (toLowerCase s)).
End ImportFile.

(** ** The shape of a document identifier *)

Module Slug.

(** Runs of [a-z0-9] separated by single dashes, as the regular expression
    [^[a-z0-9]+(-[a-z0-9]+)*$] reads; [afterAlnum] tells that the previous
    character was one of [a-z0-9]. *)
Fixpoint runs (afterAlnum : bool) (s : string) : bool :=
  match s with
  | EmptyString => afterAlnum
  | String c rest =>
      if ImportFile.isLowerAlnum c then runs true rest
      else Ascii.eqb c ImportFile.dash && afterAlnum && runs false rest
  end.

(** The empty string, or such runs. *)
Definition isSlug (s : string) : bool :=
  match s with
  | EmptyString => true
  | _ => runs false s
  end.

(** The same without the conditions on the two ends: characters of
    [a-z0-9-], no two dashes in a row, and no dash first when [afterDash]. *)
Fixpoint dashed (afterDash : bool) (s : string) : bool :=
  match s with
  | EmptyString => true
  | String c rest =>
      if ImportFile.isLowerAlnum c then dashed false rest
      else Ascii.eqb c ImportFile.dash && negb afterDash && dashed true rest
  end.
End Slug.

(** ** The first document's records read by the second document *)

(** An entry and an account of the screen without broker, as the screen
    with broker holds them: no broker identifier, no promo amount, and a
    broker amount not computed yet. *)
Module Upgrade.
Section WithNumber.
Context {N : Type} {JN : JsNumber N}.

Definition entry (e : EntryV1.Entry N) : EntryV2.Entry N :=
  {| EntryV2.id := EntryV1.id e; EntryV2.accountId := EntryV1.accountId e;
     EntryV2.playerUid := EntryV1.playerUid e; EntryV2.date := EntryV1.date e;
     EntryV2.startingBalance := EntryV1.startingBalance e;
     EntryV2.endingBalance := EntryV1.endingBalance e;
     EntryV2.refillAmount := EntryV1.refillAmount e;
     EntryV2.withdrawal := EntryV1.withdrawal e;
     EntryV2.profitLoss := EntryV1.profitLoss e;
     EntryV2.clickerAmount := EntryV1.clickerAmount e;
     EntryV2.accHolderAmount := EntryV1.accHolderAmount e;
     EntryV2.brokerAmount := num_zero;
     EntryV2.companyAmount := EntryV1.companyAmount e;
     EntryV2.taxableAmount := EntryV1.taxableAmount e;
     EntryV2.referralAmount := EntryV1.referralAmount e;
     EntryV2.accountStatus := EntryV1.accountStatus e |}.

Definition account (a : EntryV1.Account N) : EntryV2.Account N :=
  {| EntryV2.type := EntryV1.type a; EntryV2.agentId := EntryV1.agentId a;
     EntryV2.brokerId := None; EntryV2.status := EntryV1.status a;
     EntryV2.depositAmount := EntryV1.depositAmount a;
     EntryV2.referralPercentage := EntryV1.referralPercentage a;
     EntryV2.promoAmount := None |}.
End WithNumber.
End Upgrade.

(** ** Sums over the rows of a table

    The dashboard shows one row per account and per player, each with the
    profit and the number of the entries whose key is the row's; [rowsTotal]
    and [rowsCount] add these figures up over the rows. *)

Section Rows.
Context {A R : Type}.
Variable key : R -> string.
Variable keyOf : A -> string.
Variable weight : A -> Q.

Definition rowEntries (r : R) (l : list A) : list A :=
  filter (fun x => String.eqb (keyOf x) (key r)) l.

Definition total (l : list A) : Q :=
  fold_right (fun x s => (weight x + s)%Q) 0%Q l.

Definition rowsTotal (rows : list R) (l : list A) : Q :=
  fold_right (fun r s => (total (rowEntries r l) + s)%Q) 0%Q rows.

Definition rowsCount (rows : list R) (l : list A) : nat :=
  fold_right (fun r s => (List.length (rowEntries r l) + s)%nat) O rows.
End Rows.

(** What [sum + (entry.profitLoss || 0)] adds for one entry. *)
Definition counted (entry : EntryV2.Entry Q) : Q :=
  orZero (Some (EntryV2.profitLoss entry)).

(** ** Concrete inputs *)

(** The entries, accounts and parties the examples below are run on. *)
Module Sample.
Section WithNumber.
Context {N : Type} {JN : JsNumber N}.

Definition user (pct : N) : User.t N :=
  {| User.uid := "u1"; User.percentage := Some pct |}.

Definition agent (pct flatAmount : N) : Agent.t N :=
  {| Agent.commissionPercentage := Some pct;
     Agent.flatCommission := Some flatAmount |}.

Definition broker (ct : CommissionType) (pct flatAmount : option N)
    : Broker.t N :=
  {| Broker.commissionType := ct;
     Broker.commissionPercentage := pct;
     Broker.flatCommission := flatAmount |}.

(** A legal account of agent [g1]. *)
Definition accountV2 (brokerId : option string) (referral promo : option N)
    : EntryV2.Account N :=
  {| EntryV2.type := legal; EntryV2.agentId := "g1";
     EntryV2.brokerId := brokerId; EntryV2.status := active;
     EntryV2.depositAmount := None;
     EntryV2.referralPercentage := referral;
     EntryV2.promoAmount := promo |}.

Definition accountV1 (referral : option N) : EntryV1.Account N :=
  {| EntryV1.type := legal; EntryV1.agentId := "g1";
     EntryV1.status := active; EntryV1.depositAmount := None;
     EntryV1.referralPercentage := referral |}.

(** A new entry with the given raw inputs and no amount computed yet. *)
Definition entryV2 (starting ending refill withdrawn : option N)
    : EntryV2.Entry N :=
  {| EntryV2.id := None; EntryV2.accountId := "a1";
     EntryV2.playerUid := "u1"; EntryV2.date := "2025-01-15";
     EntryV2.startingBalance := starting;
     EntryV2.endingBalance := ending;
     EntryV2.refillAmount := refill;
     EntryV2.withdrawal := withdrawn;
     EntryV2.profitLoss := num_zero; EntryV2.clickerAmount := num_zero;
     EntryV2.accHolderAmount := num_zero;
     EntryV2.brokerAmount := num_zero;
     EntryV2.companyAmount := num_zero;
     EntryV2.taxableAmount := num_zero;
     EntryV2.referralAmount := num_zero;
     EntryV2.accountStatus := active |}.

(** A stored entry [i] of account [a1] and player [u1]. *)
Definition entryV1 (i : option string) (day : string)
    (starting ending : option N) (st : AccountStatus) : EntryV1.Entry N :=
  {| EntryV1.id := i; EntryV1.accountId := "a1";
     EntryV1.playerUid := "u1"; EntryV1.date := day;
     EntryV1.startingBalance := starting;
     EntryV1.endingBalance := ending;
     EntryV1.refillAmount := Some num_zero;
     EntryV1.withdrawal := Some num_zero;
     EntryV1.profitLoss := num_zero; EntryV1.clickerAmount := num_zero;
     EntryV1.accHolderAmount := num_zero;
     EntryV1.companyAmount := num_zero;
     EntryV1.taxableAmount := num_zero;
     EntryV1.referralAmount := num_zero;
     EntryV1.accountStatus := st |}.

Definition accountDocV1 (t : AccountType) (st : option AccountStatus)
    (deposit : option N) : EntryV1.AccountDoc N :=
  {| EntryV1.doc_type := Some t; EntryV1.doc_agentId := "g1";
     EntryV1.doc_status := st; EntryV1.doc_depositAmount := deposit;
     EntryV1.doc_referralPercentage := None |}.
End WithNumber.
End Sample.

(** The six shares of an entry, added in the order of the spec. *)
Definition sharesV2 {N : Type} {JN : JsNumber N} (e : EntryV2.Entry N) : N :=
  (EntryV2.clickerAmount e + EntryV2.accHolderAmount e
   + EntryV2.brokerAmount e + EntryV2.taxableAmount e
   + EntryV2.referralAmount e + EntryV2.companyAmount e)%js.

(** The five shares of the generation without a broker. *)
Definition sharesV1 {N : Type} {JN : JsNumber N} (e : EntryV1.Entry N) : N :=
  (EntryV1.clickerAmount e + EntryV1.accHolderAmount e
   + EntryV1.taxableAmount e + EntryV1.referralAmount e
   + EntryV1.companyAmount e)%js.

(** [account?.promoAmount] *)
Definition promoOf {N : Type} (account : option (EntryV2.Account N)) : option N :=
  match account with
  | Some a => EntryV2.promoAmount a
  | None => None
  end.

(** An operand of the profit and loss as the form hands it over: the
    number entered, and [0] for a field that is empty or absent. *)
Definition operand {N : Type} {JN : JsNumber N} (x : option N) : N :=
  match x with
  | Some v => v
  | None => num_zero
  end.

(** On binary64, an operand that a number field can hold: none, or a number
    that is neither NaN nor the negative zero (the zero whose reciprocal is
    negative). *)
Definition plain (x : option float) : bool :=
  match x with
  | Some v =>
      negb (PrimFloat.is_nan v)
      && negb (PrimFloat.is_zero v
               && PrimFloat.ltb (PrimFloat.div 1%float v) 0%float)
  | None => true
  end.

(** The seven amounts of an entry: profit/loss, clicker, account holder,
    broker, company, tax, referral. *)
Definition amountsV2 {N : Type} (e : EntryV2.Entry N) : N * N * N * N * N * N * N :=
  (EntryV2.profitLoss e, EntryV2.clickerAmount e, EntryV2.accHolderAmount e,
   EntryV2.brokerAmount e, EntryV2.companyAmount e, EntryV2.taxableAmount e,
   EntryV2.referralAmount e).

(** An input with [0] written in place of every absent number. *)
Module Filled.
Section WithNumber.
Context {N : Type} {JN : JsNumber N}.

Definition number (x : option N) : option N :=
  match x with
  | Some v => Some v
  | None => Some num_zero
  end.

Definition entry (e : EntryV2.Entry N) : EntryV2.Entry N :=
  {| EntryV2.id := EntryV2.id e; EntryV2.accountId := EntryV2.accountId e;
     EntryV2.playerUid := EntryV2.playerUid e; EntryV2.date := EntryV2.date e;
     EntryV2.startingBalance := number (EntryV2.startingBalance e);
     EntryV2.endingBalance := number (EntryV2.endingBalance e);
     EntryV2.refillAmount := number (EntryV2.refillAmount e);
     EntryV2.withdrawal := number (EntryV2.withdrawal e);
     EntryV2.profitLoss := EntryV2.profitLoss e;
     EntryV2.clickerAmount := EntryV2.clickerAmount e;
     EntryV2.accHolderAmount := EntryV2.accHolderAmount e;
     EntryV2.brokerAmount := EntryV2.brokerAmount e;
     EntryV2.companyAmount := EntryV2.companyAmount e;
     EntryV2.taxableAmount := EntryV2.taxableAmount e;
     EntryV2.referralAmount := EntryV2.referralAmount e;
     EntryV2.accountStatus := EntryV2.accountStatus e |}.

Definition account (a : EntryV2.Account N) : EntryV2.Account N :=
  {| EntryV2.type := EntryV2.type a; EntryV2.agentId := EntryV2.agentId a;
     EntryV2.brokerId := EntryV2.brokerId a;
     EntryV2.status := EntryV2.status a;
     EntryV2.depositAmount := EntryV2.depositAmount a;
     EntryV2.referralPercentage := number (EntryV2.referralPercentage a);
     EntryV2.promoAmount := number (EntryV2.promoAmount a) |}.

Definition user (u : User.t N) : User.t N :=
  {| User.uid := User.uid u; User.percentage := number (User.percentage u) |}.

Definition agent (a : Agent.t N) : Agent.t N :=
  {| Agent.commissionPercentage := number (Agent.commissionPercentage a);
     Agent.flatCommission := number (Agent.flatCommission a) |}.

Definition broker (b : Broker.t N) : Broker.t N :=
  {| Broker.commissionType := Broker.commissionType b;
     Broker.commissionPercentage := number (Broker.commissionPercentage b);
     Broker.flatCommission := number (Broker.flatCommission b) |}.
End WithNumber.
End Filled.

(** ** A running account, for the properties of the screens *)

Module Scene.

Definition today : string := "2025-01-15".

(** Account [a1], legal and funded with 1000, with one entry [e1] of player
    [u1] on the day before, and a tax rate of 10. *)
Definition dbV1 : EntryV1.Db float :=
  {| EntryV1.db_account :=
       Some (Sample.accountDocV1 legal (Some unused) (Some 1000%float));
     EntryV1.db_entries :=
       [ Sample.entryV1 (Some "e1"%string) "2025-01-14" (Some 1000%float)
           (Some 1200%float) active ];
     EntryV1.db_taxRate := Some 10%float |}.

(** The screen of player [u1] on that account, once loaded. *)
Definition stV1 : EntryV1.State float :=
  EntryV1.fetchAccountData "a1" "u1" today dbV1
    (EntryV1.initialState "a1" "u1" today).

(** The entry [e1] under edit with an ending balance of 1300. *)
Definition edited (i : string) : EntryV1.Entry float :=
  Sample.entryV1 (Some i) "2025-01-14" (Some 1000%float) (Some 1300%float)
    active.

(** A pph account of broker [b1] with two entries of player [u1], the later
    one ending at 1500; the broker takes 10 percent and 25 flat. *)
Definition entryOn (i day : string) (starting ending : float)
    : EntryV2.Entry float :=
  {| EntryV2.id := Some i; EntryV2.accountId := "a1";
     EntryV2.playerUid := "u1"; EntryV2.date := day;
     EntryV2.startingBalance := Some starting;
     EntryV2.endingBalance := Some ending;
     EntryV2.refillAmount := Some 0%float;
     EntryV2.withdrawal := Some 0%float;
     EntryV2.profitLoss := 0%float; EntryV2.clickerAmount := 0%float;
     EntryV2.accHolderAmount := 0%float; EntryV2.brokerAmount := 0%float;
     EntryV2.companyAmount := 0%float; EntryV2.taxableAmount := 0%float;
     EntryV2.referralAmount := 0%float; EntryV2.accountStatus := active |}.

Definition accountDocV2 (brokerId : option string)
    : ScreenV2.AccountDoc float :=
  {| ScreenV2.doc_type := Some pph; ScreenV2.doc_agentId := "g1";
     ScreenV2.doc_brokerId := brokerId;
     ScreenV2.doc_status := Some active;
     ScreenV2.doc_depositAmount := None;
     ScreenV2.doc_referralPercentage := None;
     ScreenV2.doc_promoAmount := None |}.

Definition dbV2 (brokerId : option string) : ScreenV2.Db float :=
  {| ScreenV2.db_account := Some (accountDocV2 brokerId);
     ScreenV2.db_brokers :=
       [ ("b1"%string,
          Sample.broker both (Some 10%float) (Some 25%float)) ];
     ScreenV2.db_entries :=
       [ entryOn "e1" "2025-01-13" 1000 1200;
         entryOn "e2" "2025-01-14" 1200 1500 ] |}.

(** The tax modal showing a rate of 10 with 15 typed in. *)
Definition modal : TaxModal.State :=
  {| TaxModal.taxRate := 10%float; TaxModal.newTaxRate := 15%float;
     TaxModal.showTaxModal := true |}.

(** Two accounts and two players, and three entries between them. *)
Definition row (i : string) : Stats.AccountRow :=
  {| Stats.id := i; Stats.status := Some active; Stats.type := Some pph;
     Stats.agentId := "g1"; Stats.assignedToPlayerUid := None |}.

Definition player (u : string) : User.t Q :=
  {| User.uid := u; User.percentage := Some 50%Q |}.

Definition settled (a u : string) (pl : Q) : EntryV2.Entry Q :=
  {| EntryV2.id := None; EntryV2.accountId := a;
     EntryV2.playerUid := u; EntryV2.date := "2025-01-15";
     EntryV2.startingBalance := None; EntryV2.endingBalance := None;
     EntryV2.refillAmount := None; EntryV2.withdrawal := None;
     EntryV2.profitLoss := pl; EntryV2.clickerAmount := 0%Q;
     EntryV2.accHolderAmount := 0%Q; EntryV2.brokerAmount := 0%Q;
     EntryV2.companyAmount := 0%Q; EntryV2.taxableAmount := 0%Q;
     EntryV2.referralAmount := 0%Q; EntryV2.accountStatus := active |}.

Definition accounts : list Stats.AccountRow := [ row "a1"; row "a2" ].
Definition players : list (User.t Q) := [ player "u1"; player "u2" ].
Definition entries : list (EntryV2.Entry Q) :=
  [ settled "a1" "u1" 100%Q; settled "a2" "u1" (-40)%Q;
    settled "a1" "u2" 15%Q ].
End Scene.

(** * Properties *)

(** ** Profit and loss *)

Section ProfitLoss.
Context {N : Type} {JN : JsNumber N}.
Local Open Scope js_scope.

Lemma calculateAmounts_profitLoss (entry : EntryV2.Entry N) account userData
    broker taxRate agentData :
  EntryV2.profitLoss
    (EntryV2.calculateAmounts entry account userData broker taxRate
       (Fetched agentData))
  = EntryV2.computeProfitLoss entry account.
Proof. destruct account, userData; reflexivity. Qed.

Lemma calculateAmounts_no_session (entry : EntryV2.Entry N) account userData
    broker taxRate agent :
  account = None \/ userData = None ->
  EntryV2.calculateAmounts entry account userData broker taxRate agent
  = EntryV2.setProfitLoss entry (EntryV2.computeProfitLoss entry account).
Proof. intros [-> | ->]; [ | destruct account ]; reflexivity. Qed.

(** What each computation of an entry's amounts stores as [profitLoss], in
    whichever arithmetic, with each operand still read through [|| 0]: for
    the new entry and for the entry under edit of the generation with a
    promo amount, and for the two earlier generations. *)
Lemma profitLoss_stored :
  (forall (entry : EntryV2.Entry N) account userData broker taxRate agentData,
      EntryV2.profitLoss
        (EntryV2.calculateAmounts entry account userData broker taxRate
           (Fetched agentData))
      = orZero (EntryV2.endingBalance entry)
        - EntryV2.effectiveStarting entry account
        + orZero (EntryV2.withdrawal entry)
        - orZero (EntryV2.refillAmount entry)
      /\ EntryV2.effectiveStarting entry account
         = orZero (EntryV2.startingBalance entry) + orZero (promoOf account))
  /\ (forall (entry : EntryV2.Entry N) account userData broker taxRate agentData,
      option_map EntryV2.profitLoss
        (EntryV2.calculateEditingAmounts (Some entry) (Some account)
           (Some userData) broker taxRate (Fetched agentData))
      = Some (orZero (EntryV2.endingBalance entry)
              - (orZero (EntryV2.startingBalance entry)
                 + orZero (EntryV2.promoAmount account))
              + orZero (EntryV2.withdrawal entry)
              - orZero (EntryV2.refillAmount entry)))
  /\ (forall (entry : EntryV2.Entry N),
      EntryV2.effectiveStarting entry None
      = orZero (EntryV2.startingBalance entry) + num_zero)
  /\ orZero (@None N) = num_zero
  /\ (forall (entry : EntryV1.Entry N) account userData taxRate agentData,
      EntryV1.profitLoss
        (EntryV1.calculateAmounts entry account userData taxRate
           (Fetched agentData))
      = orZero (EntryV1.endingBalance entry)
        - orZero (EntryV1.startingBalance entry)
        + orZero (EntryV1.withdrawal entry)
        - orZero (EntryV1.refillAmount entry))
  /\ (forall (entry : EntryV0.Entry N),
      let stored := EntryV0.profitLoss (EntryV0.profitLossEffect entry) in
      let computed :=
        orZero (EntryV0.endingBalance entry)
        - orZero (EntryV0.startingBalance entry)
        + orZero (EntryV0.withdrawal entry)
        - orZero (EntryV0.refillAmount entry) in
      stored = computed \/ num_eqb computed stored = true).
Proof.
  split; [ | split; [ | split; [ | split; [ | split ] ] ] ].
  - intros; split; [ apply calculateAmounts_profitLoss | reflexivity ].
  - reflexivity.
  - reflexivity.
  - reflexivity.
  - intros entry account userData taxRate agentData.
    destruct account, userData; reflexivity.
  - intros entry.
    unfold EntryV0.profitLossEffect, EntryV0.computeProfitLoss.
    destruct (num_eqb _ (EntryV0.profitLoss entry)) eqn:E; simpl; auto.
Qed.
End ProfitLoss.

(** ** The company's share *)

Section Residual.
Context {N : Type} {JN : JsNumber N}.
Local Open Scope js_scope.

(** The company amount is the left-to-right difference of the source,
    with nothing clamped, in whichever arithmetic the split runs. *)
Lemma companyAmount_is_residual (entry : EntryV2.Entry N) account userData
    broker taxRate agentData :
  let e := EntryV2.calculateAmounts entry (Some account) (Some userData)
             broker taxRate (Fetched agentData) in
  EntryV2.companyAmount e
  = EntryV2.profitLoss e - EntryV2.clickerAmount e
    - EntryV2.accHolderAmount e - EntryV2.brokerAmount e
    - EntryV2.taxableAmount e - EntryV2.referralAmount e.
Proof. reflexivity. Qed.
End Residual.

Local Open Scope float_scope.

(** In binary64 the six shares of a profit of 3 (balance 1000 to 1003),
    with 10 percent each for the clicker, the account holder and the tax,
    add up to 3.0000000000000004.  With an ending balance of 1e308 and the
    same percentages the profit is the finite number 1e308, each product
    [profitLoss * 10] overflows, the three shares are infinite, the
    company amount is minus infinity, and the six shares add up to NaN: no
    tolerance makes that sum the profit. *)
Lemma C2_shares_miss_profit_in_binary64 :
  let e := EntryV2.calculateAmounts
             (Sample.entryV2 (Some 1000) (Some 1003) (Some 0) (Some 0))
             (Some (Sample.accountV2 None None None))
             (Some (Sample.user 10)) None 10
             (Fetched (Some (Sample.agent 10 0))) in
  let big := EntryV2.calculateAmounts
               (Sample.entryV2 (Some 0) (Some 1e308) (Some 0) (Some 0))
               (Some (Sample.accountV2 None None None))
               (Some (Sample.user 10)) None 10
               (Fetched (Some (Sample.agent 10 0))) in
  (EntryV2.profitLoss big = 1e308
   /\ PrimFloat.is_finite (EntryV2.profitLoss big) = true
   /\ EntryV2.clickerAmount big = PrimFloat.infinity
   /\ EntryV2.companyAmount big = PrimFloat.neg_infinity
   /\ PrimFloat.is_nan (sharesV2 big) = true
   /\ PrimFloat.is_nan (sharesV2 big - EntryV2.profitLoss big) = true)
  /\ EntryV2.profitLoss e = 3
  /\ EntryV2.companyAmount e = 2.1000000000000005
  /\ sharesV2 e = 3.0000000000000004
  /\ PrimFloat.eqb (sharesV2 e) (EntryV2.profitLoss e) = false
  /\ sharesV2 e <> EntryV2.profitLoss e.
Proof.
  cbv zeta. repeat split; try (vm_compute; reflexivity).
  intros H.
  assert (E : PrimFloat.eqb
                (sharesV2
                   (EntryV2.calculateAmounts
                      (Sample.entryV2 (Some 1000) (Some 1003) (Some 0) (Some 0))
                      (Some (Sample.accountV2 None None None))
                      (Some (Sample.user 10)) None 10
                      (Fetched (Some (Sample.agent 10 0)))))
                3 = true)
    by (rewrite H; vm_compute; reflexivity).
  vm_compute in E. discriminate E.
Qed.

(** C2, as amended.  Whenever the split is computed, the company amount is
    the unclamped residual [profitLoss - clickerAmount - accHolderAmount -
    brokerAmount - taxableAmount - referralAmount], so that in exact
    arithmetic the six shares add up to [profitLoss] for every input,
    negative profits and commitments above the profit included; the
    generation without a broker has the same identity over its five
    shares.  Nothing of the kind is stated of binary64, where the sum can
    miss the profit by a rounding error and, once a product overflows, is
    not a number at all. *)
Theorem C2_residual_conservation_exact :
  (forall (entry : EntryV2.Entry Q) account userData broker taxRate agentData,
      let e := EntryV2.calculateAmounts entry (Some account) (Some userData)
                 broker taxRate (Fetched agentData) in
      (sharesV2 e == EntryV2.profitLoss e)%Q
      /\ EntryV2.companyAmount e
         = (EntryV2.profitLoss e - EntryV2.clickerAmount e
            - EntryV2.accHolderAmount e - EntryV2.brokerAmount e
            - EntryV2.taxableAmount e - EntryV2.referralAmount e)%Q)
  /\ (forall (entry : EntryV2.Entry Q) account userData broker taxRate agentData,
      exists e,
        EntryV2.calculateEditingAmounts (Some entry) (Some account)
          (Some userData) broker taxRate (Fetched agentData) = Some e
        /\ (sharesV2 e == EntryV2.profitLoss e)%Q)
  /\ (forall (entry : EntryV1.Entry Q) account userData taxRate agentData,
      let e := EntryV1.calculateAmounts entry (Some account) (Some userData)
                 taxRate (Fetched agentData) in
      (sharesV1 e == EntryV1.profitLoss e)%Q).
Proof.
  split; [ | split ].
  - intros entry account userData broker taxRate agentData e. split.
    + unfold e, sharesV2. simpl. ring.
    + reflexivity.
  - intros entry account userData broker taxRate agentData.
    eexists. split; [ reflexivity | ].
    unfold sharesV2. simpl. ring.
  - intros entry account userData taxRate agentData e.
    unfold e, sharesV1. simpl. ring.
Qed.

(** ** The broker's share *)

Section BrokerAmount.
Context {N : Type} {JN : JsNumber N}.
Local Open Scope js_scope.

Lemma calculateAmounts_brokerAmount (entry : EntryV2.Entry N) account
    userData broker taxRate agentData :
  EntryV2.brokerAmount
    (EntryV2.calculateAmounts entry (Some account) (Some userData) broker
       taxRate (Fetched agentData))
  = EntryV2.computeBroker
      (EntryV2.computeProfitLoss entry (Some account)) broker account.
Proof. reflexivity. Qed.

(** An account without a broker identifier has no broker share, whatever
    broker the screen still holds. *)
Lemma computeBroker_no_brokerId pl broker (account : EntryV2.Account N) :
  nonEmpty (EntryV2.brokerId account) = false ->
  EntryV2.computeBroker pl broker account = num_zero.
Proof.
  intros H. unfold EntryV2.computeBroker. rewrite H.
  now destruct broker.
Qed.

(** C3.  For an account with a broker, on the new entry and on the entry
    under edit alike: no broker configuration gives a broker amount of
    [0]; type [percentage] gives [profitLoss * commissionPercentage /
    100]; type [flat] gives [flatCommission]; type [both] gives their sum;
    hence, for one profit and one pair of configured values, the amount
    under [both] is the amount under [percentage] plus the amount under
    [flat].  The configured values are read through [|| 0]. *)
Theorem C3_broker_amount (account : EntryV2.Account N)
    (entry : EntryV2.Entry N) userData taxRate agentData
    (pct flatAmount : option N) :
  nonEmpty (EntryV2.brokerId account) = true ->
  let pl := EntryV2.computeProfitLoss entry (Some account) in
  let config ct :=
    Some {| Broker.commissionType := ct;
            Broker.commissionPercentage := pct;
            Broker.flatCommission := flatAmount |} in
  let amount broker :=
    EntryV2.brokerAmount
      (EntryV2.calculateAmounts entry (Some account) (Some userData)
         broker taxRate (Fetched agentData)) in
  let editAmount broker :=
    option_map EntryV2.brokerAmount
      (EntryV2.calculateEditingAmounts (Some entry) (Some account)
         (Some userData) broker taxRate (Fetched agentData)) in
  (amount None = num_zero
   /\ amount (config percentage) = pl * orZero pct / num_hundred
   /\ amount (config flat) = orZero flatAmount
   /\ amount (config both) = pl * orZero pct / num_hundred + orZero flatAmount
   /\ amount (config both) = amount (config percentage) + amount (config flat))
  /\ (forall broker, editAmount broker = Some (amount broker)).
Proof.
  intros H pl config amount editAmount.
  unfold amount, editAmount, config.
  split; [ | reflexivity ].
  rewrite !calculateAmounts_brokerAmount.
  unfold EntryV2.computeBroker; simpl. rewrite H.
  repeat split.
Qed.
End BrokerAmount.

(** A funded account of broker [b1], a profit of 1000 and a broker at 10
    percent plus 25 flat: the broker amount is 125 (scenario C of the
    spec). *)
Lemma C3_broker_amount_witness :
  nonEmpty
    (EntryV2.brokerId
       (Sample.accountV2 (N:=float) (Some "b1"%string) None None))
  = true
  /\ EntryV2.brokerAmount
       (EntryV2.calculateAmounts
          (Sample.entryV2 (Some 0) (Some 1000) (Some 0) (Some 0))
          (Some (Sample.accountV2 (Some "b1"%string) None None))
          (Some (Sample.user 50))
          (Some (Sample.broker both (Some 10) (Some 25)))
          10 (Fetched (Some (Sample.agent 10 20))))
     = 125.
Proof.
  split; [ reflexivity | ].
  pose proof (C3_broker_amount
                (Sample.accountV2 (Some "b1"%string) None None)
                (Sample.entryV2 (Some 0) (Some 1000) (Some 0) (Some 0))
                (Sample.user 50) 10 (Some (Sample.agent 10 20))
                (Some 10) (Some 25) eq_refl) as [[_ [_ [_ [Hboth _]]]] _].
  etransitivity; [ exact Hboth | vm_compute; reflexivity ].
Defined.

(** ** Tax *)

Section Tax.
Context {N : Type} {JN : JsNumber N}.
Local Open Scope js_scope.

(** New entries, and edits in the generation with a broker, are taxed at
    the [taxRate] of the screen, on the gross profit. *)
Lemma calculateAmounts_taxableAmount :
  (forall (entry : EntryV2.Entry N) account userData broker taxRate agentData,
      EntryV2.taxableAmount
        (EntryV2.calculateAmounts entry (Some account) (Some userData)
           broker taxRate (Fetched agentData))
      = EntryV2.computeProfitLoss entry (Some account) * taxRate
        / num_hundred)
  /\ (forall (entry : EntryV2.Entry N) account userData broker taxRate agentData,
      option_map EntryV2.taxableAmount
        (EntryV2.calculateEditingAmounts (Some entry) (Some account)
           (Some userData) broker taxRate (Fetched agentData))
      = Some (EntryV2.computeProfitLoss entry (Some account) * taxRate
              / num_hundred))
  /\ (forall (entry : EntryV1.Entry N) account userData taxRate agentData,
      EntryV1.taxableAmount
        (EntryV1.calculateAmounts entry (Some account) (Some userData)
           taxRate (Fetched agentData))
      = EntryV1.computeProfitLoss entry * taxRate / num_hundred).
Proof. repeat split. Qed.

(** In the generation without a broker, the entry under edit ends up
    taxed at 10 percent whatever the [taxRate] of the screen is: the
    second editing effect overwrites what the first computed. *)
Lemma editingEffects_taxableAmount (entry : EntryV1.Entry N) account
    userData taxRate agentData1 agentData2 :
  option_map EntryV1.taxableAmount
    (EntryV1.editingEffects (Some entry) (Some account) (Some userData)
       taxRate (Fetched agentData1) (Fetched agentData2))
  = Some (EntryV1.computeProfitLoss entry * num_ten / num_hundred).
Proof. reflexivity. Qed.
End Tax.

(** C4, at a tax rate of 20 percent.  An entry under edit with a profit of
    100 is taxed 20 by the editing effect that reads the tax rate, and 10 by
    the editing effect declared after it, which is the amount the entry is
    left with. *)
Lemma C4_edit_taxed_at_fixed_ten_percent :
  let entry := Sample.entryV1 (Some "e1"%string) "2025-01-15" (Some 0)
                 (Some 100) active in
  let account := Some (Sample.accountV1 None) in
  let userData := Some (Sample.user 50) in
  let agent := Fetched (Some (Sample.agent 10 0)) in
  let taxRate := 20 in
  option_map EntryV1.profitLoss
    (EntryV1.editingEffects (Some entry) account userData taxRate agent agent)
  = Some 100
  /\ 100 * taxRate / 100 = 20
  /\ option_map EntryV1.taxableAmount
       (EntryV1.calculateEditingAmounts (Some entry) account userData taxRate
          agent)
     = Some 20
  /\ option_map EntryV1.taxableAmount
       (EntryV1.calculateEditingAmountsFixed (Some entry) account userData
          agent)
     = Some 10
  /\ option_map EntryV1.taxableAmount
       (EntryV1.editingEffects (Some entry) account userData taxRate agent
          agent)
     = Some 10.
Proof. cbv zeta. repeat split; vm_compute; reflexivity. Qed.

(** ** Referral *)

Section Referral.
Context {N : Type} {JN : JsNumber N}.
Local Open Scope js_scope.

Lemma calculateAmounts_referralAmount :
  (forall (entry : EntryV2.Entry N) account userData broker taxRate agentData,
      EntryV2.referralAmount
        (EntryV2.calculateAmounts entry (Some account) (Some userData)
           broker taxRate (Fetched agentData))
      = EntryV2.computeReferral
          (EntryV2.computeProfitLoss entry (Some account)) account)
  /\ (forall (entry : EntryV1.Entry N) account userData taxRate agentData,
      EntryV1.referralAmount
        (EntryV1.calculateAmounts entry (Some account) (Some userData)
           taxRate (Fetched agentData))
      = EntryV1.computeReferral (EntryV1.computeProfitLoss entry) account).
Proof. split; reflexivity. Qed.
End Referral.

(** The conversion to a boolean, in each arithmetic. *)
Lemma truthy_binary64 (x : float) :
  truthy x = true
  <-> PrimFloat.is_zero x = false /\ PrimFloat.is_nan x = false.
Proof.
  cbn [truthy F64.number].
  destruct (PrimFloat.is_zero x), (PrimFloat.is_nan x); simpl;
    (split; [ intros H; try discriminate H; split; reflexivity
            | intros [H1 H2]; try discriminate H1; try discriminate H2;
              reflexivity ]).
Qed.

Lemma truthy_exact (x : Q) : truthy x = true <-> ~ (x == 0)%Q.
Proof.
  cbn [truthy Exact.number]. rewrite negb_true_iff.
  split.
  - intros H E. apply Qeq_bool_iff in E. congruence.
  - intros H. destruct (Qeq_bool x 0) eqn:E; [ | reflexivity ].
    apply Qeq_bool_iff in E. contradiction.
Qed.

(** A referral percentage of -5 on a profit of 100: the percentage is not
    above 0, and the referral amount is -5, not 0. *)
Lemma C5_negative_referral_is_applied :
  let account := Sample.accountV2 None (Some (-5)) None in
  let e := EntryV2.calculateAmounts
             (Sample.entryV2 (Some 0) (Some 100) (Some 0) (Some 0))
             (Some account) (Some (Sample.user 50)) None 10
             (Fetched (Some (Sample.agent 10 0))) in
  EntryV2.referralPercentage account = Some (-5)
  /\ PrimFloat.ltb 0 (-5) = false
  /\ EntryV2.profitLoss e = 100
  /\ EntryV2.referralAmount e = -5
  /\ PrimFloat.eqb (EntryV2.referralAmount e) 0 = false.
Proof. cbv zeta. repeat split; vm_compute; reflexivity. Qed.

(** C5, as amended.  The referral amount is [profitLoss * referralPercentage
    / 100] when the account's referral percentage is truthy, that is,
    present and neither zero nor NaN, be it positive or negative, and [0]
    when it is absent, zero or NaN. *)
Theorem C5_referral_amount (N : Type) (JN : JsNumber N)
    (entry : EntryV2.Entry N) (account : EntryV2.Account N) userData broker
    taxRate agentData :
  let pl := EntryV2.computeProfitLoss entry (Some account) in
  let amount :=
    EntryV2.referralAmount
      (EntryV2.calculateAmounts entry (Some account) (Some userData) broker
         taxRate (Fetched agentData)) in
  (EntryV2.referralPercentage account = None -> amount = num_zero)
  /\ (forall r, EntryV2.referralPercentage account = Some r ->
                truthy r = false -> amount = num_zero)
  /\ (forall r, EntryV2.referralPercentage account = Some r ->
                truthy r = true -> amount = (pl * r / num_hundred)%js).
Proof.
  intros pl amount. unfold amount, pl.
  destruct (calculateAmounts_referralAmount (N := N)) as [-> _].
  unfold EntryV2.computeReferral.
  repeat split.
  - now intros ->.
  - intros r -> E. now rewrite E.
  - intros r -> E. now rewrite E.
Qed.

Lemma C5_referral_amount_witness :
  let account := Sample.accountV2 None (Some (-5)) None in
  EntryV2.referralPercentage account = Some (-5)
  /\ truthy (-5) = true
  /\ EntryV2.referralAmount
       (EntryV2.calculateAmounts
          (Sample.entryV2 (Some 0) (Some 100) (Some 0) (Some 0))
          (Some account) (Some (Sample.user 50)) None 10
          (Fetched (Some (Sample.agent 10 0))))
     = 100 * -5 / 100.
Proof.
  cbv zeta. split; [ reflexivity | split; [ reflexivity | ] ].
  exact (proj2 (proj2
           (C5_referral_amount float F64.number
              (Sample.entryV2 (Some 0) (Some 100) (Some 0) (Some 0))
              (Sample.accountV2 None (Some (-5)) None)
              (Sample.user 50) None 10 (Some (Sample.agent 10 0))))
           (-5) eq_refl eq_refl).
Defined.

(** ** Account status *)

Section Status.
Context {N : Type} {JN : JsNumber N}.

(** The rule of [fetchAccountData] for an account that is not stored as
    [inactive]: [unused] without entries, [active] with at least one. *)
Lemma deriveStatus_not_inactive (stored : option AccountStatus) (size : nat) :
  stored <> Some inactive ->
  EntryV1.deriveStatus stored size
  = match size with O => unused | S _ => active end.
Proof.
  intros H. unfold EntryV1.deriveStatus.
  destruct size; simpl; [ | reflexivity ].
  destruct stored as [[ | | ] | ]; simpl; congruence.
Qed.

(** For an account stored as [inactive] the rule keeps [inactive] only
    while there is no entry. *)
Lemma deriveStatus_inactive (size : nat) :
  EntryV1.deriveStatus (Some inactive) size
  = match size with O => inactive | S _ => active end.
Proof. now destruct size. Qed.

Lemma fetchAccountData_status routeId uid today (db : EntryV1.Db N) st a :
  String.eqb routeId EmptyString = false ->
  EntryV1.db_account db = Some a ->
  option_map EntryV1.status
    (EntryV1.account (EntryV1.fetchAccountData routeId uid today db st))
  = Some (EntryV1.deriveStatus (EntryV1.doc_status a)
            (List.length (EntryV1.entriesQuery routeId uid db))).
Proof.
  intros Hid Ha. unfold EntryV1.fetchAccountData. now rewrite Hid, Ha.
Qed.

(** Whenever the screen lists an entry, the account it holds is [active],
    so the test [account?.status !== 'inactive'] of [handleDeleteEntry]
    succeeds: deleting the last entry stores [unused] over any status. *)
Lemma delete_last_entry_stores_unused routeId uid today (db : EntryV1.Db N)
    st0 a entryId :
  String.eqb routeId EmptyString = false ->
  EntryV1.db_account db = Some a ->
  EntryV1.entriesQuery routeId uid db <> [] ->
  EntryV1.entriesQuery routeId uid (EntryV1.deleteEntry db entryId) = [] ->
  let st := EntryV1.fetchAccountData routeId uid today db st0 in
  option_map EntryV1.doc_status
    (EntryV1.db_account
       (fst (EntryV1.handleDeleteEntry routeId uid today true entryId db st)))
  = Some (Some unused).
Proof.
  intros Hid Ha Hlisted Hlast st.
  pose proof (fetchAccountData_status routeId uid today db st0 a Hid Ha) as Hst.
  fold st in Hst.
  unfold EntryV1.handleDeleteEntry. rewrite Hlast. simpl.
  destruct (EntryV1.account st) as [acc | ]; simpl in Hst; [ | discriminate ].
  injection Hst as Hst. rewrite Hst.
  destruct (EntryV1.entriesQuery routeId uid db) as [ | e l ];
    [ contradiction | ].
  unfold EntryV1.deriveStatus. simpl.
  unfold EntryV1.updateAccountStatus. simpl. rewrite Ha. reflexivity.
Qed.
End Status.

(** C7, on an account stored as [inactive] with a single entry [e1] of the
    day before.  The screen derives [active] for it; deleting [e1] then
    stores [unused] in place of [inactive].  The same happens when the
    player sets the entry's status toggle to [inactive], saves the first
    entry of an unused account, and deletes it. *)
Lemma C7_delete_overrides_manual_inactive :
  let today := "2025-01-15"%string in
  let e1 := Sample.entryV1 (Some "e1"%string) "2025-01-14" (Some 1000)
              (Some 1200) active in
  let db0 :=
    {| EntryV1.db_account := Some (Sample.accountDocV1 legal (Some inactive)
                                     (Some 1000));
       EntryV1.db_entries := [e1];
       EntryV1.db_taxRate := Some 10 |} in
  let st0 := EntryV1.fetchAccountData "a1" "u1" today db0
               (EntryV1.initialState "a1" "u1" today) in
  let after := EntryV1.handleDeleteEntry "a1" "u1" today true "e1" db0 st0 in
  let dbU :=
    {| EntryV1.db_account := Some (Sample.accountDocV1 legal (Some unused)
                                     (Some 1000));
       EntryV1.db_entries := [];
       EntryV1.db_taxRate := Some 10 |} in
  let stU := EntryV1.fetchAccountData "a1" "u1" today dbU
               (EntryV1.initialState "a1" "u1" today) in
  let saved := EntryV1.handleSubmit "a1" "u1" today "e2"
                 dbU (EntryV1.toggleAccountStatus stU) in
  let deleted := EntryV1.handleDeleteEntry "a1" "u1" today true "e2"
                   (fst saved) (snd saved) in
  (option_map EntryV1.status (EntryV1.account st0) = Some active
   /\ option_map EntryV1.doc_status (EntryV1.db_account (fst after))
      = Some (Some unused)
   /\ EntryV1.db_entries (fst after) = []
   /\ option_map EntryV1.status (EntryV1.account (snd after)) = Some unused)
  /\ (option_map EntryV1.doc_status (EntryV1.db_account (fst saved))
      = Some (Some inactive)
      /\ List.length (EntryV1.db_entries (fst saved)) = 1%nat
      /\ option_map EntryV1.status (EntryV1.account (snd saved)) = Some active
      /\ option_map EntryV1.doc_status (EntryV1.db_account (fst deleted))
         = Some (Some unused)).
Proof. cbv zeta. repeat split; vm_compute; reflexivity. Qed.

(** ** The entry form of an account without entries *)

Section Prefill.
Context {N : Type} {JN : JsNumber N}.

Lemma orZero_truthy (d : N) : truthy d = true -> orZero (Some d) = d.
Proof. intros H. simpl. now rewrite H. Qed.

(** C9.  When no entry exists yet for the account, the starting balance of
    the entry form is the account's deposit amount for a legal account
    (read through [|| 0], hence the deposit itself whenever it is a
    non-zero number) and [0] for a pph account, in each of the three
    generations of the screen. *)
Theorem C9_default_starting_balance :
  (forall routeId uid today (db : EntryV1.Db N) st a,
      String.eqb routeId EmptyString = false ->
      EntryV1.db_account db = Some a ->
      EntryV1.entriesQuery routeId uid db = [] ->
      let form := EntryV1.currentEntry
                    (EntryV1.fetchAccountData routeId uid today db st) in
      (EntryV1.doc_type a = Some legal ->
       EntryV1.startingBalance form
       = Some (orZero (EntryV1.doc_depositAmount a))
       /\ forall d, EntryV1.doc_depositAmount a = Some d -> truthy d = true ->
                    EntryV1.startingBalance form = Some d)
      /\ (EntryV1.doc_type a = Some pph ->
          EntryV1.startingBalance form = Some num_zero))
  /\ (forall today (a : EntryV0.AccountDoc N) prev,
      let form := EntryV0.fetchCurrentEntry today a [] prev in
      (EntryV0.doc_type a = Some legal ->
       EntryV0.startingBalance form
       = Some (orZero (EntryV0.doc_depositAmount a)))
      /\ (EntryV0.doc_type a = Some pph ->
          EntryV0.startingBalance form = Some num_zero))
  /\ (forall deposit : option N,
      EntryV2.prefillStartingBalance (Some legal) deposit [] = orZero deposit
      /\ EntryV2.prefillStartingBalance (Some pph) deposit [] = num_zero).
Proof.
  split; [ | split ].
  - intros routeId uid today db st a Hid Ha Hnone form.
    unfold form, EntryV1.fetchAccountData. rewrite Hid, Ha, Hnone. simpl.
    split.
    + intros ->. split; [ reflexivity | ].
      intros d -> Hd. now rewrite orZero_truthy.
    + now intros ->.
  - intros today a prev form. unfold form. simpl.
    split; now intros ->.
  - intros deposit. split; reflexivity.
Qed.
End Prefill.

(** A legal account funded with 1000 and no entry yet: the form starts at
    1000. *)
Lemma C9_default_starting_balance_witness :
  let db :=
    {| EntryV1.db_account := Some (Sample.accountDocV1 legal None (Some 1000));
       EntryV1.db_entries := [];
       EntryV1.db_taxRate := None |} in
  EntryV1.startingBalance
    (EntryV1.currentEntry
       (EntryV1.fetchAccountData "a1" "u1" "2025-01-15" db
          (EntryV1.initialState "a1" "u1" "2025-01-15")))
  = Some 1000.
Proof.
  cbv zeta.
  exact (proj2 (proj1 (proj1 (C9_default_starting_balance (N := float))
                         "a1"%string "u1"%string "2025-01-15"%string
                         {| EntryV1.db_account :=
                              Some (Sample.accountDocV1 legal None (Some 1000));
                            EntryV1.db_entries := [];
                            EntryV1.db_taxRate := None |}
                         (EntryV1.initialState "a1" "u1" "2025-01-15")
                         (Sample.accountDocV1 legal None (Some 1000))
                         eq_refl eq_refl eq_refl)
                  eq_refl)
           1000 eq_refl eq_refl).
Defined.

(** ** The default tax rate *)

Section DefaultTaxRate.
Context {N : Type} {JN : JsNumber N}.
Local Open Scope js_scope.

(** C10.  When the tax-rate document is absent, or its read is rejected,
    the screen opened on an account keeps the tax rate of 10 it starts
    with, and the split taxes the profit at 10 percent; so do the earlier
    generation of the screen and the admin dashboard. *)
Theorem C10_default_tax_rate (read : Fetch (option N)) :
  read = Fetched None \/ read = Rejected ->
  (EntryV2.fetchTaxRate read EntryV2.initialTaxRate = num_ten
   /\ forall (entry : EntryV2.Entry N) account userData broker agentData,
        EntryV2.taxableAmount
          (EntryV2.calculateAmounts entry (Some account) (Some userData)
             broker (EntryV2.fetchTaxRate read EntryV2.initialTaxRate)
             (Fetched agentData))
        = EntryV2.computeProfitLoss entry (Some account) * num_ten
          / num_hundred)
  /\ (forall routeId uid today,
        let st := EntryV1.fetchTaxRate read
                    (EntryV1.initialState routeId uid today) in
        EntryV1.taxRate st = num_ten
        /\ forall (entry : EntryV1.Entry N) account userData agentData,
             EntryV1.taxableAmount
               (EntryV1.calculateAmounts entry (Some account) (Some userData)
                  (EntryV1.taxRate st) (Fetched agentData))
             = EntryV1.computeProfitLoss entry * num_ten / num_hundred)
  /\ Dashboard.fetchTaxRate read Dashboard.initialTaxRate = num_ten.
Proof.
  intros [-> | ->]; repeat split.
Qed.
End DefaultTaxRate.

(** With the tax-rate document unreadable, a profit of 500 is taxed 50. *)
Lemma C10_default_tax_rate_witness :
  EntryV2.taxableAmount
    (EntryV2.calculateAmounts
       (Sample.entryV2 (Some 1000) (Some 1500) (Some 0) (Some 0))
       (Some (Sample.accountV2 None None None)) (Some (Sample.user 50)) None
       (EntryV2.fetchTaxRate Rejected EntryV2.initialTaxRate)
       (Fetched (Some (Sample.agent 10 20))))
  = 50.
Proof.
  etransitivity.
  - exact (proj2 (proj1 (C10_default_tax_rate (N := float) Rejected
                           (or_intror eq_refl)))
             (Sample.entryV2 (Some 1000) (Some 1500) (Some 0) (Some 0))
             (Sample.accountV2 None None None) (Sample.user 50) None
             (Some (Sample.agent 10 20))).
  - vm_compute. reflexivity.
Defined.


(** ** Totality *)

Section AbsentInputs.
Context {N : Type} {JN : JsNumber N}.
Local Open Scope js_scope.

Lemma orZero_filled (x : option N) : orZero (Filled.number x) = orZero x.
Proof.
  destruct x as [v | ]; simpl; [ reflexivity | ].
  now destruct (truthy num_zero).
Qed.

Lemma computeProfitLoss_filled (entry : EntryV2.Entry N) account :
  EntryV2.computeProfitLoss (Filled.entry entry) (Some (Filled.account account))
  = EntryV2.computeProfitLoss entry (Some account).
Proof.
  unfold EntryV2.computeProfitLoss, EntryV2.effectiveStarting. simpl.
  now rewrite !orZero_filled.
Qed.

Lemma computeAccHolder_filled pl (agentData : option (Agent.t N)) :
  EntryV2.computeAccHolder pl (option_map Filled.agent agentData)
  = EntryV2.computeAccHolder pl agentData.
Proof.
  destruct agentData as [a | ]; simpl; [ | reflexivity ].
  now rewrite !orZero_filled.
Qed.

Lemma computeBroker_filled pl (broker : option (Broker.t N)) account :
  EntryV2.computeBroker pl (option_map Filled.broker broker)
    (Filled.account account)
  = EntryV2.computeBroker pl broker account.
Proof.
  destruct broker as [b | ]; simpl; [ | reflexivity ].
  rewrite !orZero_filled. reflexivity.
Qed.

Lemma computeReferral_filled pl (account : EntryV2.Account N) :
  EntryV2.computeReferral pl (Filled.account account)
  = EntryV2.computeReferral pl account.
Proof.
  unfold EntryV2.computeReferral. simpl.
  destruct (EntryV2.referralPercentage account) as [r | ]; simpl;
    [ reflexivity | ].
  now rewrite truthy_zero.
Qed.

(** Writing [0] for every absent number changes none of the amounts. *)
Lemma calculateAmounts_filled (entry : EntryV2.Entry N) account userData
    broker taxRate agentData :
  amountsV2
    (EntryV2.calculateAmounts (Filled.entry entry)
       (Some (Filled.account account)) (Some (Filled.user userData))
       (option_map Filled.broker broker) taxRate
       (Fetched (option_map Filled.agent agentData)))
  = amountsV2
      (EntryV2.calculateAmounts entry (Some account) (Some userData) broker
         taxRate (Fetched agentData)).
Proof.
  unfold amountsV2, EntryV2.calculateAmounts. cbn [EntryV2.setAmounts
    EntryV2.profitLoss EntryV2.clickerAmount EntryV2.accHolderAmount
    EntryV2.brokerAmount EntryV2.companyAmount EntryV2.taxableAmount
    EntryV2.referralAmount].
  rewrite computeProfitLoss_filled, computeAccHolder_filled,
    computeBroker_filled, computeReferral_filled.
  unfold EntryV2.computeClicker. cbn [Filled.user User.percentage].
  now rewrite orZero_filled.
Qed.
End AbsentInputs.

(** A negative profit times a positive percentage is a negative share. *)
Lemma negative_share (pl pct : Q) :
  (pl < 0 -> 0 < pct -> pl * pct / 100 < 0)%Q.
Proof.
  intros Hpl Hpct.
  assert (H : (pl * pct < 0 * pct)%Q)
    by (apply Qmult_lt_compat_r; assumption).
  assert (H' : (pl * pct * / 100 < 0 * pct * / 100)%Q)
    by (apply Qmult_lt_compat_r; [ reflexivity | exact H ]).
  unfold Qdiv.
  setoid_replace 0%Q with (0 * pct * / 100)%Q by ring.
  exact H'.
Qed.

(** C8.  The settlement never fails: it is a total function of its inputs,
    a rejected read of the agent document is caught and leaves the entry
    as it was, and with every optional number absent it yields zeros.
    Every absent number counts as [0]: writing [0] in its place changes
    none of the seven amounts.  A negative profit is stored unchanged, and
    the shares computed from it are negative: in exact arithmetic the
    clicker amount and the tax are below zero for positive rates, and the
    account holder's amount is below the flat commission; on a profit of
    -200 at 50, 10 and 10 percent the program computes -100, -20 and,
    with a flat commission of 20, an account holder's amount of 0. *)
Theorem C8_settlement_total :
  (forall (N : Type) (JN : JsNumber N) (entry : EntryV2.Entry N)
          account userData broker taxRate agentData,
      amountsV2
        (EntryV2.calculateAmounts entry (Some account) (Some userData) broker
           taxRate (Fetched agentData))
      = amountsV2
          (EntryV2.calculateAmounts (Filled.entry entry)
             (Some (Filled.account account)) (Some (Filled.user userData))
             (option_map Filled.broker broker) taxRate
             (Fetched (option_map Filled.agent agentData)))
      /\ EntryV2.calculateAmounts entry (Some account) (Some userData) broker
           taxRate Rejected = entry)
  /\ amountsV2
       (EntryV2.calculateAmounts
          (Sample.entryV2 None None None None)
          (Some (Sample.accountV2 None None None))
          (Some {| User.uid := "u1"; User.percentage := None |})
          None 10 (Fetched None))
     = (0, 0, 0, 0, 0, 0, 0)
  /\ (forall (entry : EntryV2.Entry Q) account userData broker taxRate
             agentData,
      (EntryV2.computeProfitLoss entry (Some account) < 0)%Q ->
      let e := EntryV2.calculateAmounts entry (Some account) (Some userData)
                 broker taxRate (Fetched agentData) in
      EntryV2.profitLoss e = EntryV2.computeProfitLoss entry (Some account)
      /\ ((0 < orZero (User.percentage userData))%Q ->
          (EntryV2.clickerAmount e < 0)%Q)
      /\ ((0 < taxRate)%Q -> (EntryV2.taxableAmount e < 0)%Q)
      /\ (forall a, agentData = Some a ->
                    (0 < orZero (Agent.commissionPercentage a))%Q ->
                    (EntryV2.accHolderAmount e
                     < orZero (Agent.flatCommission a))%Q))
  /\ amountsV2
       (EntryV2.calculateAmounts
          (Sample.entryV2 (Some 1000) (Some 800) (Some 0) (Some 0))
          (Some (Sample.accountV2 None None None)) (Some (Sample.user 50))
          None 10 (Fetched (Some (Sample.agent 10 20))))
     = (-200, -100, 0, 0, -80, -20, 0).
Proof.
  split; [ | split; [ | split ] ].
  - intros N JN entry account userData broker taxRate agentData.
    split; [ | reflexivity ].
    symmetry. apply calculateAmounts_filled.
  - vm_compute. reflexivity.
  - intros entry account userData broker taxRate agentData Hpl e.
    split; [ reflexivity | ].
    split; [ | split ].
    + intros Hpct. apply negative_share; assumption.
    + intros Htax. apply negative_share; assumption.
    + intros a -> Hpct.
      pose proof (negative_share _ _ Hpl Hpct) as H.
      unfold e. simpl in *. lra.
  - vm_compute. reflexivity.
Qed.

(** A balance going from 1000 down to 800, in exact arithmetic. *)
Lemma C8_settlement_total_witness :
  let entry := Sample.entryV2 (Some 1000%Q) (Some 800%Q) (Some 0%Q) (Some 0%Q) in
  let account := Sample.accountV2 None None None in
  let userData := Sample.user 50%Q in
  let e := EntryV2.calculateAmounts entry (Some account) (Some userData) None
             10%Q (Fetched (Some (Sample.agent 10%Q 20%Q))) in
  (EntryV2.computeProfitLoss entry (Some account) < 0)%Q
  /\ (EntryV2.clickerAmount e < 0)%Q
  /\ (EntryV2.taxableAmount e < 0)%Q.
Proof.
  cbv zeta.
  assert (Hpl : (EntryV2.computeProfitLoss
                   (Sample.entryV2 (Some 1000%Q) (Some 800%Q) (Some 0%Q)
                      (Some 0%Q))
                   (Some (Sample.accountV2 None None None)) < 0)%Q)
    by (vm_compute; reflexivity).
  pose proof (proj1 (proj2 (proj2 C8_settlement_total))
                (Sample.entryV2 (Some 1000%Q) (Some 800%Q) (Some 0%Q)
                   (Some 0%Q))
                (Sample.accountV2 None None None) (Sample.user 50%Q) None
                10%Q (Some (Sample.agent 10%Q 20%Q)) Hpl) as [_ [Hc [Ht _]]].
  split; [ exact Hpl | split ].
  - apply Hc. vm_compute. reflexivity.
  - apply Ht. vm_compute. reflexivity.
Defined.

(** ** The zero-input identity *)

(** *** Binary64 facts, from the specification of the primitive floats *)

Lemma is_zero_spec (x : float) :
  PrimFloat.is_zero x
  = match Prim2SF x with S754_zero _ => true | _ => false end.
Proof.
  unfold PrimFloat.is_zero. rewrite eqb_spec.
  change (Prim2SF zero) with (S754_zero false).
  destruct (Prim2SF x) as [s | s | | s m e]; try reflexivity; now destruct s.
Qed.

Lemma is_nan_spec (x : float) :
  PrimFloat.is_nan x = match Prim2SF x with S754_nan => true | _ => false end.
Proof.
  unfold PrimFloat.is_nan. rewrite eqb_spec.
  destruct (Prim2SF x) as [s | s | | s m e]; try reflexivity.
  - now destruct s.
  - unfold SFeqb, SFcompare.
    destruct s; rewrite Z.compare_refl, Pos.compare_cont_refl; reflexivity.
Qed.

Lemma is_finite_spec (x : float) :
  PrimFloat.is_finite x
  = match Prim2SF x with
    | S754_zero _ | S754_finite _ _ _ => true
    | _ => false
    end.
Proof.
  unfold PrimFloat.is_finite. rewrite is_nan_spec.
  unfold PrimFloat.is_infinity. rewrite eqb_spec, abs_spec.
  change (Prim2SF infinity) with (S754_infinity false).
  destruct (Prim2SF x) as [s | s | | s m e]; reflexivity.
Qed.

(** What [x || 0] evaluates to is never [-0] nor [NaN]. *)
Lemma orZero_binary64 (x : option float) :
  truthy (orZero x) = true \/ orZero x = 0.
Proof.
  destruct x as [v | ]; [ | now right ].
  simpl. destruct (negb (PrimFloat.is_zero v || PrimFloat.is_nan v)) eqn:E.
  - left. exact E.
  - now right.
Qed.

Lemma truthy_not_zero (x : float) :
  truthy x = true ->
  match Prim2SF x with S754_zero _ => False | _ => True end.
Proof.
  intros H. apply truthy_binary64 in H. destruct H as [Hz _].
  rewrite is_zero_spec in Hz. now destruct (Prim2SF x).
Qed.

Lemma add_zero_r (x : float) : truthy x = true \/ x = 0 -> x + 0 = x.
Proof.
  intros [H | ->]; [ | reflexivity ].
  apply truthy_not_zero in H.
  apply Prim2SF_inj. rewrite add_spec.
  change (Prim2SF 0) with (S754_zero false).
  destruct (Prim2SF x) as [s | s | | s m e]; try reflexivity; contradiction.
Qed.

Lemma add_zero_l (x : float) : truthy x = true \/ x = 0 -> 0 + x = x.
Proof.
  intros [H | ->]; [ | reflexivity ].
  apply truthy_not_zero in H.
  apply Prim2SF_inj. rewrite add_spec.
  change (Prim2SF 0) with (S754_zero false).
  destruct (Prim2SF x) as [s | s | | s m e]; try reflexivity; contradiction.
Qed.

Lemma sub_diag (x : float) :
  truthy x = true \/ x = 0 -> PrimFloat.is_finite x = true -> x - x = 0.
Proof.
  intros [H | ->] Hf; [ | reflexivity ].
  apply truthy_not_zero in H. rewrite is_finite_spec in Hf.
  apply Prim2SF_inj. rewrite sub_spec.
  change (Prim2SF 0) with (S754_zero false).
  destruct (Prim2SF x) as [s | s | | s m e];
    try discriminate; try contradiction.
  unfold SF64sub, SFsub. cbv zeta. rewrite Z.sub_diag. reflexivity.
Qed.

(** On binary64 the generations without a promo amount compute the very
    value of the formula with a promo amount of [0]: adding [0] to a
    starting balance read through [|| 0] changes nothing. *)
Lemma computeProfitLoss_without_promo (entry : EntryV1.Entry float) :
  EntryV1.computeProfitLoss entry
  = orZero (EntryV1.endingBalance entry)
    - (orZero (EntryV1.startingBalance entry) + 0)
    + orZero (EntryV1.withdrawal entry)
    - orZero (EntryV1.refillAmount entry).
Proof.
  rewrite (add_zero_r _ (orZero_binary64 _)). reflexivity.
Qed.

(** A percentage of a zero profit is a zero, of either sign. *)
Lemma zero_share (t : float) :
  PrimFloat.is_finite t = true -> PrimFloat.is_zero (0 * t / 100) = true.
Proof.
  intros Hf. rewrite is_finite_spec in Hf.
  rewrite is_zero_spec, div_spec, mul_spec.
  change (Prim2SF 0) with (S754_zero false).
  replace (Prim2SF 100) with (S754_finite false 7036874417766400 (-46))
    by (vm_compute; reflexivity).
  destruct (Prim2SF t) as [s | s | | s m e]; try discriminate; reflexivity.
Qed.

(** The flat part of a broker's commission on [account]. *)
Lemma computeBroker_zero_share {N : Type} {JN : JsNumber N}
    (pl : N) (b : Broker.t N) (account : EntryV2.Account N) :
  (pl * orZero (Broker.commissionPercentage b) / num_hundred)%js = num_zero ->
  (num_zero + orZero (Broker.flatCommission b))%js
  = orZero (Broker.flatCommission b) ->
  EntryV2.computeBroker pl (Some b) account
  = if nonEmpty (EntryV2.brokerId account) then
      match Broker.commissionType b with
      | flat | both => orZero (Broker.flatCommission b)
      | _ => num_zero
      end
    else num_zero.
Proof.
  intros Hz Hadd. unfold EntryV2.computeBroker.
  destruct (nonEmpty (EntryV2.brokerId account)); [ | reflexivity ].
  destruct (Broker.commissionType b); try reflexivity.
  - exact Hz.
  - now rewrite Hz, Hadd.
Qed.

Lemma zero_profit_binary64 (entry : EntryV2.Entry float) account :
  orZero (EntryV2.startingBalance entry) = orZero (EntryV2.endingBalance entry) ->
  PrimFloat.is_finite (orZero (EntryV2.endingBalance entry)) = true ->
  orZero (EntryV2.refillAmount entry) = 0 ->
  orZero (EntryV2.withdrawal entry) = 0 ->
  orZero (EntryV2.promoAmount account) = 0 ->
  EntryV2.computeProfitLoss entry (Some account) = 0.
Proof.
  intros Hse Hfin Hr Hw Hp.
  unfold EntryV2.computeProfitLoss, EntryV2.effectiveStarting.
  rewrite Hse, Hr, Hw, Hp.
  cbn [num_add num_sub F64.number].
  rewrite (add_zero_r _ (orZero_binary64 _)).
  rewrite (sub_diag _ (orZero_binary64 _) Hfin).
  reflexivity.
Qed.

(** C6.  On the binary64 numbers of the program: when the starting balance
    equals the ending balance (a finite number), the refill, the
    withdrawal and the promo amount are zero or absent, the clicker's, the
    account holder's and the broker's percentages are zero or absent, and
    there is no referral percentage, then, for any finite tax rate, the
    profit/loss, the clicker amount and the referral amount are [0], the
    tax is zero, the account holder's amount is the agent's flat
    commission, the broker amount is the flat commission of a broker of
    type [flat] or [both] (and [0] otherwise), and the company amount is
    the residual of these. *)
Theorem C6_zero_input_identity (entry : EntryV2.Entry float) account userData
    broker taxRate agentData :
  orZero (EntryV2.startingBalance entry) = orZero (EntryV2.endingBalance entry) ->
  PrimFloat.is_finite (orZero (EntryV2.endingBalance entry)) = true ->
  orZero (EntryV2.refillAmount entry) = 0 ->
  orZero (EntryV2.withdrawal entry) = 0 ->
  orZero (EntryV2.promoAmount account) = 0 ->
  orZero (User.percentage userData) = 0 ->
  (forall a, agentData = Some a -> orZero (Agent.commissionPercentage a) = 0) ->
  (forall b, broker = Some b -> orZero (Broker.commissionPercentage b) = 0) ->
  present (EntryV2.referralPercentage account) = false ->
  PrimFloat.is_finite taxRate = true ->
  let e := EntryV2.calculateAmounts entry (Some account) (Some userData)
             broker taxRate (Fetched agentData) in
  EntryV2.profitLoss e = 0
  /\ EntryV2.clickerAmount e = 0
  /\ EntryV2.referralAmount e = 0
  /\ PrimFloat.is_zero (EntryV2.taxableAmount e) = true
  /\ EntryV2.accHolderAmount e
     = match agentData with
       | Some a => orZero (Agent.flatCommission a)
       | None => 0
       end
  /\ EntryV2.brokerAmount e
     = match broker with
       | Some b =>
           if nonEmpty (EntryV2.brokerId account) then
             match Broker.commissionType b with
             | flat | both => orZero (Broker.flatCommission b)
             | _ => 0
             end
           else 0
       | None => 0
       end
  /\ EntryV2.companyAmount e
     = 0 - 0 - EntryV2.accHolderAmount e - EntryV2.brokerAmount e
       - EntryV2.taxableAmount e - 0.
Proof.
  intros Hse Hfin Hr Hw Hp Hu Ha Hb Href Htax e.
  pose proof (zero_profit_binary64 entry account Hse Hfin Hr Hw Hp) as Hpl.
  assert (Hclicker : EntryV2.clickerAmount e = 0).
  { change (EntryV2.clickerAmount e)
      with (EntryV2.computeClicker
              (EntryV2.computeProfitLoss entry (Some account)) userData).
    unfold EntryV2.computeClicker. now rewrite Hpl, Hu. }
  assert (Hreferral : EntryV2.referralAmount e = 0).
  { change (EntryV2.referralAmount e)
      with (EntryV2.computeReferral
              (EntryV2.computeProfitLoss entry (Some account)) account).
    unfold EntryV2.computeReferral. unfold present in Href.
    destruct (EntryV2.referralPercentage account) as [r | ];
      [ now rewrite Href | reflexivity ]. }
  split; [ exact Hpl | ].
  split; [ exact Hclicker | ].
  split; [ exact Hreferral | ].
  split.
  { change (EntryV2.taxableAmount e)
      with (EntryV2.computeTax
              (EntryV2.computeProfitLoss entry (Some account)) taxRate).
    unfold EntryV2.computeTax. rewrite Hpl. now apply zero_share. }
  split.
  { change (EntryV2.accHolderAmount e)
      with (EntryV2.computeAccHolder
              (EntryV2.computeProfitLoss entry (Some account)) agentData).
    rewrite Hpl.
    destruct agentData as [a | ]; [ | reflexivity ].
    unfold EntryV2.computeAccHolder. rewrite (Ha a eq_refl).
    change (0 * 0 / num_hundred)%js with 0.
    apply add_zero_l, orZero_binary64. }
  split.
  { change (EntryV2.brokerAmount e)
      with (EntryV2.computeBroker
              (EntryV2.computeProfitLoss entry (Some account)) broker account).
    rewrite Hpl.
    destruct broker as [b | ]; [ | reflexivity ].
    etransitivity; [ apply computeBroker_zero_share | reflexivity ].
    - rewrite (Hb b eq_refl). reflexivity.
    - apply add_zero_l, orZero_binary64. }
  change (EntryV2.companyAmount e)
    with (EntryV2.profitLoss e - EntryV2.clickerAmount e
          - EntryV2.accHolderAmount e - EntryV2.brokerAmount e
          - EntryV2.taxableAmount e - EntryV2.referralAmount e).
  change (EntryV2.profitLoss e = 0) in Hpl.
  now rewrite Hpl, Hclicker, Hreferral.
Qed.

(** Balance 1000 at both ends, nothing else moved, all percentages at 0, a
    flat commission of 20 for the agent and of 25 for the broker, a tax
    rate of 10: the amounts are 0, except 20 for the account holder, 25 for
    the broker and -45 for the company. *)
Lemma C6_zero_input_identity_witness :
  amountsV2
    (EntryV2.calculateAmounts
       (Sample.entryV2 (Some 1000) (Some 1000) (Some 0) (Some 0))
       (Some (Sample.accountV2 (Some "b1"%string) None None))
       (Some (Sample.user 0))
       (Some (Sample.broker both (Some 0) (Some 25)))
       10 (Fetched (Some (Sample.agent 0 20))))
  = (0, 0, 20, 25, -45, 0, 0).
Proof.
  assert (Ha : forall a : Agent.t float,
             Some (Sample.agent 0 20) = Some a ->
             orZero (Agent.commissionPercentage a) = 0)
    by (intros a [= <-]; reflexivity).
  assert (Hb : forall b : Broker.t float,
             Some (Sample.broker both (Some 0) (Some 25)) = Some b ->
             orZero (Broker.commissionPercentage b) = 0)
    by (intros b [= <-]; reflexivity).
  pose proof (C6_zero_input_identity
                (Sample.entryV2 (Some 1000) (Some 1000) (Some 0) (Some 0))
                (Sample.accountV2 (Some "b1"%string) None None)
                (Sample.user 0)
                (Some (Sample.broker both (Some 0) (Some 25)))
                10 (Some (Sample.agent 0 20))) as H.
  cbv zeta in H.
  destruct H as [H1 [H2 [H3 [_ [H5 [H6 H7]]]]]];
    [ reflexivity | reflexivity | reflexivity | reflexivity | reflexivity
    | reflexivity | exact Ha | exact Hb | reflexivity | reflexivity | ].
  unfold amountsV2. rewrite H1, H2, H3, H5, H7, H6.
  vm_compute. reflexivity.
Defined.

(** The same identity in exact arithmetic, where it needs neither
    finiteness nor zero percentages: a zero profit has zero shares at any
    rate. *)
Lemma zero_input_identity_exact (entry : EntryV2.Entry Q) account userData
    broker taxRate agentData :
  (orZero (EntryV2.startingBalance entry)
   == orZero (EntryV2.endingBalance entry))%Q ->
  (orZero (EntryV2.refillAmount entry) == 0)%Q ->
  (orZero (EntryV2.withdrawal entry) == 0)%Q ->
  (orZero (EntryV2.promoAmount account) == 0)%Q ->
  let e := EntryV2.calculateAmounts entry (Some account) (Some userData)
             broker taxRate (Fetched agentData) in
  (EntryV2.profitLoss e == 0)%Q
  /\ (EntryV2.clickerAmount e == 0)%Q
  /\ (EntryV2.taxableAmount e == 0)%Q
  /\ (EntryV2.referralAmount e == 0)%Q
  /\ (EntryV2.accHolderAmount e
      == match agentData with
         | Some a => orZero (Agent.flatCommission a)
         | None => 0
         end)%Q
  /\ (EntryV2.brokerAmount e
      == match broker with
         | Some b =>
             if nonEmpty (EntryV2.brokerId account) then
               match Broker.commissionType b with
               | flat | both => orZero (Broker.flatCommission b)
               | _ => 0
               end
             else 0
         | None => 0
         end)%Q
  /\ (EntryV2.companyAmount e
      == 0 - EntryV2.accHolderAmount e - EntryV2.brokerAmount e)%Q.
Proof.
  intros Hse Hr Hw Hp e.
  assert (Hpl : (EntryV2.computeProfitLoss entry (Some account) == 0)%Q).
  { unfold EntryV2.computeProfitLoss, EntryV2.effectiveStarting.
    cbn [num_add num_sub Exact.number]. lra. }
  assert (Hshare : forall pct : Q,
             (EntryV2.computeProfitLoss entry (Some account) * pct / 100
              == 0)%Q).
  { intros pct. rewrite Hpl. unfold Qdiv. ring. }
  assert (Hc : (EntryV2.clickerAmount e == 0)%Q) by apply Hshare.
  assert (Ht : (EntryV2.taxableAmount e == 0)%Q) by apply Hshare.
  assert (Href : (EntryV2.referralAmount e == 0)%Q).
  { change (EntryV2.referralAmount e)
      with (EntryV2.computeReferral
              (EntryV2.computeProfitLoss entry (Some account)) account).
    unfold EntryV2.computeReferral.
    destruct (EntryV2.referralPercentage account) as [r | ];
      [ | reflexivity ].
    destruct (truthy r); [ apply Hshare | reflexivity ]. }
  split; [ exact Hpl | ].
  split; [ exact Hc | ].
  split; [ exact Ht | ].
  split; [ exact Href | ].
  split.
  { change (EntryV2.accHolderAmount e)
      with (EntryV2.computeAccHolder
              (EntryV2.computeProfitLoss entry (Some account)) agentData).
    destruct agentData as [a | ]; [ | reflexivity ].
    unfold EntryV2.computeAccHolder. cbn [num_add Exact.number].
    pose proof (Hshare (orZero (Agent.commissionPercentage a))) as H.
    cbn [num_mul num_div num_hundred Exact.number] in *. lra. }
  split.
  { change (EntryV2.brokerAmount e)
      with (EntryV2.computeBroker
              (EntryV2.computeProfitLoss entry (Some account)) broker account).
    destruct broker as [b | ]; [ | reflexivity ].
    unfold EntryV2.computeBroker.
    destruct (nonEmpty (EntryV2.brokerId account)); [ | reflexivity ].
    pose proof (Hshare (orZero (Broker.commissionPercentage b))) as H.
    destruct (Broker.commissionType b); try reflexivity;
      cbn [num_add num_mul num_div num_hundred Exact.number] in *; lra. }
  change (EntryV2.companyAmount e)
    with (EntryV2.profitLoss e - EntryV2.clickerAmount e
          - EntryV2.accHolderAmount e - EntryV2.brokerAmount e
          - EntryV2.taxableAmount e - EntryV2.referralAmount e)%Q.
  change (EntryV2.profitLoss e == 0)%Q in Hpl.
  lra.
Qed.

(** ** The scenarios of the spec, run on binary64 *)

(** Scenario A: legal account, no broker, no referral. *)
Example scenario_A :
  amountsV2
    (EntryV2.calculateAmounts
       (Sample.entryV2 (Some 1000) (Some 1500) (Some 0) (Some 0))
       (Some (Sample.accountV2 None None (Some 0))) (Some (Sample.user 50))
       None 10 (Fetched (Some (Sample.agent 10 20))))
  = (500, 250, 70, 0, 130, 50, 0).
Proof. vm_compute. reflexivity. Qed.

(** Scenario B: promo amount and refill. *)
Example scenario_B :
  let entry := Sample.entryV2 (Some 0) (Some 300) (Some 50) (Some 0) in
  let account := Some (Sample.accountV2 None None (Some 150)) in
  EntryV2.effectiveStarting entry account = 150
  /\ EntryV2.profitLoss
       (EntryV2.calculateAmounts entry account None None 10 Rejected)
     = 100.
Proof. cbv zeta. split; vm_compute; reflexivity. Qed.

(** Scenario C: broker of type [both] and a referral of 5 percent. *)
Example scenario_C :
  let e := EntryV2.calculateAmounts
             (Sample.entryV2 (Some 0) (Some 1000) (Some 0) (Some 0))
             (Some (Sample.accountV2 (Some "b1"%string) (Some 5) None))
             (Some (Sample.user 50))
             (Some (Sample.broker both (Some 10) (Some 25)))
             10 (Fetched (Some (Sample.agent 10 20))) in
  EntryV2.profitLoss e = 1000
  /\ EntryV2.brokerAmount e = 125
  /\ EntryV2.referralAmount e = 50.
Proof. cbv zeta. repeat split; vm_compute; reflexivity. Qed.

(** ** Profit and loss on the numbers of the form *)

(** On binary64 [|| 0] gives a plain operand back as it is. *)
Lemma orZero_plain (x : option float) :
  plain x = true -> orZero x = operand x.
Proof.
  destruct x as [v | ]; [ | reflexivity ].
  cbn [plain orZero operand truthy F64.number]. intros H.
  apply andb_prop in H. destruct H as [Hn Hz].
  apply negb_true_iff in Hn. apply negb_true_iff in Hz.
  rewrite Hn, orb_false_r.
  destruct (PrimFloat.is_zero v) eqn:Ez; [ | reflexivity ].
  cbn [negb andb] in *.
  rewrite is_zero_spec in Ez.
  destruct (Prim2SF v) as [[ | ] | | | ] eqn:Ev; try discriminate Ez.
  - assert (E : v = (-0)%float) by (apply Prim2SF_inj; now rewrite Ev).
    subst v. vm_compute in Hz. discriminate Hz.
  - apply Prim2SF_inj. now rewrite Ev.
Qed.

(** A plain operand plus an absent promo amount is that operand. *)
Lemma operand_add_zero (x : option float) :
  plain x = true -> operand x + 0 = operand x.
Proof.
  intros H. rewrite <- (orZero_plain x H).
  apply add_zero_r, orZero_binary64.
Qed.

(** In exact arithmetic [|| 0] changes the value of no operand. *)
Lemma orZero_exact (x : option Q) : (orZero x == operand x)%Q.
Proof.
  destruct x as [v | ]; [ | reflexivity ].
  cbn [orZero operand truthy Exact.number].
  destruct (Qeq_bool v 0) eqn:E; [ | reflexivity ].
  apply Qeq_bool_iff in E. cbn [negb]. now rewrite E.
Qed.

(** C1.  On the numbers of the program, for the operands a number field can
    hold (a field left empty counting as [0]), every computation of an
    entry's amounts stores [profitLoss = endingBalance - effectiveStarting
    + withdrawal - refillAmount] with [effectiveStarting = startingBalance
    + promoAmount], the promo amount of an absent account, or an absent
    promo amount, counting as [0]: for the new entry, whether or not the
    account and the user are loaded, and for the entry under edit of the
    generation with a promo amount; and, their accounts having no promo
    amount at all, for the two earlier generations, the earliest of which
    leaves a stored value alone when it already is the computed one under
    [===].  In exact arithmetic the same holds of every operand. *)
Theorem C1_profit_loss_formula :
  (forall (entry : EntryV2.Entry float) account userData broker taxRate
          agentData,
      forallb plain
        [ EntryV2.startingBalance entry; EntryV2.endingBalance entry;
          EntryV2.refillAmount entry; EntryV2.withdrawal entry;
          promoOf account ] = true ->
      let effectiveStarting :=
        operand (EntryV2.startingBalance entry) + operand (promoOf account) in
      let formula :=
        operand (EntryV2.endingBalance entry) - effectiveStarting
        + operand (EntryV2.withdrawal entry)
        - operand (EntryV2.refillAmount entry) in
      EntryV2.profitLoss
        (EntryV2.calculateAmounts entry account userData broker taxRate
           (Fetched agentData))
      = formula
      /\ (forall a u,
            account = Some a ->
            option_map EntryV2.profitLoss
              (EntryV2.calculateEditingAmounts (Some entry) (Some a)
                 (Some u) broker taxRate (Fetched agentData))
            = Some formula))
  /\ (forall (entry : EntryV1.Entry float) account userData taxRate agentData,
      forallb plain
        [ EntryV1.startingBalance entry; EntryV1.endingBalance entry;
          EntryV1.refillAmount entry; EntryV1.withdrawal entry ] = true ->
      EntryV1.profitLoss
        (EntryV1.calculateAmounts entry account userData taxRate
           (Fetched agentData))
      = operand (EntryV1.endingBalance entry)
        - (operand (EntryV1.startingBalance entry) + 0)
        + operand (EntryV1.withdrawal entry)
        - operand (EntryV1.refillAmount entry))
  /\ (forall (entry : EntryV0.Entry float),
      forallb plain
        [ EntryV0.startingBalance entry; EntryV0.endingBalance entry;
          EntryV0.refillAmount entry; EntryV0.withdrawal entry ] = true ->
      let stored := EntryV0.profitLoss (EntryV0.profitLossEffect entry) in
      let formula :=
        operand (EntryV0.endingBalance entry)
        - (operand (EntryV0.startingBalance entry) + 0)
        + operand (EntryV0.withdrawal entry)
        - operand (EntryV0.refillAmount entry) in
      stored = formula \/ PrimFloat.eqb formula stored = true)
  /\ (forall (entry : EntryV2.Entry Q) account userData broker taxRate
             agentData,
      (EntryV2.profitLoss
         (EntryV2.calculateAmounts entry account userData broker taxRate
            (Fetched agentData))
       == operand (EntryV2.endingBalance entry)
          - (operand (EntryV2.startingBalance entry)
             + operand (promoOf account))
          + operand (EntryV2.withdrawal entry)
          - operand (EntryV2.refillAmount entry))%Q).
Proof.
  split; [ | split; [ | split ] ].
  - intros entry account userData broker taxRate agentData H.
    cbn [forallb] in H.
    apply andb_prop in H. destruct H as [Hs H].
    apply andb_prop in H. destruct H as [He H].
    apply andb_prop in H. destruct H as [Hr H].
    apply andb_prop in H. destruct H as [Hw H].
    apply andb_prop in H. destruct H as [Hp _].
    cbv zeta.
    rewrite <- (orZero_plain _ Hs), <- (orZero_plain _ He),
      <- (orZero_plain _ Hr), <- (orZero_plain _ Hw), <- (orZero_plain _ Hp).
    split.
    + etransitivity;
        [ exact (proj1 (proj1 (@profitLoss_stored float _) entry account
                          userData broker taxRate agentData))
        | reflexivity ].
    + intros a u ->.
      etransitivity;
        [ exact (proj1 (proj2 (@profitLoss_stored float _)) entry a u broker
                   taxRate agentData)
        | reflexivity ].
  - intros entry account userData taxRate agentData H.
    cbn [forallb] in H.
    apply andb_prop in H. destruct H as [Hs H].
    apply andb_prop in H. destruct H as [He H].
    apply andb_prop in H. destruct H as [Hr H].
    apply andb_prop in H. destruct H as [Hw _].
    rewrite (operand_add_zero _ Hs).
    rewrite <- (orZero_plain _ Hs), <- (orZero_plain _ He),
      <- (orZero_plain _ Hr), <- (orZero_plain _ Hw).
    etransitivity;
      [ exact (proj1 (proj2 (proj2 (proj2 (proj2
                 (@profitLoss_stored float _))))) entry account userData
                 taxRate agentData)
      | reflexivity ].
  - intros entry H.
    cbn [forallb] in H.
    apply andb_prop in H. destruct H as [Hs H].
    apply andb_prop in H. destruct H as [He H].
    apply andb_prop in H. destruct H as [Hr H].
    apply andb_prop in H. destruct H as [Hw _].
    cbv zeta.
    rewrite (operand_add_zero _ Hs).
    rewrite <- (orZero_plain _ Hs), <- (orZero_plain _ He),
      <- (orZero_plain _ Hr), <- (orZero_plain _ Hw).
    exact (proj2 (proj2 (proj2 (proj2 (proj2 (@profitLoss_stored float _)))))
             entry).
  - intros entry account userData broker taxRate agentData.
    rewrite (proj1 (proj1 (@profitLoss_stored Q _) entry account userData
                      broker taxRate agentData)).
    unfold EntryV2.effectiveStarting.
    change (match account with
            | Some a => EntryV2.promoAmount a
            | None => None
            end) with (promoOf account).
    change (@num_add Q Exact.number) with Qplus.
    change (@num_sub Q Exact.number) with Qminus.
    rewrite !orZero_exact. reflexivity.
Qed.

(** A balance going from 1000 to 1200 on an account with a promo amount of
    100, with 50 refilled and 30 withdrawn: the effective starting balance
    is 1100 and the profit 80. *)
Lemma C1_profit_loss_formula_witness :
  let entry := Sample.entryV2 (Some 1000) (Some 1200) (Some 50) (Some 30) in
  let account := Sample.accountV2 None None (Some 100) in
  forallb plain
    [ EntryV2.startingBalance entry; EntryV2.endingBalance entry;
      EntryV2.refillAmount entry; EntryV2.withdrawal entry;
      promoOf (Some account) ] = true
  /\ EntryV2.profitLoss
       (EntryV2.calculateAmounts entry (Some account) (Some (Sample.user 50))
          None 10 (Fetched (Some (Sample.agent 10 20))))
     = 1200 - (1000 + 100) + 30 - 50
  /\ 1200 - (1000 + 100) + 30 - 50 = 80.
Proof.
  cbv zeta.
  assert (H : forallb plain
                [ EntryV2.startingBalance
                    (Sample.entryV2 (Some 1000) (Some 1200) (Some 50)
                       (Some 30));
                  EntryV2.endingBalance
                    (Sample.entryV2 (Some 1000) (Some 1200) (Some 50)
                       (Some 30));
                  EntryV2.refillAmount
                    (Sample.entryV2 (Some 1000) (Some 1200) (Some 50)
                       (Some 30));
                  EntryV2.withdrawal
                    (Sample.entryV2 (Some 1000) (Some 1200) (Some 50)
                       (Some 30));
                  promoOf (Some (Sample.accountV2 None None (Some 100))) ]
              = true) by reflexivity.
  split; [ exact H | split; [ | reflexivity ] ].
  exact (proj1 (proj1 C1_profit_loss_formula
                  (Sample.entryV2 (Some 1000) (Some 1200) (Some 50) (Some 30))
                  (Some (Sample.accountV2 None None (Some 100)))
                  (Some (Sample.user 50)) None 10
                  (Some (Sample.agent 10 20)) H)).
Defined.

(** * Further properties of the code *)

(** ** The account-entry screen as a state machine *)

Section ScreenMachine.
Context {N : Type} {JN : JsNumber N}.

Lemma deriveStatus_listed (stored : option AccountStatus) (n : nat) :
  EntryV1.deriveStatus stored (S n) = active.
Proof. reflexivity. Qed.

Lemma updateAccountStatus_some (db : EntryV1.Db N) a s :
  EntryV1.db_account db = Some a ->
  exists db',
    EntryV1.updateAccountStatus db s = Fetched db'
    /\ EntryV1.db_entries db' = EntryV1.db_entries db
    /\ (exists a', EntryV1.db_account db' = Some a'
                   /\ EntryV1.doc_status a' = Some s).
Proof.
  intros Ha. unfold EntryV1.updateAccountStatus. rewrite Ha.
  eexists. split; [ reflexivity | ]. split; [ reflexivity | ].
  eexists. split; reflexivity.
Qed.

Lemma fetchAccountData_entries routeId uid today (db : EntryV1.Db N) st a :
  String.eqb routeId EmptyString = false ->
  EntryV1.db_account db = Some a ->
  EntryV1.entries (EntryV1.fetchAccountData routeId uid today db st)
  = EntryV1.entriesQuery routeId uid db.
Proof.
  intros Hid Ha. unfold EntryV1.fetchAccountData. now rewrite Hid, Ha.
Qed.

(** X1.  Loading the screen twice from the same store gives what loading it
    once gives: the form filled in for a day without entry is refilled with
    the same values. *)
Theorem fetchAccountData_idempotent routeId uid today (db : EntryV1.Db N) st :
  EntryV1.fetchAccountData routeId uid today db
    (EntryV1.fetchAccountData routeId uid today db st)
  = EntryV1.fetchAccountData routeId uid today db st.
Proof.
  unfold EntryV1.fetchAccountData.
  destruct (String.eqb routeId EmptyString); [ reflexivity | ].
  destruct (EntryV1.db_account db) as [a | ]; [ | reflexivity ].
  cbn [EntryV1.account EntryV1.entries EntryV1.editingEntry
       EntryV1.currentEntry EntryV1.loading EntryV1.taxRate].
  destruct (find _ (EntryV1.entriesQuery routeId uid db)); reflexivity.
Qed.

(** The entries listed after a new entry is saved. *)
Lemma entriesQuery_addEntry routeId uid newId (db : EntryV1.Db N) e :
  EntryV1.accountId e = routeId ->
  EntryV1.playerUid e = uid ->
  exists e',
    EntryV1.db_entries (EntryV1.addEntry db newId e)
    = EntryV1.db_entries db ++ [e']
    /\ EntryV1.entriesQuery routeId uid (EntryV1.addEntry db newId e)
       = EntryV1.entriesQuery routeId uid db ++ [e']
    /\ EntryV1.id e' = Some newId
    /\ EntryV1.date e' = EntryV1.date e
    /\ EntryV1.db_account (EntryV1.addEntry db newId e)
       = EntryV1.db_account db.
Proof.
  intros Ha Hu. eexists. split; [ reflexivity | ].
  split; [ | repeat split ].
  unfold EntryV1.entriesQuery. cbn [EntryV1.addEntry EntryV1.db_entries].
  rewrite filter_app. cbn [filter EntryV1.accountId EntryV1.playerUid].
  rewrite Ha, Hu, !String.eqb_refl. reflexivity.
Qed.

(** What [handleSubmit] leaves in the store for a new entry of a loaded
    account: the former entries followed by the new one, whichever status
    writes it makes. *)
Lemma handleSubmit_new routeId uid today newId (db : EntryV1.Db N) st a acc :
  String.eqb routeId EmptyString = false ->
  EntryV1.db_account db = Some a ->
  EntryV1.account st = Some acc ->
  EntryV1.id (EntryV1.currentEntry st) = None ->
  EntryV1.accountId (EntryV1.currentEntry st) = routeId ->
  EntryV1.playerUid (EntryV1.currentEntry st) = uid ->
  exists db' e',
    EntryV1.handleSubmit routeId uid today newId db st
    = (db', EntryV1.fetchAccountData routeId uid today db' st)
    /\ EntryV1.db_entries db' = EntryV1.db_entries db ++ [e']
    /\ EntryV1.entriesQuery routeId uid db'
       = EntryV1.entriesQuery routeId uid db ++ [e']
    /\ EntryV1.id e' = Some newId
    /\ EntryV1.date e' = EntryV1.date (EntryV1.currentEntry st)
    /\ (exists a', EntryV1.db_account db' = Some a').
Proof.
  intros Hid Ha Hacc Hnew Haid Huid.
  destruct (entriesQuery_addEntry routeId uid newId db
              (EntryV1.entryToSave (EntryV1.currentEntry st)) Haid Huid)
    as [e' [He1 [He2 [He3 [He4 He5]]]]].
  set (db1 := EntryV1.addEntry db newId
                (EntryV1.entryToSave (EntryV1.currentEntry st))) in *.
  assert (Hq : forall db2,
             EntryV1.db_entries db2 = EntryV1.db_entries db1 ->
             EntryV1.entriesQuery routeId uid db2
             = EntryV1.entriesQuery routeId uid db ++ [e']).
  { intros db2 H. unfold EntryV1.entriesQuery in *. now rewrite H. }
  assert (Ha1 : EntryV1.db_account db1 = Some a) by now rewrite He5.
  unfold EntryV1.handleSubmit. rewrite Hnew, Hacc. fold db1.
  destruct (AccountStatus_eqb (EntryV1.status acc) unused).
  - destruct (updateAccountStatus_some db1 a active Ha1)
      as [db2 [Hu2 [Hent2 [a2 [Ha2 _]]]]].
    rewrite Hu2.
    destruct (negb (AccountStatus_eqb _ (EntryV1.status acc))).
    + destruct (updateAccountStatus_some db2 a2
                  (EntryV1.accountStatus (EntryV1.currentEntry st)) Ha2)
        as [db3 [Hu3 [Hent3 [a3 [Ha3 _]]]]].
      rewrite Hu3. exists db3, e'.
      split; [ reflexivity | ].
      split; [ now rewrite Hent3, Hent2 | ].
      split; [ apply Hq; now rewrite Hent3, Hent2 | ].
      split; [ exact He3 | ]. split; [ exact He4 | ]. now exists a3.
    + exists db2, e'.
      split; [ reflexivity | ].
      split; [ now rewrite Hent2 | ].
      split; [ apply Hq; now rewrite Hent2 | ].
      split; [ exact He3 | ]. split; [ exact He4 | ]. now exists a2.
  - destruct (negb (AccountStatus_eqb _ (EntryV1.status acc))).
    + destruct (updateAccountStatus_some db1 a
                  (EntryV1.accountStatus (EntryV1.currentEntry st)) Ha1)
        as [db3 [Hu3 [Hent3 [a3 [Ha3 _]]]]].
      rewrite Hu3. exists db3, e'.
      split; [ reflexivity | ].
      split; [ now rewrite Hent3 | ].
      split; [ apply Hq; now rewrite Hent3 | ].
      split; [ exact He3 | ]. split; [ exact He4 | ]. now exists a3.
    + exists db1, e'.
      split; [ reflexivity | ].
      split; [ exact He1 | ].
      split; [ exact He2 | ].
      split; [ exact He3 | ]. split; [ exact He4 | ]. now exists a.
Qed.

(** X2.  Saving a new entry for a loaded account lists it and shows the account
    as active: the screen has one entry more than the store had for this
    account and player, the new identifier is among them, and the derived
    status is [active], whatever status was stored. *)
Theorem handleSubmit_new_entry_is_listed routeId uid today newId
    (db : EntryV1.Db N) st a acc :
  String.eqb routeId EmptyString = false ->
  EntryV1.db_account db = Some a ->
  EntryV1.account st = Some acc ->
  EntryV1.id (EntryV1.currentEntry st) = None ->
  EntryV1.accountId (EntryV1.currentEntry st) = routeId ->
  EntryV1.playerUid (EntryV1.currentEntry st) = uid ->
  let after := snd (EntryV1.handleSubmit routeId uid today newId db st) in
  List.length (EntryV1.entries after)
  = S (List.length (EntryV1.entriesQuery routeId uid db))
  /\ existsb (EntryV1.hasId newId) (EntryV1.entries after) = true
  /\ option_map EntryV1.status (EntryV1.account after) = Some active.
Proof.
  intros Hid Ha Hacc Hnew Haid Huid after.
  destruct (handleSubmit_new routeId uid today newId db st a acc
              Hid Ha Hacc Hnew Haid Huid)
    as [db' [e' [Hs [_ [Hq [He3 [_ [a' Ha']]]]]]]].
  unfold after. rewrite Hs. cbn [snd].
  rewrite (fetchAccountData_entries _ _ _ _ _ a' Hid Ha'), Hq.
  split; [ rewrite length_app; simpl; lia | ].
  split.
  - rewrite existsb_app. cbn [existsb]. unfold EntryV1.hasId at 2.
    rewrite He3, String.eqb_refl. now rewrite orb_true_r.
  - rewrite (fetchAccountData_status _ _ _ _ _ a' Hid Ha'), Hq.
    rewrite length_app. cbn [List.length].
    now replace (List.length (EntryV1.entriesQuery routeId uid db) + 1)%nat
      with (S (List.length (EntryV1.entriesQuery routeId uid db))) by lia.
Qed.
End ScreenMachine.

Section ScreenMachine2.
Context {N : Type} {JN : JsNumber N}.

Lemma find_app_none {A : Type} (f : A -> bool) (l : list A) (x : A) :
  find f l = None -> f x = true -> find f (l ++ [x]) = Some x.
Proof.
  induction l as [ | y l IH ]; simpl; intros Hnone Hx.
  - now rewrite Hx.
  - destruct (f y); [ discriminate | auto ].
Qed.

Lemma updateEntry_listed (db : EntryV1.Db N) i e :
  existsb (EntryV1.hasId i) (EntryV1.db_entries db) = true ->
  exists db',
    EntryV1.updateEntry db i e = Fetched db'
    /\ List.length (EntryV1.db_entries db')
       = List.length (EntryV1.db_entries db)
    /\ EntryV1.db_account db' = EntryV1.db_account db
    /\ (forall x, In x (EntryV1.db_entries db) ->
                  EntryV1.hasId i x = false ->
                  In x (EntryV1.db_entries db'))
    /\ (forall x, In x (EntryV1.db_entries db') ->
                  x = e \/ (In x (EntryV1.db_entries db)
                           /\ EntryV1.hasId i x = false)).
Proof.
  intros H. unfold EntryV1.updateEntry. rewrite H.
  eexists. split; [ reflexivity | ].
  cbn [EntryV1.db_entries EntryV1.db_account].
  split; [ apply length_map | ]. split; [ reflexivity | ]. split.
  - intros x Hx Hi. apply in_map_iff. exists x. now rewrite Hi.
  - intros x Hx. apply in_map_iff in Hx. destruct Hx as [y [Hy Hin]].
    destruct (EntryV1.hasId i y) eqn:E; [ now left | right; now subst ].
Qed.

(** X3.  What a second save of the form does depends on the reload that the
    first save starts and does not wait for.  Once that reload has landed,
    the form holds the saved entry with its new identifier, and the second
    save updates it: the store has one entry more than at the start, not
    two.  Before it has landed the screen still has the state [st] of the
    first save, without identifier, and the second save adds another
    entry: the store has two entries more than at the start. *)
Theorem handleSubmit_twice_one_entry routeId uid today newId newId'
    (db : EntryV1.Db N) st a acc :
  String.eqb routeId EmptyString = false ->
  String.eqb newId EmptyString = false ->
  EntryV1.db_account db = Some a ->
  EntryV1.account st = Some acc ->
  EntryV1.id (EntryV1.currentEntry st) = None ->
  EntryV1.accountId (EntryV1.currentEntry st) = routeId ->
  EntryV1.playerUid (EntryV1.currentEntry st) = uid ->
  EntryV1.date (EntryV1.currentEntry st) = today ->
  find (fun e => String.eqb (EntryV1.date e) today)
    (EntryV1.entriesQuery routeId uid db) = None ->
  let first := EntryV1.handleSubmit routeId uid today newId db st in
  let second := EntryV1.handleSubmit routeId uid today newId'
                  (fst first) (snd first) in
  let early := EntryV1.handleSubmit routeId uid today newId'
                 (fst first) st in
  EntryV1.id (EntryV1.currentEntry (snd first)) = Some newId
  /\ List.length (EntryV1.db_entries (fst first))
     = S (List.length (EntryV1.db_entries db))
  /\ List.length (EntryV1.db_entries (fst second))
     = S (List.length (EntryV1.db_entries db))
  /\ List.length (EntryV1.db_entries (fst early))
     = S (S (List.length (EntryV1.db_entries db)))
  /\ existsb (EntryV1.hasId newId') (EntryV1.db_entries (fst early)) = true.
Proof.
  intros Hid Hnid Ha Hacc Hnew Haid Huid Hdate Hnone first second early.
  destruct (handleSubmit_new routeId uid today newId db st a acc
              Hid Ha Hacc Hnew Haid Huid)
    as [db' [e' [Hs [Hent [Hq [He3 [He4 [a' Ha']]]]]]]].
  assert (Hcur : EntryV1.currentEntry (snd first) = e').
  { unfold first. rewrite Hs. cbn [snd].
    unfold EntryV1.fetchAccountData. rewrite Hid, Ha'.
    cbn [EntryV1.currentEntry]. rewrite Hq.
    rewrite (find_app_none _ _ e' Hnone); [ reflexivity | ].
    rewrite He4, Hdate. apply String.eqb_refl. }
  assert (Hlen : List.length (EntryV1.db_entries (fst first))
                 = S (List.length (EntryV1.db_entries db))).
  { unfold first. rewrite Hs. cbn [fst]. rewrite Hent, length_app.
    simpl. lia. }
  assert (Hearly :
            List.length (EntryV1.db_entries (fst early))
            = S (S (List.length (EntryV1.db_entries db)))
            /\ existsb (EntryV1.hasId newId')
                 (EntryV1.db_entries (fst early)) = true).
  { assert (Ha1 : EntryV1.db_account (fst first) = Some a')
      by (unfold first; rewrite Hs; exact Ha').
    destruct (handleSubmit_new routeId uid today newId' (fst first) st a' acc
                Hid Ha1 Hacc Hnew Haid Huid)
      as [db'' [e'' [Hs' [Hent' [_ [He3' _]]]]]].
    unfold early. rewrite Hs'. cbn [fst]. rewrite Hent'. split.
    - rewrite length_app, Hlen. simpl. lia.
    - rewrite existsb_app. cbn [existsb]. unfold EntryV1.hasId at 2.
      rewrite He3', String.eqb_refl. now rewrite orb_true_r. }
  split; [ now rewrite Hcur | ]. split; [ exact Hlen | ].
  split; [ | exact Hearly ].
  assert (Hin : existsb (EntryV1.hasId newId)
                  (EntryV1.db_entries (fst first)) = true).
  { unfold first. rewrite Hs. cbn [fst]. rewrite Hent, existsb_app.
    cbn [existsb]. unfold EntryV1.hasId at 2.
    rewrite He3, String.eqb_refl. now rewrite orb_true_r. }
  destruct (updateEntry_listed (fst first) newId
              (EntryV1.entryToSave (EntryV1.currentEntry (snd first))) Hin)
    as [db2 [Hu [Hl2 [Ha2 _]]]].
  assert (Hsecond : List.length (EntryV1.db_entries (fst second))
                    = List.length (EntryV1.db_entries (fst first))).
  { unfold second, EntryV1.handleSubmit at 1.
    rewrite Hcur at 1. rewrite He3, Hnid. rewrite Hu.
    assert (Hdb2 : exists a2, EntryV1.db_account db2 = Some a2).
    { rewrite Ha2. unfold first. rewrite Hs. cbn [fst]. now exists a'. }
    destruct Hdb2 as [a2 Hda2].
    destruct (EntryV1.account (snd first)) as [acc1 | ];
      [ | cbn [fst]; exact Hl2 ].
    destruct (negb _); [ | cbn [fst]; exact Hl2 ].
    destruct (updateAccountStatus_some db2 a2
                (EntryV1.accountStatus (EntryV1.currentEntry (snd first)))
                Hda2) as [db3 [Hu3 [Hent3 _]]].
    rewrite Hu3. cbn [fst]. now rewrite Hent3. }
  now rewrite Hsecond.
Qed.

Lemma deleteEntry_entries (db : EntryV1.Db N) entryId :
  EntryV1.db_entries (EntryV1.deleteEntry db entryId)
  = filter (fun e => negb (EntryV1.hasId entryId e)) (EntryV1.db_entries db).
Proof.
  unfold EntryV1.deleteEntry. cbn [EntryV1.db_entries].
  apply filter_ext. intros e. unfold EntryV1.hasId.
  destruct (EntryV1.id e) as [i | ]; [ | reflexivity ].
  now rewrite String.eqb_sym.
Qed.

Lemma filter_comm {A : Type} (f g : A -> bool) (l : list A) :
  filter f (filter g l) = filter g (filter f l).
Proof.
  induction l as [ | x l IH ]; [ reflexivity | ].
  simpl. destruct (f x) eqn:F, (g x) eqn:G; simpl;
    rewrite ?F, ?G, IH; reflexivity.
Qed.

Lemma existsb_filter_negb {A : Type} (f : A -> bool) (l : list A) :
  existsb f (filter (fun x => negb (f x)) l) = false.
Proof.
  induction l as [ | x l IH ]; [ reflexivity | ].
  simpl. destruct (f x) eqn:E; simpl; [ exact IH | now rewrite E ].
Qed.

(** X4.  A confirmed deletion, for an account whose document exists, removes
    from the store every entry of that identifier and no other, and the
    screen then lists what it would have listed before, less that entry. *)
Theorem handleDeleteEntry_removes_only_that_entry routeId uid today entryId
    (db : EntryV1.Db N) st a :
  String.eqb routeId EmptyString = false ->
  EntryV1.db_account db = Some a ->
  let after := EntryV1.handleDeleteEntry routeId uid today true entryId db st in
  EntryV1.db_entries (fst after)
  = filter (fun e => negb (EntryV1.hasId entryId e)) (EntryV1.db_entries db)
  /\ EntryV1.entries (snd after)
     = filter (fun e => negb (EntryV1.hasId entryId e))
         (EntryV1.entriesQuery routeId uid db)
  /\ existsb (EntryV1.hasId entryId) (EntryV1.entries (snd after)) = false.
Proof.
  intros Hid Ha after.
  assert (Hq : forall db2,
             EntryV1.db_entries db2
             = EntryV1.db_entries (EntryV1.deleteEntry db entryId) ->
             EntryV1.entriesQuery routeId uid db2
             = filter (fun e => negb (EntryV1.hasId entryId e))
                 (EntryV1.entriesQuery routeId uid db)).
  { intros db2 H. unfold EntryV1.entriesQuery. rewrite H, deleteEntry_entries.
    apply filter_comm. }
  assert (Ha1 : EntryV1.db_account (EntryV1.deleteEntry db entryId) = Some a)
    by exact Ha.
  pose proof (existsb_filter_negb (EntryV1.hasId entryId)
                (EntryV1.entriesQuery routeId uid db)) as Hgone.
  unfold after, EntryV1.handleDeleteEntry.
  destruct (_ && _).
  - destruct (updateAccountStatus_some _ a unused Ha1)
      as [db2 [Hu [Hent [a2 [Ha2 _]]]]].
    rewrite Hu. cbn [fst snd].
    rewrite (fetchAccountData_entries _ _ _ _ _ a2 Hid Ha2).
    rewrite (Hq db2 Hent), Hent, deleteEntry_entries. now repeat split.
  - cbn [fst snd].
    rewrite (fetchAccountData_entries _ _ _ _ _ a Hid Ha1).
    rewrite (Hq _ eq_refl), deleteEntry_entries. now repeat split.
Qed.

(** X5.  Saving an edit rewrites the stored entry in place: for an entry under
    edit whose document exists, the store keeps its number of entries and
    every entry of another identifier, every stored entry is either the
    normalised edit or an untouched one, and the edit form is closed.  When
    no document has that identifier the update is rejected and nothing
    changes, the edit form included. *)
Theorem handleEditEntry_in_place routeId uid today (db : EntryV1.Db N) st e i :
  EntryV1.editingEntry st = Some e ->
  EntryV1.id e = Some i ->
  let after := ScreenV1.handleEditEntry routeId uid today db st in
  (existsb (EntryV1.hasId i) (EntryV1.db_entries db) = true ->
   List.length (EntryV1.db_entries (fst after))
   = List.length (EntryV1.db_entries db)
   /\ (forall x, In x (EntryV1.db_entries db) -> EntryV1.hasId i x = false ->
                 In x (EntryV1.db_entries (fst after)))
   /\ (forall x, In x (EntryV1.db_entries (fst after)) ->
                 x = EntryV1.entryToSave e
                 \/ (In x (EntryV1.db_entries db)
                     /\ EntryV1.hasId i x = false))
   /\ EntryV1.editingEntry (snd after) = None)
  /\ (existsb (EntryV1.hasId i) (EntryV1.db_entries db) = false ->
      after = (db, st)).
Proof.
  intros He Hi after. unfold after, ScreenV1.handleEditEntry.
  rewrite He, Hi. split.
  - intros Hin.
    destruct (updateEntry_listed db i (EntryV1.entryToSave e) Hin)
      as [db' [Hu [Hl [_ [Hkeep Hall]]]]].
    rewrite Hu. cbn [fst snd].
    split; [ exact Hl | ]. split; [ exact Hkeep | ]. split; [ exact Hall | ].
    unfold EntryV1.fetchAccountData.
    destruct (String.eqb routeId EmptyString); [ reflexivity | ].
    destruct (EntryV1.db_account db'); reflexivity.
  - intros Hout. unfold EntryV1.updateEntry. now rewrite Hout.
Qed.
End ScreenMachine2.

(** ** What [handleSubmit] writes *)

Section Normalised.
Context {N : Type} {JN : JsNumber N}.

Lemma orZero_orZero (x : option N) : orZero (Some (orZero x)) = orZero x.
Proof.
  destruct x as [v | ]; simpl.
  - destruct (truthy v) eqn:E; [ now rewrite E | ].
    now destruct (truthy num_zero).
  - now destruct (truthy num_zero).
Qed.

Lemma entryToSave_idempotent (e : EntryV1.Entry N) :
  EntryV1.entryToSave (EntryV1.entryToSave e) = EntryV1.entryToSave e.
Proof.
  unfold EntryV1.entryToSave.
  cbn [EntryV1.id EntryV1.accountId EntryV1.playerUid EntryV1.date
       EntryV1.startingBalance EntryV1.endingBalance EntryV1.refillAmount
       EntryV1.withdrawal EntryV1.profitLoss EntryV1.clickerAmount
       EntryV1.accHolderAmount EntryV1.companyAmount EntryV1.taxableAmount
       EntryV1.referralAmount EntryV1.accountStatus].
  now rewrite !orZero_orZero.
Qed.
End Normalised.

Lemma negative_zero_is_not_zero : (0 : float) <> (-0)%float.
Proof.
  intros H.
  assert (E : PrimFloat.ltb (1 / 0) 0 = PrimFloat.ltb (1 / -0) 0)
    by now rewrite <- H.
  vm_compute in E. discriminate E.
Qed.

Lemma orZero_clean (x : option float) :
  PrimFloat.is_nan (orZero x) = false /\ orZero x <> (-0)%float.
Proof.
  destruct (orZero_binary64 x) as [H | ->].
  - apply truthy_binary64 in H. destruct H as [Hz Hn].
    split; [ exact Hn | ].
    intros E. rewrite E in Hz. vm_compute in Hz. discriminate Hz.
  - split; [ reflexivity | exact negative_zero_is_not_zero ].
Qed.

(** X6.  On the numbers of the program, what [handleSubmit] and
    [handleEditEntry] write for the four balances and the five shares of
    an entry is never NaN and never the negative zero, whatever the form
    holds, and normalising again changes nothing. *)
Theorem entryToSave_writes_clean_numbers (e : EntryV1.Entry float) :
  let saved := EntryV1.entryToSave e in
  (forall x,
      In x [ orZero (EntryV1.startingBalance saved);
             orZero (EntryV1.endingBalance saved);
             orZero (EntryV1.refillAmount saved);
             orZero (EntryV1.withdrawal saved);
             EntryV1.clickerAmount saved; EntryV1.accHolderAmount saved;
             EntryV1.companyAmount saved; EntryV1.taxableAmount saved;
             EntryV1.referralAmount saved ] ->
      PrimFloat.is_nan x = false /\ x <> (-0)%float)
  /\ (forall x,
      In x [ EntryV1.startingBalance saved; EntryV1.endingBalance saved;
             EntryV1.refillAmount saved; EntryV1.withdrawal saved ] ->
      exists v, x = Some v /\ PrimFloat.is_nan v = false /\ v <> (-0)%float)
  /\ EntryV1.entryToSave saved = saved.
Proof.
  intros saved. split; [ | split ].
  - intros x Hx. unfold saved, EntryV1.entryToSave in Hx.
    cbn [In EntryV1.startingBalance EntryV1.endingBalance
         EntryV1.refillAmount EntryV1.withdrawal EntryV1.clickerAmount
         EntryV1.accHolderAmount EntryV1.companyAmount
         EntryV1.taxableAmount EntryV1.referralAmount] in Hx.
    repeat (destruct Hx as [<- | Hx]; [ apply orZero_clean | ]).
    contradiction.
  - intros x Hx. unfold saved, EntryV1.entryToSave in Hx.
    cbn [In EntryV1.startingBalance EntryV1.endingBalance
         EntryV1.refillAmount EntryV1.withdrawal] in Hx.
    repeat (destruct Hx as [<- | Hx];
            [ eexists; split; [ reflexivity | apply orZero_clean ] | ]).
    contradiction.
  - apply entryToSave_idempotent.
Qed.

(** ** The split as a function of the profit *)

(** The percentage and the flat part of the broker's commission on an
    account, as [calculateAmounts] applies them. *)
Lemma computeBroker_exact (pl : Q) broker (account : EntryV2.Account Q) :
  let applies :=
    match broker with
    | Some _ => nonEmpty (EntryV2.brokerId account)
    | None => false
    end in
  let pct :=
    match broker with
    | Some b =>
        match Broker.commissionType b with
        | percentage | both =>
            if applies then orZero (Broker.commissionPercentage b) else 0%Q
        | _ => 0%Q
        end
    | None => 0%Q
    end in
  let flatPart :=
    match broker with
    | Some b =>
        match Broker.commissionType b with
        | flat | both =>
            if applies then orZero (Broker.flatCommission b) else 0%Q
        | _ => 0%Q
        end
    | None => 0%Q
    end in
  (EntryV2.computeBroker pl broker account == pl * pct / 100 + flatPart)%Q.
Proof.
  cbv zeta. unfold EntryV2.computeBroker.
  destruct broker as [b | ];
    [ | cbn [num_zero Exact.number]; unfold Qdiv; ring ].
  destruct (nonEmpty (EntryV2.brokerId account));
    destruct (Broker.commissionType b);
    cbn [num_add num_mul num_div num_zero num_hundred Exact.number];
    unfold Qdiv; ring.
Qed.

(** X7.  In exact arithmetic the company amount is the profit times what the
    percentages leave of 100, less the flat commissions:
    [profitLoss * (100 - clicker - agent - broker - tax - referral) / 100
    - agentFlat - brokerFlat], each rate and flat amount being the one the
    split applies (0 for an absent agent document, for a broker that does
    not apply or whose type leaves the part out, for a falsy referral
    percentage). *)
Theorem companyAmount_closed_form (entry : EntryV2.Entry Q) account userData
    broker taxRate agentData :
  let e := EntryV2.calculateAmounts entry (Some account) (Some userData)
             broker taxRate (Fetched agentData) in
  let clickerPct := orZero (User.percentage userData) in
  let agentPct :=
    match agentData with
    | Some a => orZero (Agent.commissionPercentage a)
    | None => 0%Q
    end in
  let agentFlat :=
    match agentData with
    | Some a => orZero (Agent.flatCommission a)
    | None => 0%Q
    end in
  let applies :=
    match broker with
    | Some _ => nonEmpty (EntryV2.brokerId account)
    | None => false
    end in
  let brokerPct :=
    match broker with
    | Some b =>
        match Broker.commissionType b with
        | percentage | both =>
            if applies then orZero (Broker.commissionPercentage b) else 0%Q
        | _ => 0%Q
        end
    | None => 0%Q
    end in
  let brokerFlat :=
    match broker with
    | Some b =>
        match Broker.commissionType b with
        | flat | both =>
            if applies then orZero (Broker.flatCommission b) else 0%Q
        | _ => 0%Q
        end
    | None => 0%Q
    end in
  let referralPct :=
    if present (EntryV2.referralPercentage account)
    then orZero (EntryV2.referralPercentage account) else 0%Q in
  (EntryV2.companyAmount e
   == EntryV2.profitLoss e
      * (100 - clickerPct - agentPct - brokerPct - taxRate - referralPct)
      / 100
      - agentFlat - brokerFlat)%Q.
Proof.
  cbv zeta.
  pose proof (computeBroker_exact
                (EntryV2.computeProfitLoss entry (Some account)) broker
                account) as Hb.
  cbv zeta in Hb.
  change (EntryV2.companyAmount
            (EntryV2.calculateAmounts entry (Some account) (Some userData)
               broker taxRate (Fetched agentData)))
    with (EntryV2.computeProfitLoss entry (Some account)
          - EntryV2.computeClicker
              (EntryV2.computeProfitLoss entry (Some account)) userData
          - EntryV2.computeAccHolder
              (EntryV2.computeProfitLoss entry (Some account)) agentData
          - EntryV2.computeBroker
              (EntryV2.computeProfitLoss entry (Some account)) broker account
          - EntryV2.computeTax
              (EntryV2.computeProfitLoss entry (Some account)) taxRate
          - EntryV2.computeReferral
              (EntryV2.computeProfitLoss entry (Some account)) account)%Q.
  change (EntryV2.profitLoss
            (EntryV2.calculateAmounts entry (Some account) (Some userData)
               broker taxRate (Fetched agentData)))
    with (EntryV2.computeProfitLoss entry (Some account)).
  assert (Hr : (EntryV2.computeReferral
                  (EntryV2.computeProfitLoss entry (Some account)) account
                == EntryV2.computeProfitLoss entry (Some account)
                   * (if present (EntryV2.referralPercentage account)
                      then orZero (EntryV2.referralPercentage account)
                      else 0)
                   / 100)%Q).
  { unfold EntryV2.computeReferral, present, orZero.
    destruct (EntryV2.referralPercentage account) as [r | ];
      [ destruct (truthy r) | ];
      cbn [num_mul num_div num_zero num_hundred Exact.number];
      unfold Qdiv; ring. }
  rewrite Hb, Hr.
  set (pl := EntryV2.computeProfitLoss entry (Some account)).
  unfold EntryV2.computeClicker, EntryV2.computeAccHolder,
    EntryV2.computeTax.
  destruct agentData as [a | ];
    cbn [num_add num_mul num_div num_zero num_hundred Exact.number];
    field.
Qed.

Lemma scaled_nonneg (x k : Q) : (0 <= x -> 0 <= k -> 0 <= x * k / 100)%Q.
Proof.
  intros Hx Hk.
  pose proof (Qmult_le_0_compat _ _ Hx Hk) as H.
  unfold Qdiv. apply Qmult_le_0_compat; [ exact H | ].
  now apply Qlt_le_weak.
Qed.

Lemma scaled_neg (x k : Q) : (0 < x -> k < 0 -> x * k / 100 < 0)%Q.
Proof.
  intros Hx Hk.
  pose proof (negative_share k x Hk Hx) as H.
  now rewrite (Qmult_comm x k).
Qed.

(** X8.  In exact arithmetic, on a profit that is not negative the company
    amount is not negative as long as the percentages applied add up to at
    most 100 and no flat commission is charged; and on a positive profit
    it is negative as soon as they add up to more than 100, flat
    commissions not being negative. *)
Theorem companyAmount_sign (entry : EntryV2.Entry Q) account userData
    broker taxRate agentData :
  let e := EntryV2.calculateAmounts entry (Some account) (Some userData)
             broker taxRate (Fetched agentData) in
  let clickerPct := orZero (User.percentage userData) in
  let agentPct :=
    match agentData with
    | Some a => orZero (Agent.commissionPercentage a)
    | None => 0%Q
    end in
  let agentFlat :=
    match agentData with
    | Some a => orZero (Agent.flatCommission a)
    | None => 0%Q
    end in
  let applies :=
    match broker with
    | Some _ => nonEmpty (EntryV2.brokerId account)
    | None => false
    end in
  let brokerPct :=
    match broker with
    | Some b =>
        match Broker.commissionType b with
        | percentage | both =>
            if applies then orZero (Broker.commissionPercentage b) else 0%Q
        | _ => 0%Q
        end
    | None => 0%Q
    end in
  let brokerFlat :=
    match broker with
    | Some b =>
        match Broker.commissionType b with
        | flat | both =>
            if applies then orZero (Broker.flatCommission b) else 0%Q
        | _ => 0%Q
        end
    | None => 0%Q
    end in
  let referralPct :=
    if present (EntryV2.referralPercentage account)
    then orZero (EntryV2.referralPercentage account) else 0%Q in
  let committed :=
    (clickerPct + agentPct + brokerPct + taxRate + referralPct)%Q in
  ((0 <= EntryV2.profitLoss e)%Q -> (committed <= 100)%Q ->
   (agentFlat + brokerFlat == 0)%Q -> (0 <= EntryV2.companyAmount e)%Q)
  /\ ((0 < EntryV2.profitLoss e)%Q -> (100 < committed)%Q ->
      (0 <= agentFlat + brokerFlat)%Q -> (EntryV2.companyAmount e < 0)%Q).
Proof.
  cbv zeta.
  pose proof (companyAmount_closed_form entry account userData broker
                taxRate agentData) as H.
  cbv zeta in H.
  set (co := EntryV2.companyAmount _) in *.
  set (pl := EntryV2.profitLoss _) in *.
  set (p := orZero (User.percentage userData)) in *.
  set (a := match agentData with
            | Some a => orZero (Agent.commissionPercentage a)
            | None => 0%Q end) in *.
  set (fa := match agentData with
             | Some a => orZero (Agent.flatCommission a)
             | None => 0%Q end) in *.
  set (b := match broker with
            | Some b => match Broker.commissionType b with
                        | percentage | both => _
                        | _ => 0%Q end
            | None => 0%Q end) in *.
  set (fb := match broker with
             | Some b => match Broker.commissionType b with
                         | flat | both => _
                         | _ => 0%Q end
             | None => 0%Q end) in *.
  set (r := if present _ then _ else 0%Q) in *.
  split.
  - intros Hpl Hc Hf.
    assert (Hk : (0 <= 100 - p - a - b - taxRate - r)%Q) by lra.
    pose proof (scaled_nonneg _ _ Hpl Hk). lra.
  - intros Hpl Hc Hf.
    assert (Hk : (100 - p - a - b - taxRate - r < 0)%Q) by lra.
    pose proof (scaled_neg _ _ Hpl Hk). lra.
Qed.

(** X9.  In exact arithmetic, with no flat commission charged, the split is
    proportional to the profit: for one account, user, agent, broker and
    tax rate, an entry whose profit is [k] times the profit of another has
    each of its seven amounts equal to [k] times the other's, for any [k],
    negative included. *)
Theorem split_proportional (entry1 entry2 : EntryV2.Entry Q) account userData
    broker taxRate agentData (k : Q) :
  (EntryV2.computeProfitLoss entry2 (Some account)
   == k * EntryV2.computeProfitLoss entry1 (Some account))%Q ->
  (forall a, agentData = Some a -> (orZero (Agent.flatCommission a) == 0)%Q) ->
  (forall b, broker = Some b -> (orZero (Broker.flatCommission b) == 0)%Q) ->
  let e1 := EntryV2.calculateAmounts entry1 (Some account) (Some userData)
              broker taxRate (Fetched agentData) in
  let e2 := EntryV2.calculateAmounts entry2 (Some account) (Some userData)
              broker taxRate (Fetched agentData) in
  (EntryV2.profitLoss e2 == k * EntryV2.profitLoss e1)%Q
  /\ (EntryV2.clickerAmount e2 == k * EntryV2.clickerAmount e1)%Q
  /\ (EntryV2.accHolderAmount e2 == k * EntryV2.accHolderAmount e1)%Q
  /\ (EntryV2.brokerAmount e2 == k * EntryV2.brokerAmount e1)%Q
  /\ (EntryV2.taxableAmount e2 == k * EntryV2.taxableAmount e1)%Q
  /\ (EntryV2.referralAmount e2 == k * EntryV2.referralAmount e1)%Q
  /\ (EntryV2.companyAmount e2 == k * EntryV2.companyAmount e1)%Q.
Proof.
  intros Hpl Hfa Hfb e1 e2.
  set (pl1 := EntryV2.computeProfitLoss entry1 (Some account)) in *.
  set (pl2 := EntryV2.computeProfitLoss entry2 (Some account)) in *.
  assert (Hshare : forall c : Q, (pl2 * c / 100 == k * (pl1 * c / 100))%Q).
  { intros c. rewrite Hpl. unfold Qdiv. ring. }
  assert (Hc : (EntryV2.clickerAmount e2 == k * EntryV2.clickerAmount e1)%Q)
    by apply Hshare.
  assert (Ht : (EntryV2.taxableAmount e2 == k * EntryV2.taxableAmount e1)%Q)
    by apply Hshare.
  assert (Ha : (EntryV2.accHolderAmount e2
                == k * EntryV2.accHolderAmount e1)%Q).
  { change (EntryV2.computeAccHolder pl2 agentData
            == k * EntryV2.computeAccHolder pl1 agentData)%Q.
    unfold EntryV2.computeAccHolder.
    destruct agentData as [a | ];
      cbn [num_add num_mul num_div num_zero num_hundred Exact.number];
      [ | ring ].
    rewrite (Hfa a eq_refl), Hshare. ring. }
  assert (Hb : (EntryV2.brokerAmount e2 == k * EntryV2.brokerAmount e1)%Q).
  { change (EntryV2.computeBroker pl2 broker account
            == k * EntryV2.computeBroker pl1 broker account)%Q.
    unfold EntryV2.computeBroker.
    destruct broker as [b | ];
      [ | cbn [num_zero Exact.number]; ring ].
    destruct (nonEmpty (EntryV2.brokerId account));
      [ | cbn [num_zero Exact.number]; ring ].
    destruct (Broker.commissionType b);
      cbn [num_add num_mul num_div num_zero num_hundred Exact.number];
      rewrite ?(Hfb b eq_refl), ?Hshare; ring. }
  assert (Hr : (EntryV2.referralAmount e2 == k * EntryV2.referralAmount e1)%Q).
  { change (EntryV2.computeReferral pl2 account
            == k * EntryV2.computeReferral pl1 account)%Q.
    unfold EntryV2.computeReferral.
    destruct (EntryV2.referralPercentage account) as [r | ];
      [ destruct (truthy r) | ];
      cbn [num_mul num_div num_zero num_hundred Exact.number];
      rewrite ?Hshare; ring. }
  split; [ exact Hpl | ]. split; [ exact Hc | ]. split; [ exact Ha | ].
  split; [ exact Hb | ]. split; [ exact Ht | ]. split; [ exact Hr | ].
  change (EntryV2.companyAmount e2)
    with (pl2 - EntryV2.clickerAmount e2 - EntryV2.accHolderAmount e2
          - EntryV2.brokerAmount e2 - EntryV2.taxableAmount e2
          - EntryV2.referralAmount e2)%Q.
  change (EntryV2.companyAmount e1)
    with (pl1 - EntryV2.clickerAmount e1 - EntryV2.accHolderAmount e1
          - EntryV2.brokerAmount e1 - EntryV2.taxableAmount e1
          - EntryV2.referralAmount e1)%Q.
  rewrite Hc, Ha, Hb, Ht, Hr, Hpl. ring.
Qed.

(** *** The two generations of the split agree *)

Lemma sub_zero_r (x : float) : x - 0 = x.
Proof.
  apply Prim2SF_inj. rewrite sub_spec.
  change (Prim2SF 0) with (S754_zero false).
  destruct (Prim2SF x) as [s | s | | s m e]; try reflexivity.
  now destruct s.
Qed.

(** X10.  On the numbers of the program, the split with broker and promo amount
    computes, for an entry and an account of the earlier screen (no broker
    identifier, no promo amount), exactly the amounts of the earlier
    split, and a broker amount of 0, whatever broker the screen holds. *)
Theorem calculateAmounts_agrees_with_earlier_split (e : EntryV1.Entry float)
    account userData broker taxRate agentData :
  let old := EntryV1.calculateAmounts e (Some account) (Some userData)
               taxRate (Fetched agentData) in
  amountsV2
    (EntryV2.calculateAmounts (Upgrade.entry e)
       (Some (Upgrade.account account)) (Some userData) broker taxRate
       (Fetched agentData))
  = (EntryV1.profitLoss old, EntryV1.clickerAmount old,
     EntryV1.accHolderAmount old, 0, EntryV1.companyAmount old,
     EntryV1.taxableAmount old, EntryV1.referralAmount old).
Proof.
  intros old.
  assert (Hpl : EntryV2.computeProfitLoss (Upgrade.entry e)
                  (Some (Upgrade.account account))
                = EntryV1.computeProfitLoss e).
  { unfold EntryV2.computeProfitLoss, EntryV2.effectiveStarting,
      EntryV1.computeProfitLoss.
    cbn [Upgrade.entry Upgrade.account EntryV2.endingBalance
         EntryV2.startingBalance EntryV2.withdrawal EntryV2.refillAmount
         EntryV2.promoAmount].
    change (orZero (@None float)) with 0.
    cbn [num_add num_sub F64.number].
    now rewrite (add_zero_r _ (orZero_binary64 _)). }
  assert (Hb : forall pl, EntryV2.computeBroker pl broker
                            (Upgrade.account account) = 0).
  { intros pl.
    exact (computeBroker_no_brokerId pl broker (Upgrade.account account)
             eq_refl). }
  unfold amountsV2, old, EntryV2.calculateAmounts, EntryV1.calculateAmounts,
    EntryV1.split.
  cbn [EntryV2.setAmounts EntryV1.setAmounts EntryV2.profitLoss
       EntryV2.clickerAmount EntryV2.accHolderAmount EntryV2.brokerAmount
       EntryV2.companyAmount EntryV2.taxableAmount EntryV2.referralAmount
       EntryV1.profitLoss EntryV1.clickerAmount EntryV1.accHolderAmount
       EntryV1.companyAmount EntryV1.taxableAmount EntryV1.referralAmount].
  rewrite Hpl, Hb.
  cbn [num_sub F64.number]. rewrite sub_zero_r.
  reflexivity.
Qed.

(** ** The entry form of a pph account that has entries *)

Lemma ascii_compare_lt_trans (a b c : Ascii.ascii) :
  Ascii.compare a b = Lt -> Ascii.compare b c = Lt -> Ascii.compare a c = Lt.
Proof.
  unfold Ascii.compare. rewrite !N.compare_lt_iff. apply N.lt_trans.
Qed.

Lemma string_compare_lt_trans (s1 s2 s3 : string) :
  String.compare s1 s2 = Lt -> String.compare s2 s3 = Lt ->
  String.compare s1 s3 = Lt.
Proof.
  revert s2 s3.
  induction s1 as [ | c1 s1 IH ]; intros [ | c2 s2 ] [ | c3 s3 ];
    simpl; try congruence.
  destruct (Ascii.compare c1 c2) eqn:E12; try discriminate;
    destruct (Ascii.compare c2 c3) eqn:E23; try discriminate; intros H1 H2.
  - apply Ascii.compare_eq_iff in E12, E23. subst.
    rewrite (proj2 (N.compare_eq_iff _ _) eq_refl : Ascii.compare c3 c3 = Eq).
    eauto.
  - apply Ascii.compare_eq_iff in E12. subst. now rewrite E23.
  - apply Ascii.compare_eq_iff in E23. subst. now rewrite E12.
  - now rewrite (ascii_compare_lt_trans _ _ _ E12 E23).
Qed.

Lemma string_ltb_trans (s1 s2 s3 : string) :
  String.ltb s1 s2 = true -> String.ltb s2 s3 = true ->
  String.ltb s1 s3 = true.
Proof.
  unfold String.ltb. intros H1 H2.
  destruct (String.compare s1 s2) eqn:E1; try discriminate.
  destruct (String.compare s2 s3) eqn:E2; try discriminate.
  now rewrite (string_compare_lt_trans _ _ _ E1 E2).
Qed.

Lemma string_ltb_trichotomy (s1 s2 : string) :
  String.ltb s1 s2 = false -> s1 = s2 \/ String.ltb s2 s1 = true.
Proof.
  unfold String.ltb. rewrite (String.compare_antisym s2 s1).
  destruct (String.compare s1 s2) eqn:E; try discriminate; intros _.
  - left. now apply String.compare_eq_iff.
  - now right.
Qed.

Lemma string_ltb_irrefl (s : string) : String.ltb s s = false.
Proof.
  unfold String.ltb. pose proof (String.compare_antisym s s) as H.
  destruct (String.compare s s); simpl in H; congruence.
Qed.

Section LatestEntry.
Context {N : Type} {JN : JsNumber N}.

Lemma latestEntry_in (l : list (EntryV2.Entry N)) m :
  EntryV2.latestEntry l = Some m -> In m l.
Proof.
  revert m. induction l as [ | e l IH ]; simpl; [ discriminate | ].
  intros m. destruct (EntryV2.latestEntry l) as [m' | ].
  - destruct (String.ltb (EntryV2.date e) (EntryV2.date m')); intros [= <-];
      auto.
  - intros [= <-]. now left.
Qed.

Lemma latestEntry_some (l : list (EntryV2.Entry N)) :
  l <> [] -> exists m, EntryV2.latestEntry l = Some m.
Proof.
  destruct l as [ | e l ]; [ congruence | ]. intros _. simpl.
  destruct (EntryV2.latestEntry l) as [m' | ]; [ | eauto ].
  destruct (String.ltb _ _); eauto.
Qed.

Lemma latestEntry_latest (l : list (EntryV2.Entry N)) m :
  NoDup (map EntryV2.date l) ->
  EntryV2.latestEntry l = Some m ->
  forall e, In e l -> e <> m ->
            String.ltb (EntryV2.date e) (EntryV2.date m) = true.
Proof.
  revert m. induction l as [ | x l IH ]; simpl; [ discriminate | ].
  intros m Hnd Hm e He Hne. inversion Hnd as [ | ? ? Hx Hnd' ]; subst.
  destruct (EntryV2.latestEntry l) as [m' | ] eqn:El.
  - pose proof (latestEntry_in l m' El) as Hin'.
    destruct (String.ltb (EntryV2.date x) (EntryV2.date m')) eqn:Elt;
      injection Hm as <-.
    + destruct He as [<- | He]; [ exact Elt | ].
      now apply (IH m' Hnd' eq_refl).
    + destruct He as [<- | He]; [ congruence | ].
      destruct (string_ltb_trichotomy _ _ Elt) as [Heq | Hlt].
      { exfalso. apply Hx. rewrite Heq. now apply in_map. }
      destruct (String.ltb (EntryV2.date e) (EntryV2.date m')) eqn:E.
      { exact (string_ltb_trans _ _ _ E Hlt). }
      destruct (string_ltb_trichotomy _ _ E) as [Hd | Hd].
      { now rewrite Hd. }
      assert (Hem : e <> m').
      { intros ->. now rewrite string_ltb_irrefl in Hd. }
      rewrite (IH m' Hnd' eq_refl e He Hem) in E. discriminate E.
  - injection Hm as <-. destruct He as [<- | He]; [ congruence | ].
    destruct l; [ contradiction | simpl in El ].
    destruct (EntryV2.latestEntry l); [ destruct (String.ltb _ _) | ];
      discriminate.
Qed.

Lemma prefill_from_latest_entry (accountType : option AccountType)
    (deposit : option N) (entriesData : list (EntryV2.Entry N)) :
  accountType <> Some legal ->
  entriesData <> [] ->
  NoDup (map EntryV2.date entriesData) ->
  exists m,
    In m entriesData
    /\ (forall e, In e entriesData -> e <> m ->
                  String.ltb (EntryV2.date e) (EntryV2.date m) = true)
    /\ EntryV2.prefillStartingBalance accountType deposit entriesData
       = orZero (EntryV2.endingBalance m).
Proof.
  intros Ht Hne Hnd.
  destruct (latestEntry_some entriesData Hne) as [m Hm].
  exists m. split; [ now apply latestEntry_in | ].
  split; [ now apply latestEntry_latest | ].
  unfold EntryV2.prefillStartingBalance. rewrite Hm.
  destruct accountType as [[ | ] | ]; congruence.
Qed.

(** X11.  For a pph account (or one without a stored type) whose entries for the
    player have pairwise distinct dates, none of them today, loading the
    screen fills the form's starting balance with the ending balance, read
    through [|| 0], of the entry of the latest date: every other entry is
    strictly earlier. *)
Theorem fetchAccountData_prefills_from_latest_entry routeId uid today
    (db : ScreenV2.Db N) st a :
  String.eqb routeId EmptyString = false ->
  ScreenV2.db_account db = Some a ->
  ScreenV2.doc_type a <> Some legal ->
  ScreenV2.entriesQuery routeId uid db <> [] ->
  NoDup (map EntryV2.date (ScreenV2.entriesQuery routeId uid db)) ->
  find (fun e => String.eqb (EntryV2.date e) today)
    (ScreenV2.entriesQuery routeId uid db) = None ->
  exists m,
    In m (ScreenV2.entriesQuery routeId uid db)
    /\ (forall e, In e (ScreenV2.entriesQuery routeId uid db) -> e <> m ->
                  String.ltb (EntryV2.date e) (EntryV2.date m) = true)
    /\ EntryV2.startingBalance
         (ScreenV2.currentEntry
            (ScreenV2.fetchAccountData routeId uid today db st))
       = Some (orZero (EntryV2.endingBalance m)).
Proof.
  intros Hid Ha Ht Hne Hnd Htoday.
  destruct (prefill_from_latest_entry (ScreenV2.doc_type a)
              (ScreenV2.doc_depositAmount a) _ Ht Hne Hnd)
    as [m [Hin [Hlatest Hpre]]].
  exists m. split; [ exact Hin | ]. split; [ exact Hlatest | ].
  unfold ScreenV2.fetchAccountData. rewrite Hid, Ha.
  cbn [ScreenV2.currentEntry]. rewrite Htoday.
  cbn [ScreenV2.prefillEntry EntryV2.startingBalance]. now rewrite Hpre.
Qed.

(** X12.  From the state at mount, the screen holds a broker exactly when the
    account document has a broker identifier and the [brokers] collection
    has a document of that identifier, which is then the broker held; so
    an account without broker identifier, or whose broker document is
    missing, gets a broker amount of 0. *)
Theorem fetchAccountData_loads_the_accounts_broker routeId uid today
    (db : ScreenV2.Db N) a :
  String.eqb routeId EmptyString = false ->
  ScreenV2.db_account db = Some a ->
  let st := ScreenV2.fetchAccountData routeId uid today db
              (ScreenV2.initialState routeId uid today) in
  let stored :=
    match ScreenV2.doc_brokerId a with
    | Some b => if nonEmpty (Some b) then ScreenV2.getBroker db b else None
    | None => None
    end in
  ScreenV2.broker st = stored
  /\ option_map EntryV2.brokerId (ScreenV2.account st)
     = Some (ScreenV2.doc_brokerId a)
  /\ (stored = None ->
      forall entry acc userData taxRate agentData,
        ScreenV2.account st = Some acc ->
        EntryV2.brokerAmount
          (EntryV2.calculateAmounts entry (Some acc) (Some userData)
             (ScreenV2.broker st) taxRate (Fetched agentData))
        = num_zero)
  /\ (forall k, stored = Some k ->
      forall entry acc userData taxRate agentData,
        ScreenV2.account st = Some acc ->
        let pl := EntryV2.computeProfitLoss entry (Some acc) in
        EntryV2.brokerAmount
          (EntryV2.calculateAmounts entry (Some acc) (Some userData)
             (ScreenV2.broker st) taxRate (Fetched agentData))
        = match Broker.commissionType k with
          | percentage =>
              (pl * orZero (Broker.commissionPercentage k) / num_hundred)%js
          | flat => orZero (Broker.flatCommission k)
          | both =>
              (pl * orZero (Broker.commissionPercentage k) / num_hundred
               + orZero (Broker.flatCommission k))%js
          | otherType => num_zero
          end).
Proof.
  intros Hid Ha st stored.
  assert (Hb : ScreenV2.broker st = stored).
  { unfold st, stored, ScreenV2.fetchAccountData. rewrite Hid, Ha.
    cbn [ScreenV2.broker].
    destruct (ScreenV2.doc_brokerId a) as [b | ]; [ | reflexivity ].
    destruct (nonEmpty (Some b)); [ | reflexivity ].
    unfold ScreenV2.fetchBrokerData.
    destruct (ScreenV2.getBroker db b); reflexivity. }
  assert (Hacc' : option_map EntryV2.brokerId (ScreenV2.account st)
                  = Some (ScreenV2.doc_brokerId a)).
  { unfold st, ScreenV2.fetchAccountData. now rewrite Hid, Ha. }
  split; [ exact Hb | ]. split; [ exact Hacc' | ]. split.
  - intros Hnone entry acc userData taxRate agentData Hacc.
    rewrite Hb, Hnone. reflexivity.
  - intros k Hk entry acc userData taxRate agentData Hacc pl.
    rewrite Hb, Hk, calculateAmounts_brokerAmount.
    rewrite Hacc in Hacc'. injection Hacc' as Hid'.
    unfold EntryV2.computeBroker. rewrite Hid'.
    unfold stored in Hk.
    destruct (ScreenV2.doc_brokerId a) as [b | ]; [ | discriminate ].
    destruct (nonEmpty (Some b)); [ reflexivity | discriminate ].
Qed.
End LatestEntry.

(** ** The tax rate, from the admin's modal to the player's split *)

(** The finite value 100 against another positive finite value: not being
    above it is being at most it. *)
Lemma SFcompare_hundred (m : positive) (e : Z) :
  negb (SFltb (S754_finite false 7036874417766400 (-46)) (S754_finite false m e))
  = SFleb (S754_finite false m e) (S754_finite false 7036874417766400 (-46)).
Proof.
  unfold SFltb, SFleb, SFcompare.
  rewrite (Z.compare_antisym (-46) e).
  destruct (Z.compare (-46) e); cbn [CompOpp negb]; try reflexivity.
  rewrite (ZC4 m 7036874417766400).
  destruct (Pos.compare_cont Eq 7036874417766400 m); reflexivity.
Qed.

(** The test of [updateTaxRate] lets through exactly the rates above 0 and
    up to 100. *)
Lemma accepted_iff (rate : float) :
  TaxModal.accepted rate = PrimFloat.ltb 0 rate && PrimFloat.leb rate 100.
Proof.
  unfold TaxModal.accepted. cbn [truthy F64.number].
  rewrite is_zero_spec, is_nan_spec, !ltb_spec, leb_spec.
  change (Prim2SF 0) with (S754_zero false).
  replace (Prim2SF 100) with (S754_finite false 7036874417766400 (-46))
    by (vm_compute; reflexivity).
  destruct (Prim2SF rate) as [s | s | | s m e].
  - destruct s; reflexivity.
  - destruct s; reflexivity.
  - reflexivity.
  - destruct s; [ reflexivity | ].
    rewrite <- SFcompare_hundred.
    cbn [negb orb andb]. unfold SFltb at 1 3. cbn [SFcompare].
    reflexivity.
Qed.

(** X13.  Saving the tax rate stores it exactly when it is above 0 and at most
    100 and the write goes through; the stored rate and the dashboard's
    rate then both become the one typed and the modal closes.  Any other
    rate (0, a negative one, one above 100, NaN) and any rejected write
    leave the document and the dashboard as they were. *)
Theorem updateTaxRate_stores_rates_in_range (written : bool)
    (doc : option float) (st : TaxModal.State) :
  let rate := TaxModal.newTaxRate st in
  let after := TaxModal.updateTaxRate written doc st in
  (PrimFloat.ltb 0 rate && PrimFloat.leb rate 100 && written = true ->
   fst after = Some rate
   /\ TaxModal.taxRate (snd after) = rate
   /\ TaxModal.showTaxModal (snd after) = false)
  /\ (PrimFloat.ltb 0 rate && PrimFloat.leb rate 100 && written = false ->
      after = (doc, st)).
Proof.
  cbv zeta. unfold TaxModal.updateTaxRate. rewrite accepted_iff.
  destruct (PrimFloat.ltb 0 (TaxModal.newTaxRate st)
            && PrimFloat.leb (TaxModal.newTaxRate st) 100);
    destruct written; simpl; split; intros H;
    try discriminate H; try reflexivity; now repeat split.
Qed.

(** X14.  A rate the admin saved is the rate the player's split applies: once
    [updateTaxRate] has stored a rate, each of the two player screens that
    reads the document holds that rate, and a new entry is taxed
    [profitLoss * rate / 100]. *)
Theorem saved_tax_rate_reaches_the_split (doc : option float)
    (st : TaxModal.State) (entry : EntryV2.Entry float) account userData
    broker agentData routeId uid today :
  let rate := TaxModal.newTaxRate st in
  PrimFloat.ltb 0 rate = true ->
  PrimFloat.leb rate 100 = true ->
  let stored := fst (TaxModal.updateTaxRate true doc st) in
  let playerRate := EntryV2.fetchTaxRate (Fetched stored)
                      EntryV2.initialTaxRate in
  playerRate = rate
  /\ EntryV1.taxRate
       (EntryV1.fetchTaxRate (Fetched stored)
          (EntryV1.initialState routeId uid today)) = rate
  /\ EntryV2.taxableAmount
       (EntryV2.calculateAmounts entry (Some account) (Some userData) broker
          playerRate (Fetched agentData))
     = EntryV2.computeProfitLoss entry (Some account) * rate / 100.
Proof.
  intros rate H0 H100 stored playerRate.
  assert (Hs : stored = Some rate).
  { unfold stored, TaxModal.updateTaxRate. rewrite accepted_iff.
    fold rate. now rewrite H0, H100. }
  unfold playerRate. rewrite Hs. repeat split.
Qed.

(** The integers 0 to 100 as binary64 numbers pass the test of
    [updateTaxRate] exactly from 1 on. *)
Lemma accepted_integers :
  forallb (fun n =>
             Bool.eqb
               (TaxModal.accepted
                  (PrimFloat.of_uint63 (Uint63.of_Z (Z.of_N n))))
               (1 <=? n)%N)
    (map N.of_nat (seq 0 101)) = true.
Proof. vm_compute. reflexivity. Qed.

(** X15.  Typing into the tax-rate field and saving: a string of digits of value
    1 to 100 is stored as that number; the empty string and a string of
    value 0 are taken by the field but refused on saving; a string with any
    other character, or of a value above 100, is not taken by the field at
    all. *)
Theorem typed_tax_rate_is_saved (value : string) (doc : option float)
    (st : TaxModal.State) :
  let typed := TaxModal.handleTaxRateChange value st in
  let saved := TaxModal.updateTaxRate true doc typed in
  match TaxModal.digitsValue 0 value with
  | Some n =>
      if (n <=? 100)%N then
        TaxModal.newTaxRate typed
        = PrimFloat.of_uint63 (Uint63.of_Z (Z.of_N n))
        /\ fst saved
           = if (1 <=? n)%N
             then Some (PrimFloat.of_uint63 (Uint63.of_Z (Z.of_N n)))
             else doc
      else typed = st
  | None => typed = st
  end.
Proof.
  cbv zeta. unfold TaxModal.handleTaxRateChange.
  destruct (TaxModal.digitsValue 0 value) as [n | ]; [ | reflexivity ].
  destruct (n <=? 100)%N eqn:Hn; [ | reflexivity ].
  split; [ reflexivity | ].
  unfold TaxModal.updateTaxRate. cbn [TaxModal.newTaxRate].
  pose proof accepted_integers as H.
  rewrite forallb_forall in H.
  assert (Hin : In n (map N.of_nat (seq 0 101))).
  { apply in_map_iff. exists (N.to_nat n). split; [ apply N2Nat.id | ].
    apply in_seq. apply N.leb_le in Hn. lia. }
  specialize (H n Hin). apply Bool.eqb_prop in H. rewrite H.
  now destruct (1 <=? n)%N.
Qed.

(** ** The figures of the admin dashboard *)

Lemma filter_split_length {A : Type} (f g : A -> bool) (l : list A) :
  (forall x, f x && g x = false) ->
  (List.length (filter f l) + List.length (filter g l)
   + List.length (filter (fun x => negb (f x || g x)) l)
   = List.length l)%nat.
Proof.
  intros H. induction l as [ | x l IH ]; [ reflexivity | ].
  simpl. specialize (H x).
  destruct (f x), (g x); simpl in *; try discriminate; lia.
Qed.

(** X16.  The account counters of the dashboard leave out what they do not
    name: the active and the inactive accounts, together with the accounts
    of any other status (unused, or none stored), make up the total; and
    so do the pph and the legal accounts together with the accounts
    without a stored type. *)
Theorem account_counters_partition (accounts : list Stats.AccountRow) :
  (Stats.activeAccounts accounts + Stats.inactiveAccounts accounts
   + List.length
       (filter (fun a => negb (Stats.hasStatus active a
                               || Stats.hasStatus inactive a)) accounts)
   = Stats.totalAccounts accounts)%nat
  /\ (Stats.pphAccounts accounts + Stats.legalAccounts accounts
      + List.length
          (filter (fun a => negb (Stats.hasType pph a
                                  || Stats.hasType legal a)) accounts)
      = Stats.totalAccounts accounts)%nat.
Proof.
  split; apply filter_split_length; intros a.
  - unfold Stats.hasStatus. now destruct (Stats.status a) as [[ | | ] | ].
  - unfold Stats.hasType. now destruct (Stats.type a) as [[ | ] | ].
Qed.

(** *** Profit per row against the total, in exact arithmetic *)

Section Totals.
Context {A R : Type}.
Variable key : R -> string.
Variable keyOf : A -> string.
Variable weight : A -> Q.

Lemma fold_left_total (l : list A) (a : Q) :
  (fold_left (fun s x => s + weight x) l a == a + total weight l)%Q.
Proof.
  revert a. induction l as [ | x l IH ]; intros a; simpl.
  - ring.
  - rewrite IH. ring.
Qed.

Lemma rowEntries_cons (r : R) (x : A) (l : list A) :
  rowEntries key keyOf r (x :: l)
  = if String.eqb (keyOf x) (key r) then x :: rowEntries key keyOf r l
    else rowEntries key keyOf r l.
Proof. reflexivity. Qed.

Lemma rowsTotal_cons_row (r : R) (rows : list R) (l : list A) :
  rowsTotal key keyOf weight (r :: rows) l
  = (total weight (rowEntries key keyOf r l)
     + rowsTotal key keyOf weight rows l)%Q.
Proof. reflexivity. Qed.

Lemma rowsCount_cons_row (r : R) (rows : list R) (l : list A) :
  rowsCount key keyOf (r :: rows) l
  = (List.length (rowEntries key keyOf r l) + rowsCount key keyOf rows l)%nat.
Proof. reflexivity. Qed.

(** An entry of no row changes no row's figure. *)
Lemma rowsTotal_unmatched (rows : list R) (x : A) (l : list A) :
  ~ In (keyOf x) (map key rows) ->
  (rowsTotal key keyOf weight rows (x :: l)
   == rowsTotal key keyOf weight rows l)%Q.
Proof.
  induction rows as [ | r rows IH ]; intros Hx; [ reflexivity | ].
  rewrite !rowsTotal_cons_row, rowEntries_cons.
  destruct (String.eqb (keyOf x) (key r)) eqn:E.
  - apply String.eqb_eq in E. exfalso. apply Hx. left. now symmetry.
  - apply Qplus_comp; [ reflexivity | ].
    apply IH. intros H. apply Hx. now right.
Qed.

Lemma rowsTotal_matched (rows : list R) (x : A) (l : list A) :
  NoDup (map key rows) ->
  In (keyOf x) (map key rows) ->
  (rowsTotal key keyOf weight rows (x :: l)
   == weight x + rowsTotal key keyOf weight rows l)%Q.
Proof.
  induction rows as [ | r rows IH ]; intros Hnd Hin; [ contradiction | ].
  simpl in Hnd, Hin. inversion Hnd as [ | ? ? Hr Hnd' ]; subst.
  rewrite !rowsTotal_cons_row, rowEntries_cons.
  destruct (String.eqb (keyOf x) (key r)) eqn:E.
  - apply String.eqb_eq in E.
    assert (H : (rowsTotal key keyOf weight rows (x :: l)
                 == rowsTotal key keyOf weight rows l)%Q)
      by (apply rowsTotal_unmatched; now rewrite E).
    change (total weight (x :: rowEntries key keyOf r l))
      with (weight x + total weight (rowEntries key keyOf r l))%Q.
    lra.
  - destruct Hin as [Hin | Hin].
    + rewrite Hin, String.eqb_refl in E. discriminate E.
    + pose proof (IH Hnd' Hin) as H. lra.
Qed.

Lemma rowsTotal_nil (rows : list R) :
  (rowsTotal key keyOf weight rows [] == 0)%Q.
Proof.
  induction rows as [ | r rows IH ]; [ reflexivity | ].
  rewrite rowsTotal_cons_row.
  change (total weight (rowEntries key keyOf r [])) with 0%Q. lra.
Qed.

Lemma rowsTotal_all (rows : list R) (l : list A) :
  NoDup (map key rows) ->
  (forall x, In x l -> In (keyOf x) (map key rows)) ->
  (rowsTotal key keyOf weight rows l == total weight l)%Q.
Proof.
  intros Hnd. induction l as [ | x l IH ]; intros Hall.
  - apply rowsTotal_nil.
  - pose proof (rowsTotal_matched rows x l Hnd
                  (Hall x (or_introl eq_refl))) as H.
    pose proof (IH (fun y Hy => Hall y (or_intror Hy))) as H'.
    change (total weight (x :: l)) with (weight x + total weight l)%Q. lra.
Qed.

Lemma rowsCount_unmatched (rows : list R) (x : A) (l : list A) :
  ~ In (keyOf x) (map key rows) ->
  rowsCount key keyOf rows (x :: l) = rowsCount key keyOf rows l.
Proof.
  induction rows as [ | r rows IH ]; intros Hx; [ reflexivity | ].
  rewrite !rowsCount_cons_row, rowEntries_cons.
  destruct (String.eqb (keyOf x) (key r)) eqn:E.
  - apply String.eqb_eq in E. exfalso. apply Hx. left. now symmetry.
  - rewrite IH; [ reflexivity | ]. intros H. apply Hx. now right.
Qed.

Lemma rowsCount_matched (rows : list R) (x : A) (l : list A) :
  NoDup (map key rows) ->
  In (keyOf x) (map key rows) ->
  rowsCount key keyOf rows (x :: l) = S (rowsCount key keyOf rows l).
Proof.
  induction rows as [ | r rows IH ]; intros Hnd Hin; [ contradiction | ].
  simpl in Hnd, Hin. inversion Hnd as [ | ? ? Hr Hnd' ]; subst.
  rewrite !rowsCount_cons_row, rowEntries_cons.
  destruct (String.eqb (keyOf x) (key r)) eqn:E.
  - apply String.eqb_eq in E.
    rewrite rowsCount_unmatched by now rewrite E.
    reflexivity.
  - destruct Hin as [Hin | Hin].
    + rewrite Hin, String.eqb_refl in E. discriminate E.
    + rewrite (IH Hnd' Hin). apply Nat.add_succ_r.
Qed.

Lemma rowsCount_nil (rows : list R) : rowsCount key keyOf rows [] = O.
Proof.
  induction rows as [ | r rows IH ]; [ reflexivity | ].
  rewrite rowsCount_cons_row, IH. reflexivity.
Qed.

Lemma rowsCount_all (rows : list R) (l : list A) :
  NoDup (map key rows) ->
  (forall x, In x l -> In (keyOf x) (map key rows)) ->
  rowsCount key keyOf rows l = List.length l.
Proof.
  intros Hnd. induction l as [ | x l IH ]; intros Hall.
  - apply rowsCount_nil.
  - rewrite rowsCount_matched; [ | exact Hnd | apply Hall; now left ].
    rewrite IH; [ reflexivity | ]. intros y Hy. apply Hall. now right.
Qed.
End Totals.

Lemma sumProfit_total (entries : list (EntryV2.Entry Q)) :
  (Stats.sumProfit entries == total counted entries)%Q.
Proof.
  unfold Stats.sumProfit.
  pose proof (fold_left_total counted entries 0%Q) as H.
  unfold counted in H at 1.
  change (@num_add Q Exact.number) with Qplus.
  change (@num_zero Q Exact.number) with 0%Q.
  rewrite H. ring.
Qed.

Lemma accountRows_total (accounts : list Stats.AccountRow)
    (entries : list (EntryV2.Entry Q)) :
  (fold_right (fun a s => Stats.accountProfit a entries + s) 0 accounts
   == rowsTotal Stats.id EntryV2.accountId counted accounts entries)%Q.
Proof.
  induction accounts as [ | a accounts IH ]; [ reflexivity | ].
  cbn [fold_right]. rewrite rowsTotal_cons_row.
  apply Qplus_comp; [ | exact IH ].
  unfold Stats.accountProfit. apply sumProfit_total.
Qed.

Lemma accountRows_count (accounts : list Stats.AccountRow)
    (entries : list (EntryV2.Entry Q)) :
  fold_right (fun a s => (Stats.accountTotalEntries a entries + s)%nat)
    O accounts
  = rowsCount Stats.id EntryV2.accountId accounts entries.
Proof. reflexivity. Qed.

(** X17.  When no two accounts share an id and every fetched entry belongs to
    one of the fetched accounts, the rows of the accounts table account
    for every entry once: their profits add up to the total profit of the
    dashboard, and their entry counts to the number of transactions. *)
Theorem account_rows_add_up_to_the_totals
    (accounts : list Stats.AccountRow) (entries : list (EntryV2.Entry Q)) :
  NoDup (map Stats.id accounts) ->
  (forall e, In e entries ->
     In (EntryV2.accountId e) (map Stats.id accounts)) ->
  (fold_right (fun a s => Stats.accountProfit a entries + s) 0 accounts
   == Stats.totalProfit entries)%Q
  /\ fold_right (fun a s => (Stats.accountTotalEntries a entries + s)%nat)
       O accounts
     = Stats.totalTransactions entries.
Proof.
  intros Hnd Hall. split.
  - rewrite accountRows_total. unfold Stats.totalProfit.
    rewrite sumProfit_total. now apply rowsTotal_all.
  - rewrite accountRows_count. now apply rowsCount_all.
Qed.

(** X18.  An entry whose account is not among the fetched ones (a deleted
    account, say) is counted in the total profit and in the number of
    transactions, and in no row of the accounts table. *)
Theorem orphan_entry_is_in_the_total_and_in_no_row
    (accounts : list Stats.AccountRow) (entries : list (EntryV2.Entry Q))
    (e : EntryV2.Entry Q) :
  ~ In (EntryV2.accountId e) (map Stats.id accounts) ->
  (Stats.totalProfit (e :: entries)
   == orZero (Some (EntryV2.profitLoss e)) + Stats.totalProfit entries)%Q
  /\ Stats.totalTransactions (e :: entries)
     = S (Stats.totalTransactions entries)
  /\ forall a, In a accounts ->
       Stats.accountProfit a (e :: entries) = Stats.accountProfit a entries
       /\ Stats.accountTotalEntries a (e :: entries)
          = Stats.accountTotalEntries a entries.
Proof.
  intros Hno. split; [ | split ].
  - unfold Stats.totalProfit. rewrite !sumProfit_total. reflexivity.
  - reflexivity.
  - intros a Ha.
    assert (E : String.eqb (EntryV2.accountId e) (Stats.id a) = false).
    { apply String.eqb_neq. intros H. apply Hno. rewrite H.
      now apply in_map. }
    unfold Stats.accountProfit, Stats.accountTotalEntries,
      Stats.accountEntries.
    cbn [filter]. rewrite E. split; reflexivity.
Qed.

Lemma playerRows_total (players : list (User.t Q))
    (entries : list (EntryV2.Entry Q)) :
  (fold_right (fun p s => Stats.playerProfit p entries + s) 0 players
   == rowsTotal User.uid EntryV2.playerUid counted players entries)%Q.
Proof.
  induction players as [ | p players IH ]; [ reflexivity | ].
  cbn [fold_right]. rewrite rowsTotal_cons_row.
  apply Qplus_comp; [ | exact IH ].
  unfold Stats.playerProfit. apply sumProfit_total.
Qed.

(** X19.  The same for the players table: with distinct uids, and every fetched
    entry made by one of the fetched players, the players' profits add up
    to the total profit and their entry counts to the number of
    transactions. *)
Theorem player_rows_add_up_to_the_totals
    (players : list (User.t Q)) (entries : list (EntryV2.Entry Q)) :
  NoDup (map User.uid players) ->
  (forall e, In e entries ->
     In (EntryV2.playerUid e) (map User.uid players)) ->
  (fold_right (fun p s => Stats.playerProfit p entries + s) 0 players
   == Stats.totalProfit entries)%Q
  /\ fold_right (fun p s => (Stats.playerTotalEntries p entries + s)%nat)
       O players
     = Stats.totalTransactions entries.
Proof.
  intros Hnd Hall. split.
  - rewrite playerRows_total. unfold Stats.totalProfit.
    rewrite sumProfit_total. now apply rowsTotal_all.
  - change (rowsCount User.uid EntryV2.playerUid players entries
            = List.length entries).
    now apply rowsCount_all.
Qed.

(** ** Document identifiers of the import *)

Lemma dash_not_alnum : ImportFile.isLowerAlnum ImportFile.dash = false.
Proof. reflexivity. Qed.

Lemma alnum_not_dash (c : Ascii.ascii) :
  ImportFile.isLowerAlnum c = true -> Ascii.eqb c ImportFile.dash = false.
Proof.
  intros H. destruct (Ascii.eqb c ImportFile.dash) eqn:E; [ | reflexivity ].
  apply Ascii.eqb_eq in E. subst c. discriminate H.
Qed.

Lemma toLowerCase1_alnum (c : Ascii.ascii) :
  ImportFile.isLowerAlnum c = true -> ImportFile.toLowerCase1 c = c.
Proof.
  unfold ImportFile.isLowerAlnum, ImportFile.toLowerCase1. cbv zeta.
  intros H.
  destruct ((65 <=? Ascii.N_of_ascii c)%N && (Ascii.N_of_ascii c <=? 90)%N)
    eqn:E; [ | reflexivity ].
  apply andb_prop in E. destruct E as [E1 E2].
  apply N.leb_le in E1, E2.
  apply orb_prop in H.
  destruct H as [H | H]; apply andb_prop in H; destruct H as [H1 H2];
    apply N.leb_le in H1, H2; lia.
Qed.

Lemma dashRuns_dashed (s : string) (b : bool) :
  Slug.dashed b (ImportFile.dashRuns b s) = true.
Proof.
  revert b. induction s as [ | c s IH ]; intros b; [ reflexivity | ].
  cbn [ImportFile.dashRuns].
  destruct (ImportFile.isLowerAlnum c) eqn:Ec.
  - cbn [Slug.dashed]. rewrite Ec. apply IH.
  - destruct b; [ apply IH | ].
    cbn [Slug.dashed]. rewrite dash_not_alnum, Ascii.eqb_refl. apply IH.
Qed.

Lemma dropLastDash_cons (c : Ascii.ascii) (d : Ascii.ascii) (s : string) :
  ImportFile.dropLastDash (String c (String d s))
  = String c (ImportFile.dropLastDash (String d s)).
Proof. reflexivity. Qed.

Lemma dropLastDash_runs (s : string) :
  (Slug.dashed false s = true ->
   Slug.runs true (ImportFile.dropLastDash s) = true)
  /\ (Slug.dashed true s = true -> s <> EmptyString ->
      Slug.runs false (ImportFile.dropLastDash s) = true).
Proof.
  induction s as [ | c s [IHa IHb] ]; [ split; [ reflexivity | congruence ] | ].
  cbn [Slug.dashed].
  destruct (ImportFile.isLowerAlnum c) eqn:Ec.
  - assert (H : forall a, Slug.dashed false s = true ->
              Slug.runs a (ImportFile.dropLastDash (String c s)) = true).
    { intros a Hs. destruct s as [ | d s ].
      - cbn [ImportFile.dropLastDash]. rewrite (alnum_not_dash c Ec).
        cbn [Slug.runs]. now rewrite Ec.
      - rewrite dropLastDash_cons. cbn [Slug.runs]. rewrite Ec.
        now apply IHa. }
    split; intros; now apply H.
  - split.
    + intros H. apply andb_prop in H. destruct H as [H Hs].
      apply andb_prop in H. destruct H as [Hd _].
      destruct s as [ | d s ].
      * cbn [ImportFile.dropLastDash]. now rewrite Hd.
      * rewrite dropLastDash_cons. cbn [Slug.runs]. rewrite Ec, Hd.
        cbn [andb]. apply IHb; [ exact Hs | discriminate ].
    + intros H. rewrite andb_false_r in H. discriminate H.
Qed.

Lemma runs_isSlug (s : string) :
  Slug.runs false s = true -> Slug.isSlug s = true.
Proof. now destruct s. Qed.

Lemma trimDashes_slug (t : string) :
  Slug.dashed false t = true ->
  Slug.isSlug (ImportFile.trimDashes t) = true.
Proof.
  intros H. destruct t as [ | c t ]; [ reflexivity | ].
  unfold ImportFile.trimDashes.
  destruct (Ascii.eqb c ImportFile.dash) eqn:Ed.
  - apply Ascii.eqb_eq in Ed. subst c.
    cbn [Slug.dashed] in H. rewrite dash_not_alnum, Ascii.eqb_refl in H.
    cbn [andb negb] in H.
    destruct t as [ | d t ]; [ reflexivity | ].
    apply runs_isSlug. now apply (dropLastDash_runs (String d t)).
  - cbn [Slug.dashed] in H. rewrite Ed in H.
    destruct (ImportFile.isLowerAlnum c) eqn:Ec; [ | discriminate H ].
    apply runs_isSlug.
    destruct t as [ | d t ].
    + cbn [ImportFile.dropLastDash]. rewrite Ed. cbn [Slug.runs].
      now rewrite Ec.
    + rewrite dropLastDash_cons. cbn [Slug.runs]. rewrite Ec.
      now apply (dropLastDash_runs (String d t)).
Qed.

(** X20.  Whatever the name, [safeId] gives an identifier of runs of [a-z0-9]
    separated by single dashes, or the empty string: no other character, no
    dash at either end, no two dashes in a row. *)
Theorem safeId_is_a_slug (s : string) :
  Slug.isSlug (ImportFile.safeId s) = true.
Proof.
  unfold ImportFile.safeId.
  apply trimDashes_slug, dashRuns_dashed.
Qed.

Lemma toLowerCase_runs (s : string) (a : bool) :
  Slug.runs a s = true -> ImportFile.toLowerCase s = s.
Proof.
  revert a. induction s as [ | c s IH ]; intros a H; [ reflexivity | ].
  cbn [Slug.runs] in H. cbn [ImportFile.toLowerCase].
  destruct (ImportFile.isLowerAlnum c) eqn:Ec.
  - rewrite (toLowerCase1_alnum c Ec), (IH _ H). reflexivity.
  - apply andb_prop in H. destruct H as [H Hs].
    apply andb_prop in H. destruct H as [Hd _].
    apply Ascii.eqb_eq in Hd. subst c.
    rewrite (IH _ Hs). reflexivity.
Qed.

Lemma dashRuns_runs (s : string) (a b : bool) :
  Slug.runs a s = true -> (a = true -> b = false) ->
  ImportFile.dashRuns b s = s.
Proof.
  revert a b. induction s as [ | c s IH ]; intros a b H Hab; [ reflexivity | ].
  cbn [Slug.runs] in H. cbn [ImportFile.dashRuns].
  destruct (ImportFile.isLowerAlnum c) eqn:Ec.
  - rewrite (IH true false H); reflexivity.
  - apply andb_prop in H. destruct H as [H Hs].
    apply andb_prop in H. destruct H as [Hd Ha].
    apply Ascii.eqb_eq in Hd. subst c.
    rewrite (Hab Ha).
    rewrite (IH false true Hs); [ reflexivity | discriminate ].
Qed.

Lemma dropLastDash_fixes_runs (s : string) (a : bool) :
  Slug.runs a s = true -> ImportFile.dropLastDash s = s.
Proof.
  revert a. induction s as [ | c s IH ]; intros a H; [ reflexivity | ].
  cbn [Slug.runs] in H.
  destruct s as [ | d s ].
  - cbn [ImportFile.dropLastDash].
    destruct (ImportFile.isLowerAlnum c) eqn:Ec.
    + now rewrite (alnum_not_dash c Ec).
    + cbn [Slug.runs] in H. rewrite andb_false_r in H. discriminate H.
  - rewrite dropLastDash_cons.
    destruct (ImportFile.isLowerAlnum c) eqn:Ec.
    + now rewrite (IH _ H).
    + apply andb_prop in H. destruct H as [_ Hs]. now rewrite (IH _ Hs).
Qed.

(** [safeId] leaves such an identifier as it is. *)
Lemma safeId_fixes_slug (s : string) :
  Slug.isSlug s = true -> ImportFile.safeId s = s.
Proof.
  destruct s as [ | c s ]; [ reflexivity | ].
  unfold Slug.isSlug. intros H.
  unfold ImportFile.safeId.
  rewrite (toLowerCase_runs _ _ H).
  rewrite (dashRuns_runs _ false false H) by discriminate.
  unfold ImportFile.trimDashes.
  assert (Ed : Ascii.eqb c ImportFile.dash = false).
  { cbn [Slug.runs] in H.
    destruct (ImportFile.isLowerAlnum c) eqn:Ec;
      [ now apply alnum_not_dash | ].
    rewrite andb_false_r in H. discriminate H. }
  rewrite Ed. apply (dropLastDash_fixes_runs _ _ H).
Qed.

(** X21.  An identifier that went through [safeId] is not changed by going
    through it again. *)
Theorem safeId_idempotent (s : string) :
  ImportFile.safeId (ImportFile.safeId s) = ImportFile.safeId s.
Proof.
  apply safeId_fixes_slug.
  unfold ImportFile.safeId.
  apply trimDashes_slug, dashRuns_dashed.
Qed.

(** * The properties above on running accounts *)

(** Discharges by evaluation the hypotheses that [H] still waits for. *)
Ltac by_evaluation H :=
  repeat
    match type of H with
    | ?P -> _ =>
        let h := fresh "h" in
        assert (h : P)
          by (vm_compute; first [ reflexivity | discriminate ]);
        specialize (H h); clear h
    end.

(** Saving a first entry for today on the running account: two entries
    are listed, the new one among them, and the account is active. *)
Lemma handleSubmit_new_entry_is_listed_witness :
  let after :=
    snd (EntryV1.handleSubmit "a1" "u1" Scene.today "e2" Scene.dbV1
           Scene.stV1) in
  EntryV1.id (EntryV1.currentEntry Scene.stV1) = None
  /\ List.length (EntryV1.entries after)
     = S (List.length (EntryV1.entriesQuery "a1" "u1" Scene.dbV1))
  /\ existsb (EntryV1.hasId "e2") (EntryV1.entries after) = true
  /\ option_map EntryV1.status (EntryV1.account after) = Some active.
Proof.
  cbv zeta. split; [ reflexivity | ].
  pose proof (handleSubmit_new_entry_is_listed (N:=float)
                "a1" "u1" Scene.today "e2" Scene.dbV1 Scene.stV1
                (Sample.accountDocV1 legal (Some unused) (Some 1000))
                {| EntryV1.type := legal; EntryV1.agentId := "g1";
                   EntryV1.status := active;
                   EntryV1.depositAmount := Some 1000;
                   EntryV1.referralPercentage := None |}) as H.
  by_evaluation H. exact H.
Defined.

(** Saving twice in a row on the running account: the second save updates
    the entry that the first one created when the reload has landed, and
    stores a second entry [e3] when it has not. *)
Lemma handleSubmit_twice_one_entry_witness :
  let first := EntryV1.handleSubmit "a1" "u1" Scene.today "e2" Scene.dbV1
                 Scene.stV1 in
  let second := EntryV1.handleSubmit "a1" "u1" Scene.today "e3"
                  (fst first) (snd first) in
  let early := EntryV1.handleSubmit "a1" "u1" Scene.today "e3"
                 (fst first) Scene.stV1 in
  find (fun e => String.eqb (EntryV1.date e) Scene.today)
    (EntryV1.entriesQuery "a1" "u1" Scene.dbV1) = None
  /\ EntryV1.id (EntryV1.currentEntry (snd first)) = Some "e2"%string
  /\ List.length (EntryV1.db_entries (fst first))
     = S (List.length (EntryV1.db_entries Scene.dbV1))
  /\ List.length (EntryV1.db_entries (fst second))
     = S (List.length (EntryV1.db_entries Scene.dbV1))
  /\ List.length (EntryV1.db_entries (fst early))
     = S (S (List.length (EntryV1.db_entries Scene.dbV1)))
  /\ existsb (EntryV1.hasId "e3") (EntryV1.db_entries (fst early)) = true.
Proof.
  cbv zeta. split; [ reflexivity | ].
  pose proof (handleSubmit_twice_one_entry (N:=float)
                "a1" "u1" Scene.today "e2" "e3" Scene.dbV1 Scene.stV1
                (Sample.accountDocV1 legal (Some unused) (Some 1000))
                {| EntryV1.type := legal; EntryV1.agentId := "g1";
                   EntryV1.status := active;
                   EntryV1.depositAmount := Some 1000;
                   EntryV1.referralPercentage := None |}) as H.
  by_evaluation H. exact H.
Defined.

(** Deleting [e1] from the running account. *)
Lemma handleDeleteEntry_removes_only_that_entry_witness :
  let after := EntryV1.handleDeleteEntry "a1" "u1" Scene.today true "e1"
                 Scene.dbV1 Scene.stV1 in
  String.eqb "a1" EmptyString = false
  /\ EntryV1.db_entries (fst after)
     = filter (fun e => negb (EntryV1.hasId "e1" e))
         (EntryV1.db_entries Scene.dbV1)
  /\ EntryV1.entries (snd after)
     = filter (fun e => negb (EntryV1.hasId "e1" e))
         (EntryV1.entriesQuery "a1" "u1" Scene.dbV1)
  /\ existsb (EntryV1.hasId "e1") (EntryV1.entries (snd after)) = false.
Proof.
  cbv zeta. split; [ reflexivity | ].
  pose proof (handleDeleteEntry_removes_only_that_entry (N:=float)
                "a1" "u1" Scene.today "e1" Scene.dbV1 Scene.stV1
                (Sample.accountDocV1 legal (Some unused) (Some 1000))) as H.
  by_evaluation H. exact H.
Defined.

(** Saving the edit of [e1] keeps one stored entry and closes the edit;
    saving the edit of an entry that is no longer stored changes nothing. *)
Lemma handleEditEntry_in_place_witness :
  let st := ScreenV1.setEditingEntry Scene.stV1 (Some (Scene.edited "e1")) in
  let gone := ScreenV1.setEditingEntry Scene.stV1 (Some (Scene.edited "e9")) in
  let after := ScreenV1.handleEditEntry "a1" "u1" Scene.today Scene.dbV1 st in
  existsb (EntryV1.hasId "e1") (EntryV1.db_entries Scene.dbV1) = true
  /\ List.length (EntryV1.db_entries (fst after))
     = List.length (EntryV1.db_entries Scene.dbV1)
  /\ EntryV1.editingEntry (snd after) = None
  /\ existsb (EntryV1.hasId "e9") (EntryV1.db_entries Scene.dbV1) = false
  /\ ScreenV1.handleEditEntry "a1" "u1" Scene.today Scene.dbV1 gone
     = (Scene.dbV1, gone).
Proof.
  cbv zeta.
  pose proof (handleEditEntry_in_place (N:=float) "a1" "u1" Scene.today
                Scene.dbV1
                (ScreenV1.setEditingEntry Scene.stV1
                   (Some (Scene.edited "e1")))
                (Scene.edited "e1") "e1") as H.
  by_evaluation H. cbv zeta in H. destruct H as [H _].
  pose proof (handleEditEntry_in_place (N:=float) "a1" "u1" Scene.today
                Scene.dbV1
                (ScreenV1.setEditingEntry Scene.stV1
                   (Some (Scene.edited "e9")))
                (Scene.edited "e9") "e9") as G.
  by_evaluation G. cbv zeta in G. destruct G as [_ G].
  assert (h1 : existsb (EntryV1.hasId "e1") (EntryV1.db_entries Scene.dbV1)
               = true) by reflexivity.
  assert (h9 : existsb (EntryV1.hasId "e9") (EntryV1.db_entries Scene.dbV1)
               = false) by reflexivity.
  destruct (H h1) as [Hlen [_ [_ Hedit]]].
  split; [ exact h1 | ].
  split; [ exact Hlen | ].
  split; [ exact Hedit | ].
  split; [ exact h9 | exact (G h9) ].
Defined.

(** An entry whose ending balance is not a number and whose clicker amount
    is negative zero is written with 0 in both places. *)
Lemma entryToSave_writes_clean_numbers_witness :
  let e :=
    {| EntryV1.id := None; EntryV1.accountId := "a1";
       EntryV1.playerUid := "u1"; EntryV1.date := "2025-01-15";
       EntryV1.startingBalance := None;
       EntryV1.endingBalance := Some PrimFloat.nan;
       EntryV1.refillAmount := Some 5;
       EntryV1.withdrawal := Some (-0);
       EntryV1.profitLoss := 0; EntryV1.clickerAmount := -0;
       EntryV1.accHolderAmount := 1; EntryV1.companyAmount := 2;
       EntryV1.taxableAmount := 3; EntryV1.referralAmount := 4;
       EntryV1.accountStatus := active |} in
  let saved := EntryV1.entryToSave e in
  (PrimFloat.is_nan (orZero (EntryV1.endingBalance saved)) = false
   /\ orZero (EntryV1.endingBalance saved) <> (-0))
  /\ (PrimFloat.is_nan (EntryV1.clickerAmount saved) = false
      /\ EntryV1.clickerAmount saved <> (-0))
  /\ exists v, EntryV1.withdrawal saved = Some v
               /\ PrimFloat.is_nan v = false /\ v <> (-0).
Proof.
  cbv zeta.
  pose proof (entryToSave_writes_clean_numbers
    {| EntryV1.id := None; EntryV1.accountId := "a1";
       EntryV1.playerUid := "u1"; EntryV1.date := "2025-01-15";
       EntryV1.startingBalance := None;
       EntryV1.endingBalance := Some PrimFloat.nan;
       EntryV1.refillAmount := Some 5;
       EntryV1.withdrawal := Some (-0);
       EntryV1.profitLoss := 0; EntryV1.clickerAmount := -0;
       EntryV1.accHolderAmount := 1; EntryV1.companyAmount := 2;
       EntryV1.taxableAmount := 3; EntryV1.referralAmount := 4;
       EntryV1.accountStatus := active |}) as H.
  cbv zeta in H. destruct H as [Hnum [Hraw _]].
  split; [ | split ].
  - apply Hnum. right. left. reflexivity.
  - apply Hnum. do 4 right. left. reflexivity.
  - apply Hraw. do 3 right. left. reflexivity.
Defined.

(** A profit of 200 with 50, 10, 10 and 10 percent committed leaves the
    company 40; with a clicker at 95 percent the company pays 50. *)
Lemma companyAmount_sign_witness :
  let entry := Sample.entryV2 (Some 1000%Q) (Some 1200%Q) (Some 0%Q)
                 (Some 0%Q) in
  let account := Sample.accountV2 None (Some 10%Q) None in
  let agentData := Some (Sample.agent 10%Q 0%Q) in
  (0 <= EntryV2.companyAmount
          (EntryV2.calculateAmounts entry (Some account)
             (Some (Sample.user 50%Q)) None 10%Q (Fetched agentData)))%Q
  /\ (EntryV2.companyAmount
        (EntryV2.calculateAmounts entry (Some account)
           (Some (Sample.user 95%Q)) None 10%Q (Fetched agentData)) < 0)%Q.
Proof.
  cbv zeta. split.
  - pose proof (companyAmount_sign
                  (Sample.entryV2 (Some 1000%Q) (Some 1200%Q) (Some 0%Q)
                     (Some 0%Q))
                  (Sample.accountV2 None (Some 10%Q) None)
                  (Sample.user 50%Q) None 10%Q
                  (Some (Sample.agent 10%Q 0%Q))) as H.
    cbv zeta in H. destruct H as [H _].
    by_evaluation H. exact H.
  - pose proof (companyAmount_sign
                  (Sample.entryV2 (Some 1000%Q) (Some 1200%Q) (Some 0%Q)
                     (Some 0%Q))
                  (Sample.accountV2 None (Some 10%Q) None)
                  (Sample.user 95%Q) None 10%Q
                  (Some (Sample.agent 10%Q 0%Q))) as H.
    cbv zeta in H. destruct H as [_ H].
    by_evaluation H. exact H.
Defined.

(** Three times the profit, with percentages only, gives three times each
    amount. *)
Lemma split_proportional_witness :
  let entry1 := Sample.entryV2 (Some 1000%Q) (Some 1100%Q) (Some 0%Q)
                  (Some 0%Q) in
  let entry2 := Sample.entryV2 (Some 1000%Q) (Some 1300%Q) (Some 0%Q)
                  (Some 0%Q) in
  let account := Sample.accountV2 (Some "b1"%string) (Some 5%Q) None in
  let broker := Some (Sample.broker percentage (Some 10%Q) None) in
  let agentData := Some (Sample.agent 10%Q 0%Q) in
  let e1 := EntryV2.calculateAmounts entry1 (Some account)
              (Some (Sample.user 50%Q)) broker 10%Q (Fetched agentData) in
  let e2 := EntryV2.calculateAmounts entry2 (Some account)
              (Some (Sample.user 50%Q)) broker 10%Q (Fetched agentData) in
  (EntryV2.computeProfitLoss entry2 (Some account)
   == 3 * EntryV2.computeProfitLoss entry1 (Some account))%Q
  /\ (EntryV2.brokerAmount e2 == 3 * EntryV2.brokerAmount e1)%Q
  /\ (EntryV2.companyAmount e2 == 3 * EntryV2.companyAmount e1)%Q.
Proof.
  cbv zeta.
  assert (Hpl : (EntryV2.computeProfitLoss
                   (Sample.entryV2 (Some 1000%Q) (Some 1300%Q) (Some 0%Q)
                      (Some 0%Q))
                   (Some (Sample.accountV2 (Some "b1"%string) (Some 5%Q) None))
                 == 3 * EntryV2.computeProfitLoss
                       (Sample.entryV2 (Some 1000%Q) (Some 1100%Q) (Some 0%Q)
                          (Some 0%Q))
                       (Some (Sample.accountV2 (Some "b1"%string) (Some 5%Q)
                                None)))%Q)
    by (vm_compute; reflexivity).
  pose proof (split_proportional
                (Sample.entryV2 (Some 1000%Q) (Some 1100%Q) (Some 0%Q)
                   (Some 0%Q))
                (Sample.entryV2 (Some 1000%Q) (Some 1300%Q) (Some 0%Q)
                   (Some 0%Q))
                (Sample.accountV2 (Some "b1"%string) (Some 5%Q) None)
                (Sample.user 50%Q)
                (Some (Sample.broker percentage (Some 10%Q) None)) 10%Q
                (Some (Sample.agent 10%Q 0%Q)) 3%Q Hpl) as H.
  assert (Ha : forall a, Some (Sample.agent 10%Q 0%Q) = Some a ->
                 (orZero (Agent.flatCommission a) == 0)%Q).
  { intros a Ea. injection Ea as <-. vm_compute. reflexivity. }
  assert (Hb : forall b,
                 Some (Sample.broker percentage (Some 10%Q) None) = Some b ->
                 (orZero (Broker.flatCommission b) == 0)%Q).
  { intros b Eb. injection Eb as <-. vm_compute. reflexivity. }
  specialize (H Ha Hb). cbv zeta in H.
  destruct H as [_ [_ [_ [Hbroker [_ [_ Hcompany]]]]]].
  split; [ exact Hpl | split; [ exact Hbroker | exact Hcompany ] ].
Defined.

(** The pph account with entries on the 13th and the 14th: the form of the
    15th starts from the ending balance of the 14th. *)
Lemma fetchAccountData_prefills_from_latest_entry_witness :
  NoDup (map EntryV2.date
           (ScreenV2.entriesQuery "a1" "u1" (Scene.dbV2 None)))
  /\ exists m,
       In m (ScreenV2.entriesQuery "a1" "u1" (Scene.dbV2 None))
       /\ (forall e,
             In e (ScreenV2.entriesQuery "a1" "u1" (Scene.dbV2 None)) ->
             e <> m -> String.ltb (EntryV2.date e) (EntryV2.date m) = true)
       /\ EntryV2.startingBalance
            (ScreenV2.currentEntry
               (ScreenV2.fetchAccountData "a1" "u1" Scene.today
                  (Scene.dbV2 None)
                  (ScreenV2.initialState "a1" "u1" Scene.today)))
          = Some (orZero (EntryV2.endingBalance m)).
Proof.
  assert (Hnd : NoDup (map EntryV2.date
                         (ScreenV2.entriesQuery "a1" "u1" (Scene.dbV2 None)))).
  { vm_compute. repeat constructor; simpl; intuition discriminate. }
  split; [ exact Hnd | ].
  pose proof (fetchAccountData_prefills_from_latest_entry (N:=float)
                "a1" "u1" Scene.today (Scene.dbV2 None)
                (ScreenV2.initialState "a1" "u1" Scene.today)
                (Scene.accountDocV2 None)) as H.
  assert (h1 : String.eqb "a1" EmptyString = false) by reflexivity.
  assert (h2 : ScreenV2.db_account (Scene.dbV2 None)
               = Some (Scene.accountDocV2 None)) by reflexivity.
  assert (h3 : ScreenV2.doc_type (Scene.accountDocV2 None) <> Some legal)
    by discriminate.
  assert (h4 : ScreenV2.entriesQuery "a1" "u1" (Scene.dbV2 None) <> [])
    by discriminate.
  assert (h5 : find (fun e => String.eqb (EntryV2.date e) Scene.today)
                 (ScreenV2.entriesQuery "a1" "u1" (Scene.dbV2 None)) = None)
    by reflexivity.
  exact (H h1 h2 h3 h4 Hnd h5).
Defined.

(** With broker [b1] on the account the screen holds that broker, and a
    profit of 300 gives it 10 percent plus 25; without a broker on the
    account the broker amount is 0. *)
Lemma fetchAccountData_loads_the_accounts_broker_witness :
  let load brokerId :=
    ScreenV2.fetchAccountData "a1" "u1" Scene.today (Scene.dbV2 brokerId)
      (ScreenV2.initialState "a1" "u1" Scene.today) in
  let entry := Scene.entryOn "e3" "2025-01-15" 1500 1800 in
  let acc brokerId :=
    {| EntryV2.type := pph; EntryV2.agentId := "g1";
       EntryV2.brokerId := brokerId; EntryV2.status := active;
       EntryV2.depositAmount := None; EntryV2.referralPercentage := None;
       EntryV2.promoAmount := None |} in
  ScreenV2.broker (load (Some "b1"%string))
  = Some (Sample.broker both (Some 10) (Some 25))
  /\ EntryV2.brokerAmount
       (EntryV2.calculateAmounts entry (Some (acc (Some "b1"%string)))
          (Some (Sample.user 50)) (ScreenV2.broker (load (Some "b1"%string)))
          10 (Fetched None))
     = (EntryV2.computeProfitLoss entry (Some (acc (Some "b1"%string)))
        * orZero (Some 10) / num_hundred + orZero (Some 25))%js
  /\ EntryV2.brokerAmount
       (EntryV2.calculateAmounts entry (Some (acc None))
          (Some (Sample.user 50)) (ScreenV2.broker (load None))
          10 (Fetched None))
     = 0.
Proof.
  cbv zeta.
  pose proof (fetchAccountData_loads_the_accounts_broker (N:=float)
                "a1" "u1" Scene.today (Scene.dbV2 (Some "b1"%string))
                (Scene.accountDocV2 (Some "b1"%string))) as H.
  by_evaluation H. cbv zeta in H.
  destruct H as [Hb [_ [_ Hsome]]].
  pose proof (fetchAccountData_loads_the_accounts_broker (N:=float)
                "a1" "u1" Scene.today (Scene.dbV2 None)
                (Scene.accountDocV2 None)) as G.
  by_evaluation G. cbv zeta in G.
  destruct G as [_ [_ [Hnone _]]].
  split; [ exact Hb | split ].
  - refine (Hsome (Sample.broker both (Some 10) (Some 25)) _
              (Scene.entryOn "e3" "2025-01-15" 1500 1800) _
              (Sample.user 50) 10 None _); reflexivity.
  - refine (Hnone _ (Scene.entryOn "e3" "2025-01-15" 1500 1800) _
              (Sample.user 50) 10 None _); reflexivity.
Defined.

(** A typed rate of 15 is stored and shown when the write goes through,
    and nothing changes when the write is rejected. *)
Lemma updateTaxRate_stores_rates_in_range_witness :
  fst (TaxModal.updateTaxRate true (Some 10) Scene.modal) = Some 15
  /\ TaxModal.taxRate (snd (TaxModal.updateTaxRate true (Some 10) Scene.modal))
     = 15
  /\ TaxModal.updateTaxRate false (Some 10) Scene.modal
     = (Some 10, Scene.modal).
Proof.
  pose proof (updateTaxRate_stores_rates_in_range true (Some 10) Scene.modal)
    as H.
  cbv zeta in H. destruct H as [H _]. by_evaluation H.
  destruct H as [Hdoc [Hrate _]].
  pose proof (updateTaxRate_stores_rates_in_range false (Some 10) Scene.modal)
    as G.
  cbv zeta in G. destruct G as [_ G]. by_evaluation G.
  split; [ exact Hdoc | split; [ exact Hrate | exact G ] ].
Defined.

(** A rate of 15 saved by the admin taxes a profit of 300 at 15 percent on
    the player's screen. *)
Lemma saved_tax_rate_reaches_the_split_witness :
  let stored := fst (TaxModal.updateTaxRate true (Some 10) Scene.modal) in
  let entry := Scene.entryOn "e3" "2025-01-15" 1500 1800 in
  let account := Sample.accountV2 None None None in
  PrimFloat.ltb 0 (TaxModal.newTaxRate Scene.modal) = true
  /\ EntryV2.fetchTaxRate (Fetched stored) EntryV2.initialTaxRate = 15
  /\ EntryV2.taxableAmount
       (EntryV2.calculateAmounts entry (Some account) (Some (Sample.user 50))
          None
          (EntryV2.fetchTaxRate (Fetched stored) EntryV2.initialTaxRate)
          (Fetched None))
     = EntryV2.computeProfitLoss entry (Some account) * 15 / 100.
Proof.
  cbv zeta. split; [ reflexivity | ].
  pose proof (saved_tax_rate_reaches_the_split (Some 10) Scene.modal
                (Scene.entryOn "e3" "2025-01-15" 1500 1800)
                (Sample.accountV2 None None None) (Sample.user 50) None None
                "a1" "u1" Scene.today) as H.
  cbv zeta in H. by_evaluation H.
  destruct H as [Hrate [_ Htax]].
  split; [ exact Hrate | exact Htax ].
Defined.

(** Two accounts, two players and three entries: the rows of either table
    add up to the total profit of 75 and to three transactions. *)
Lemma account_rows_add_up_to_the_totals_witness :
  NoDup (map Stats.id Scene.accounts)
  /\ (fold_right (fun a s => Stats.accountProfit a Scene.entries + s) 0
        Scene.accounts
      == Stats.totalProfit Scene.entries)%Q
  /\ fold_right (fun a s => (Stats.accountTotalEntries a Scene.entries + s)%nat)
       O Scene.accounts
     = Stats.totalTransactions Scene.entries.
Proof.
  assert (Hnd : NoDup (map Stats.id Scene.accounts)).
  { vm_compute. repeat constructor; simpl; intuition discriminate. }
  split; [ exact Hnd | ].
  apply (account_rows_add_up_to_the_totals Scene.accounts Scene.entries Hnd).
  intros e He. vm_compute in He. vm_compute.
  repeat (destruct He as [<- | He]; [ auto | ]). contradiction.
Defined.

Lemma player_rows_add_up_to_the_totals_witness :
  NoDup (map User.uid Scene.players)
  /\ (fold_right (fun p s => Stats.playerProfit p Scene.entries + s) 0
        Scene.players
      == Stats.totalProfit Scene.entries)%Q
  /\ fold_right (fun p s => (Stats.playerTotalEntries p Scene.entries + s)%nat)
       O Scene.players
     = Stats.totalTransactions Scene.entries.
Proof.
  assert (Hnd : NoDup (map User.uid Scene.players)).
  { vm_compute. repeat constructor; simpl; intuition discriminate. }
  split; [ exact Hnd | ].
  apply (player_rows_add_up_to_the_totals Scene.players Scene.entries Hnd).
  intros e He. vm_compute in He. vm_compute.
  repeat (destruct He as [<- | He]; [ auto | ]). contradiction.
Defined.

(** An entry of account [a9], which is not fetched, adds its 60 to the
    total profit and nothing to the row of [a1]. *)
Lemma orphan_entry_is_in_the_total_and_in_no_row_witness :
  let e := Scene.settled "a9" "u1" 60%Q in
  ~ In (EntryV2.accountId e) (map Stats.id Scene.accounts)
  /\ (Stats.totalProfit (e :: Scene.entries)
      == orZero (Some (EntryV2.profitLoss e))
         + Stats.totalProfit Scene.entries)%Q
  /\ Stats.accountProfit (Scene.row "a1") (e :: Scene.entries)
     = Stats.accountProfit (Scene.row "a1") Scene.entries.
Proof.
  cbv zeta.
  assert (Hno : ~ In (EntryV2.accountId (Scene.settled "a9" "u1" 60%Q))
                  (map Stats.id Scene.accounts)).
  { vm_compute. intuition discriminate. }
  split; [ exact Hno | ].
  destruct (orphan_entry_is_in_the_total_and_in_no_row Scene.accounts
              Scene.entries (Scene.settled "a9" "u1" 60%Q) Hno)
    as [Htotal [_ Hrows]].
  split; [ exact Htotal | ].
  apply (Hrows (Scene.row "a1")). left. reflexivity.
Defined.
